(** * A shallow embedding of [vox_updated.py]

    The scraper fetches a cinema listing page, parses it into [Movie]
    records, enriches every record with the showtimes of a range of
    consecutive days, and exports the records as JSON.

    The embedding follows the Python source function by function.  The
    library calls it makes ([datetime], [re], [json], BeautifulSoup's tree
    navigation) are embedded from the behaviour of CPython 3.11 and bs4 4.x;
    the network, the HTML tokenizer, the file system, the encoding of
    the console and the Unicode character tables are parameters
    ([Platform] and [World]).

    Part I holds the definitions, Part II the lemmas and theorems. *)

From Stdlib Require Import ZArith List Bool Lia String Ascii Finite DecimalString.
Import ListNotations.
Open Scope Z_scope.

(* ================================================================== *)
(** * Part I: definitions *)
(* ================================================================== *)

(** ** Python [str]: a sequence of Unicode code points *)

Definition str := list Z.

(** [py "abc"] is the Python literal ["abc"] (ASCII literals only). *)
Definition py (s : string) : str :=
  map (fun a => Z.of_N (N_of_ascii a)) (list_ascii_of_string s).

Fixpoint str_eqb (a b : str) : bool :=
  match a, b with
  | [], [] => true
  | x :: a', y :: b' => (x =? y) && str_eqb a' b'
  | _, _ => false
  end.

(** [bool(s)]: a string is truthy when it is not empty. *)
Definition truthy (s : str) : bool :=
  match s with [] => false | _ :: _ => true end.

(** [str.isspace] on one code point (the characters CPython counts as
    whitespace). *)
Definition isspace (c : Z) : bool :=
  ((9 <=? c) && (c <=? 13)) || ((28 <=? c) && (c <=? 32))
  || (c =? 133) || (c =? 160) || (c =? 5760)
  || ((8192 <=? c) && (c <=? 8202))
  || (c =? 8232) || (c =? 8233) || (c =? 8239) || (c =? 8287)
  || (c =? 12288).

Fixpoint lstrip (s : str) : str :=
  match s with
  | [] => []
  | c :: s' => if isspace c then lstrip s' else s
  end.

Definition rstrip (s : str) : str := rev (lstrip (rev s)).

(** [s.strip()] *)
Definition strip (s : str) : str := rstrip (lstrip s).

(** [s.startswith(p)] *)
Fixpoint startswith (p s : str) : bool :=
  match p, s with
  | [], _ => true
  | x :: p', y :: s' => (x =? y) && startswith p' s'
  | _ :: _, [] => false
  end.

(** [sub in s] *)
Fixpoint contains (sub s : str) : bool :=
  startswith sub s ||
  match s with
  | [] => false
  | _ :: s' => contains sub s'
  end.

(** [s.replace(old, "")] for a non-empty [old]: the occurrences of [old]
    are found from left to right, without overlap, and removed.  [skip]
    counts the characters of a found occurrence that remain to be
    dropped. *)
Fixpoint remove_from (old : str) (skip : nat) (s : str) : str :=
  match s with
  | [] => []
  | c :: s' =>
      match skip with
      | S k => remove_from old k s'
      | O =>
          if startswith old s
          then remove_from old (Nat.pred (List.length old)) s'
          else c :: remove_from old O s'
      end
  end.

Definition remove_all (old s : str) : str := remove_from old O s.

(** [sep.join(parts)] *)
Fixpoint join (sep : str) (parts : list str) : str :=
  match parts with
  | [] => []
  | [p] => p
  | p :: rest => p ++ sep ++ join sep rest
  end.

(** [str(z)] for an integer *)
Definition str_of_Z (z : Z) : str :=
  py (NilZero.string_of_int (Z.to_int z)).

(** an ASCII character *)
Definition is_ascii (c : Z) : bool := (0 <=? c) && (c <? 128).

(** ** Exceptions and outcomes

    Every exception the embedding raises is an instance of Python's
    [Exception]; it carries its class name and its message ([str(e)]). *)

Record exn := mk_exn { exc_class : str; exc_msg : str }.

Inductive outcome (A : Type) : Type :=
| Ok (a : A)
| Raise (e : exn).
Arguments Ok {A} a.
Arguments Raise {A} e.

Definition ValueError (msg : str) : exn := mk_exn (py "ValueError") msg.
Definition OverflowError (msg : str) : exn := mk_exn (py "OverflowError") msg.
Definition HTTPError (msg : str) : exn := mk_exn (py "HTTPError") msg.
Definition UnicodeEncodeError (msg : str) : exn :=
  mk_exn (py "UnicodeEncodeError") msg.

(** ** The platform: Unicode tables and the C library *)

Class Platform := {
  (** the decimal value of a code point of category Nd ([\d], [int]) *)
  unicode_decimal : Z -> option Z;
  (** [str.isalnum] on one code point (the basis of [\w] and [\b]) *)
  unicode_isalnum : Z -> bool;
  (** [repr(s)]: the quotes and escapes depend on which code points the
      Unicode tables count as printable *)
  repr : str -> str;
  (** what the C library's [strftime] prints for [%Y] below year 1000
      (glibc does not pad, other libraries pad with zeros) *)
  strftime_Y_small : Z -> str
}.

(** ** [datetime]: the proleptic Gregorian calendar of CPython *)

Module Calendar.

Definition MINYEAR : Z := 1.
Definition MAXYEAR : Z := 9999.
Definition MAXORDINAL : Z := 3652059.

Definition DAYS_IN_MONTH : list Z :=
  [-1; 31; 28; 31; 30; 31; 30; 31; 31; 30; 31; 30; 31].
Definition DAYS_BEFORE_MONTH : list Z :=
  [-1; 0; 31; 59; 90; 120; 151; 181; 212; 243; 273; 304; 334].

(** list indexing with an index known to be in range *)
Definition index (l : list Z) (i : Z) : Z := nth (Z.to_nat i) l 0.

Definition is_leap (year : Z) : bool :=
  (year mod 4 =? 0) && (negb (year mod 100 =? 0) || (year mod 400 =? 0)).

Definition days_before_year (year : Z) : Z :=
  let y := year - 1 in
  y * 365 + y / 4 - y / 100 + y / 400.

Definition days_in_month (year month : Z) : Z :=
  if (month =? 2) && is_leap year then 29 else index DAYS_IN_MONTH month.

Definition days_before_month (year month : Z) : Z :=
  index DAYS_BEFORE_MONTH month
  + (if (2 <? month) && is_leap year then 1 else 0).

Definition ymd2ord (year month day : Z) : Z :=
  days_before_year year + days_before_month year month + day.

Definition DI400Y : Z := 146097.
Definition DI100Y : Z := 36524.
Definition DI4Y : Z := 1461.

(** A [datetime] whose time of day is midnight: [strptime] with a date-only
    format produces one, and adding whole days keeps it so. *)
Record datetime := mk_datetime { year : Z; month : Z; day : Z }.

Definition ord2ymd (n : Z) : datetime :=
  let n := n - 1 in
  let n400 := n / DI400Y in
  let n := n mod DI400Y in
  let year := n400 * 400 + 1 in
  let n100 := n / DI100Y in
  let n := n mod DI100Y in
  let n4 := n / DI4Y in
  let n := n mod DI4Y in
  let n1 := n / 365 in
  let n := n mod 365 in
  let year := year + (n100 * 100 + n4 * 4 + n1) in
  if (n1 =? 4) || (n100 =? 4) then mk_datetime (year - 1) 12 31
  else
    let leapyear := (n1 =? 3) && (negb (n4 =? 24) || (n100 =? 3)) in
    let month := Z.shiftr (n + 50) 5 in
    let preceding :=
      index DAYS_BEFORE_MONTH month
      + (if (2 <? month) && leapyear then 1 else 0) in
    if n <? preceding then
      let month := month - 1 in
      let preceding :=
        preceding
        - (index DAYS_IN_MONTH month
           + (if (month =? 2) && leapyear then 1 else 0)) in
      mk_datetime year month (n - preceding + 1)
    else mk_datetime year month (n - preceding + 1).

Definition toordinal (d : datetime) : Z := ymd2ord (year d) (month d) (day d).

(** The constructor's check of its fields ([_check_date_fields]). *)
Definition check_date_fields (y m d : Z) : outcome datetime :=
  if negb ((MINYEAR <=? y) && (y <=? MAXYEAR))
  then Raise (ValueError (py "year " ++ str_of_Z y ++ py " is out of range"))
  else if negb ((1 <=? m) && (m <=? 12))
  then Raise (ValueError (py "month must be in 1..12"))
  else if negb ((1 <=? d) && (d <=? days_in_month y m))
  then Raise (ValueError (py "day is out of range for month"))
  else Ok (mk_datetime y m d).

(** [timedelta(days=i)] *)
Definition timedelta (days : Z) : outcome Z :=
  if 999999999 <? Z.abs days
  then Raise (OverflowError (py "days=" ++ str_of_Z days
                             ++ py "; must have magnitude <= 999999999"))
  else Ok days.

(** [d + timedelta(days=i)] *)
Definition add_days (d : datetime) (i : Z) : outcome datetime :=
  match timedelta i with
  | Raise e => Raise e
  | Ok days =>
      let o := toordinal d + days in
      if (0 <? o) && (o <=? MAXORDINAL) then Ok (ord2ymd o)
      else Raise (OverflowError (py "date value out of range"))
  end.

(** [d.weekday()]: Monday is 0. *)
Definition weekday (d : datetime) : Z := (toordinal d + 6) mod 7.

Definition day_names : list string :=
  ["Monday"; "Tuesday"; "Wednesday"; "Thursday"; "Friday"; "Saturday";
   "Sunday"]%string.

(** the ASCII digit of [d] *)
Definition digit (d : Z) : Z := 48 + d.

Definition fmt2 (n : Z) : str := [digit (n / 10); digit (n mod 10)].
Definition fmt4 (n : Z) : str :=
  [digit (n / 1000); digit (n / 100 mod 10); digit (n / 10 mod 10);
   digit (n mod 10)].

(** *** Notions used to state the calendar's properties *)

(** a date the [datetime] constructor accepts *)
Definition valid (d : datetime) : Prop :=
  1 <= year d <= 9999 /\ 1 <= month d <= 12 /\
  1 <= day d <= days_in_month (year d) (month d).

(** a date of the calendar, of whatever year *)
Definition dated (d : datetime) : Prop :=
  1 <= year d /\ 1 <= month d <= 12 /\
  1 <= day d <= days_in_month (year d) (month d).

(** the last step of [ord2ymd]: the month and the day of day [n] of a
    year, counted from 0 *)
Definition month_and_day (year : Z) (leapyear : bool) (n : Z) : datetime :=
  let month := Z.shiftr (n + 50) 5 in
  let preceding :=
    index DAYS_BEFORE_MONTH month
    + (if (2 <? month) && leapyear then 1 else 0) in
  if n <? preceding then
    let month := month - 1 in
    let preceding :=
      preceding
      - (index DAYS_IN_MONTH month
         + (if (month =? 2) && leapyear then 1 else 0)) in
    mk_datetime year month (n - preceding + 1)
  else mk_datetime year month (n - preceding + 1).

(** Zeller's congruence for the Gregorian calendar: 0 is Saturday, 1 is
    Sunday, ..., 6 is Friday. *)
Definition zeller (y m d : Z) : Z :=
  let y' := if m <? 3 then y - 1 else y in
  let m' := if m <? 3 then m + 12 else m in
  let K := y' mod 100 in
  let J := y' / 100 in
  (d + 13 * (m' + 1) / 5 + K + K / 4 + J / 4 + 5 * J) mod 7.

Definition zeller_names : list string :=
  ["Saturday"; "Sunday"; "Monday"; "Tuesday"; "Wednesday"; "Thursday";
   "Friday"]%string.

(** the English name of the day of the week of a date, by Zeller's
    congruence *)
Definition english_weekday (d : datetime) : str :=
  py (nth (Z.to_nat (zeller (year d) (month d) (day d))) zeller_names
          ""%string).

(** the date as [YYYY-MM-DD] *)
Definition isoformat (d : datetime) : str :=
  fmt4 (year d) ++ [45] ++ fmt2 (month d) ++ [45] ++ fmt2 (day d).

(** the date as [YYYYMMDD] *)
Definition compact (d : datetime) : str :=
  fmt4 (year d) ++ fmt2 (month d) ++ fmt2 (day d).

(** the calendar date that follows [d] *)
Definition next_day (d : datetime) : datetime :=
  if day d <? days_in_month (year d) (month d)
  then mk_datetime (year d) (month d) (day d + 1)
  else if month d <? 12 then mk_datetime (year d) (month d + 1) 1
  else mk_datetime (year d + 1) 1 1.

(** the [i]-th calendar date after [d] *)
Definition days_after (i : nat) (d : datetime) : datetime :=
  Nat.iter i next_day d.

Section Strftime.
Context `{Platform}.

(** One conversion of [strftime] in the C locale; other directives are
    not used by the program and are copied. *)
Definition directive (c : Z) (d : datetime) : str :=
  if c =? 89 (* Y *) then
    if 1000 <=? year d then fmt4 (year d) else strftime_Y_small (year d)
  else if c =? 109 (* m *) then fmt2 (month d)
  else if c =? 100 (* d *) then fmt2 (day d)
  else if c =? 65 (* A *) then
    py (nth (Z.to_nat (weekday d)) day_names ""%string)
  else [37; c].

(** [d.strftime(fmt)] *)
Fixpoint strftime (fmt : str) (d : datetime) : str :=
  match fmt with
  | [] => []
  | c :: rest =>
      if c =? 37 (* % *) then
        match rest with
        | [] => [37]
        | k :: rest' => directive k d ++ strftime rest' d
        end
      else c :: strftime rest d
  end.

(** *** [datetime.strptime(s, "%Y%m%d")]

    [_strptime] compiles the format to the regular expression
    [(?P<Y>\d\d\d\d)(?P<m>1[0-2]|0[1-9]|[1-9])(?P<d>3[0-1]|[1-2]\d|0[1-9]|[1-9]| [1-9])]
    and matches it at the start of the string.  The alternatives are
    tried in order, with backtracking; each function below lists the ways
    one group can match, in that order, as (value, rest) pairs. *)

Definition in_range (lo hi c : Z) : bool := (lo <=? c) && (c <=? hi).

Definition group_Y (s : str) : list (Z * str) :=
  match s with
  | a :: b :: c :: d :: rest =>
      match unicode_decimal a, unicode_decimal b, unicode_decimal c,
            unicode_decimal d with
      | Some va, Some vb, Some vc, Some vd =>
          [(va * 1000 + vb * 100 + vc * 10 + vd, rest)]
      | _, _, _, _ => []
      end
  | _ => []
  end.

Definition group_m (s : str) : list (Z * str) :=
  (match s with
   | a :: b :: rest =>
       (if (a =? 49) && in_range 48 50 b then [(10 + (b - 48), rest)] else [])
       ++ (if (a =? 48) && in_range 49 57 b then [(b - 48, rest)] else [])
   | _ => []
   end)
  ++ (match s with
      | a :: rest => if in_range 49 57 a then [(a - 48, rest)] else []
      | _ => []
      end).

Definition group_d (s : str) : list (Z * str) :=
  (match s with
   | a :: b :: rest =>
       (if (a =? 51) && in_range 48 49 b then [(30 + (b - 48), rest)] else [])
       ++ (if in_range 49 50 a then
             match unicode_decimal b with
             | Some vb => [((a - 48) * 10 + vb, rest)]
             | None => []
             end
           else [])
       ++ (if (a =? 48) && in_range 49 57 b then [(b - 48, rest)] else [])
   | _ => []
   end)
  ++ (match s with
      | a :: rest => if in_range 49 57 a then [(a - 48, rest)] else []
      | _ => []
      end)
  ++ (match s with
      | a :: b :: rest =>
          if (a =? 32) && in_range 49 57 b then [(b - 48, rest)] else []
      | _ => []
      end).

(** the first way the whole expression matches *)
Definition match_Ymd (s : str) : option (Z * Z * Z * str) :=
  hd_error
    (flat_map (fun '(y, s1) =>
       flat_map (fun '(m, s2) =>
         map (fun '(d, s3) => (y, m, d, s3)) (group_d s2))
         (group_m s1))
       (group_Y s)).

Definition strptime_Ymd (data_string : str) : outcome datetime :=
  match match_Ymd data_string with
  | None =>
      Raise (ValueError (py "time data " ++ repr data_string
                         ++ py " does not match format '%Y%m%d'"))
  | Some (y, m, d, rest) =>
      if truthy rest
      then Raise (ValueError (py "unconverted data remains: " ++ rest))
      else check_date_fields y m d
  end.

End Strftime.

End Calendar.

(** ** Python [dict] with [str] keys

    A dictionary keeps its keys in insertion order; assigning to a key
    that is present replaces the value in place. *)

Definition dict (V : Type) := list (str * V).

Fixpoint dict_set {V : Type} (k : str) (v : V) (d : dict V) : dict V :=
  match d with
  | [] => [(k, v)]
  | (k', v') :: d' =>
      if str_eqb k' k then (k', v) :: d' else (k', v') :: dict_set k v d'
  end.

Fixpoint dict_get {V : Type} (k : str) (d : dict V) : option V :=
  match d with
  | [] => None
  | (k', v') :: d' => if str_eqb k' k then Some v' else dict_get k d'
  end.

Definition keys {V : Type} (d : dict V) : list str := map fst d.

(** ** The parse tree of BeautifulSoup

    A [Tag] has a name, the values of its [class] attribute (bs4 stores
    this attribute as a list), its other attributes and its contents.  A
    [Comment] stands for the string nodes [get_text] leaves out. *)

#[warnings="-register-all"]
Inductive node : Type :=
| Tag (name : str) (class_ : list str) (attrs : list (str * str))
      (contents : list node)
| NavigableString (s : str)
| Comment (s : str).

(** An element in its place: the node and its following siblings. *)
Definition element : Type := node * list node.

Module Soup.

Definition is_named (name : str) (n : node) : bool :=
  match n with
  | Tag name' _ _ _ => str_eqb name' name
  | _ => false
  end.

(** [class_=c]: one of the classes is [c], or the whole attribute is. *)
Definition has_class (c : str) (n : node) : bool :=
  match n with
  | Tag _ classes _ _ =>
      existsb (fun x => str_eqb x c) classes
      || str_eqb (join (py " ") classes) c
  | _ => false
  end.

Definition matches (name : str) (cls : option str) (n : node) : bool :=
  is_named name n &&
  match cls with
  | Some c => has_class c n
  | None => true
  end.

(** [tag.descendants], in document order *)
Fixpoint descendants (n : node) : list element :=
  match n with
  | Tag _ _ _ cs =>
      (fix walk (cs : list node) : list element :=
         match cs with
         | [] => []
         | c :: rest => (c, rest) :: descendants c ++ walk rest
         end) cs
  | _ => []
  end.

(** [tag.find_all(name, class_=cls)] *)
Definition find_all (name : str) (cls : option str) (n : node)
  : list element :=
  filter (fun e => matches name cls (fst e)) (descendants n).

(** [tag.find(name, class_=cls)] *)
Definition find (name : str) (cls : option str) (n : node)
  : option element :=
  hd_error (find_all name cls n).

(** [tag.contents], each child with its following siblings *)
Fixpoint with_siblings (cs : list node) : list element :=
  match cs with
  | [] => []
  | c :: rest => (c, rest) :: with_siblings rest
  end.

Definition children (n : node) : list element :=
  match n with
  | Tag _ _ _ cs => with_siblings cs
  | _ => []
  end.

(** [tag.find_all(name, recursive=False)] *)
Definition find_all_children (name : str) (n : node) : list element :=
  filter (fun e => matches name None (fst e)) (children n).

(** [e.find_next_sibling(name, class_=cls)]: the first of the following
    siblings that matches. *)
Definition find_next_sibling (name : str) (cls : option str) (e : element)
  : option element :=
  hd_error (filter (fun e' => matches name cls (fst e'))
                   (with_siblings (snd e))).

(** the strings [get_text] sees below a tag *)
Definition strings (n : node) : list str :=
  flat_map (fun e => match fst e with
                     | NavigableString s => [s]
                     | _ => []
                     end) (descendants n).

(** [tag.get_text(sep, strip=True)] *)
Definition get_text (sep : str) (n : node) : str :=
  join sep (filter truthy (map strip (strings n))).

(** [tag.string] *)
Fixpoint string (n : node) : option str :=
  match n with
  | Tag _ _ _ [c] => string c
  | Tag _ _ _ _ => None
  | NavigableString s => Some s
  | Comment s => Some s
  end.

Fixpoint assoc (k : str) (l : list (str * str)) : option str :=
  match l with
  | [] => None
  | (k', v) :: l' => if str_eqb k' k then Some v else assoc k l'
  end.

(** [tag.get(key, default)] *)
Definition get (key default : str) (n : node) : str :=
  match n with
  | Tag _ _ attrs _ =>
      match assoc key attrs with
      | Some v => v
      | None => default
      end
  | _ => default
  end.

(** [tag.find(name, string=lambda s: s and sub in s)] *)
Definition find_with_string (name sub : str) (n : node) : option element :=
  hd_error
    (filter (fun e => matches name None (fst e) &&
                      match string (fst e) with
                      | Some s => truthy s && contains sub s
                      | None => false
                      end)
            (descendants n)).

End Soup.

(** ** [re.compile(r'\b\d{1,2}:\d{2}\b').findall] *)

Module Re.
Section Re.
Context `{Platform}.

Definition is_digit (c : Z) : bool :=
  match unicode_decimal c with Some _ => true | None => false end.

Definition is_word (c : option Z) : bool :=
  match c with
  | Some c => unicode_isalnum c || (c =? 95)
  | None => false
  end.

(** [\b] between two neighbouring positions *)
Definition boundary (prev next : option Z) : bool :=
  xorb (is_word prev) (is_word next).

(** the match with a two-digit hour, tried first *)
Definition two_digit_hour (s : str) : bool :=
  match s with
  | a :: b :: c :: d :: e :: rest =>
      is_digit a && is_digit b && (c =? 58) && is_digit d && is_digit e
      && boundary (Some e) (hd_error rest)
  | _ => false
  end.

(** the match with a one-digit hour, tried on backtracking *)
Definition one_digit_hour (s : str) : bool :=
  match s with
  | a :: b :: c :: d :: rest =>
      is_digit a && (b =? 58) && is_digit c && is_digit d
      && boundary (Some d) (hd_error rest)
  | _ => false
  end.

(** the length of the match that starts at [s], after [prev] *)
Definition match_at (prev : option Z) (s : str) : option nat :=
  if boundary prev (hd_error s) then
    if two_digit_hour s then Some 5%nat
    else if one_digit_hour s then Some 4%nat
    else None
  else None.

(** the scan of [findall]: [skip] characters of the last match are still
    to be passed over *)
Fixpoint findall_from (prev : option Z) (skip : nat) (s : str) : list str :=
  match s with
  | [] => []
  | c :: s' =>
      match skip with
      | S k => findall_from (Some c) k s'
      | O =>
          match match_at prev s with
          | Some n => firstn n s :: findall_from (Some c) (Nat.pred n) s'
          | None => findall_from (Some c) O s'
          end
      end
  end.

Definition findall (s : str) : list str := findall_from None O s.

End Re.
End Re.

(** ** The [Movie] record *)

Definition showtimes_t : Type := dict (dict (list str)).

Record day_schedule := mk_day {
  day_of_week : str;
  showtimes : showtimes_t
}.

Record Movie := mk_Movie {
  slug : str;
  identifier : str;
  title : str;
  description : str;
  image_url : str;
  classification : str;
  language : str;
  showtimes_url : str;
  timings : dict day_schedule
}.

Definition set_timings (m : Movie) (t : dict day_schedule) : Movie :=
  mk_Movie (slug m) (identifier m) (title m) (description m) (image_url m)
           (classification m) (language m) (showtimes_url m) t.

Definition BASE_URL : str := py "https://ksa.voxcinemas.com".

(** ** The world: network, HTML parser, file system, console *)

(** A response: its status, the reason phrase of the status line, the URL
    the response came from, and its body. *)
Record response := mk_response {
  status_code : Z;
  reason : str;
  url : str;
  text : str
}.

Class World := {
  (** [requests.get(url)], given the URLs requested before *)
  requests_get : list str -> str -> outcome response;
  (** [BeautifulSoup(html, 'html.parser')] *)
  BeautifulSoup : str -> outcome node;
  (** [with open(filename, "w", encoding="utf-8") as f: f.write(text)]:
      whether the file is opened, written and closed *)
  write_text : str -> str -> outcome unit;
  (** what a failed write leaves in the file: [None] when the file could
      not be opened, so that it is neither created nor truncated;
      otherwise the part of the text that reached the file *)
  left_by_failed_write : str -> str -> option str;
  (** the code points the encoding of [sys.stdout] can encode *)
  console_encodes : Z -> bool;
  (** the message of the [UnicodeEncodeError] for a text the console
      cannot encode *)
  encode_error_message : str -> str;
  (** the encoding of the console covers ASCII *)
  console_ascii : forall c, is_ascii c = true -> console_encodes c = true
}.

Record state := mk_state {
  requested : list str;     (** the URLs requested so far *)
  console : list str;       (** the lines printed so far *)
  files : dict str          (** the files and what they hold *)
}.

(** [print(line)]: the line is encoded as a whole before anything is
    written, so a line the console cannot encode prints nothing. *)
Definition print `{World} (line : str) (st : state)
  : outcome unit * state :=
  if forallb console_encodes line
  then (Ok tt, mk_state (requested st) (console st ++ [line]) (files st))
  else (Raise (UnicodeEncodeError (encode_error_message line)), st).

Definition concat_str (parts : list str) : str := List.concat parts.

(** ** The listing parser *)

Definition parse_article (article : node) : Movie :=
  let slug := strip (Soup.get (py "data-slug") [] article) in
  let identifier := strip (Soup.get (py "data-identifier") [] article) in
  let title := strip (Soup.get (py "data-title") [] article) in
  let description :=
    match Soup.find (py "p") (Some (py "movie-description")) article with
    | Some desc_tag => Soup.get_text [] (fst desc_tag)
    | None => []
    end in
  let image_url :=
    match Soup.find (py "a") None article with
    | Some a_tag =>
        match Soup.find (py "img") None (fst a_tag) with
        | Some img_tag => strip (Soup.get (py "data-src") [] (fst img_tag))
        | None => []
        end
    | None => []
    end in
  let classification :=
    match Soup.find (py "span") (Some (py "classification")) article with
    | Some class_span => Soup.get_text [] (fst class_span)
    | None => []
    end in
  let language :=
    match Soup.find (py "p") (Some (py "language")) article with
    | Some language_p =>
        strip (remove_all (py "Language:") (Soup.get_text [] (fst language_p)))
    | None => []
    end in
  let showtimes_url :=
    match Soup.find_with_string (py "a") (py "Showtimes") article with
    | Some showtimes_a => strip (Soup.get (py "href") [] (fst showtimes_a))
    | None => []
    end in
  mk_Movie slug identifier title description image_url classification
           language showtimes_url [].

(** the body of [parse_movies] once the markup is a tree *)
Definition movies_of_soup (soup : node) : list Movie :=
  map (fun article => parse_article (fst article))
      (Soup.find_all (py "article") (Some (py "movie-summary")) soup).

Definition parse_movies `{World} (html : str) : outcome (list Movie) :=
  match BeautifulSoup html with
  | Raise e => Raise e
  | Ok soup => Ok (movies_of_soup soup)
  end.

(** ** The detail parser *)

Section Detail.
Context `{Platform}.

(** the text of one time entry: the link's text when there is a link *)
Definition time_text (time_li : node) : str :=
  match Soup.find (py "a") None time_li with
  | Some a_tag => Soup.get_text (py " ") (fst a_tag)
  | None => Soup.get_text (py " ") time_li
  end.

(** what one time entry adds to [timings] *)
Definition time_tokens (time_li : node) : list str :=
  let found_times := Re.findall (time_text time_li) in
  match found_times with
  | _ :: _ => found_times
  | [] => if truthy (time_text time_li) then [time_text time_li] else []
  end.

Definition times_of_list (nested_ol : node) : list str :=
  flat_map (fun time_li => time_tokens (fst time_li))
           (Soup.find_all (py "li") None nested_ol).

(** one turn of the loop over the items of an experience list *)
Definition add_experience (experience_dict : dict (list str)) (li : element)
  : dict (list str) :=
  match Soup.find (py "strong") None (fst li) with
  | None => experience_dict
  | Some strong_tag =>
      let experience := Soup.get_text (py " ") (fst strong_tag) in
      match Soup.find (py "ol") None (fst li) with
      | None => experience_dict
      | Some nested_ol =>
          dict_set experience (times_of_list (fst nested_ol)) experience_dict
      end
  end.

Definition experiences_of_list (showtimes_ol : node) : dict (list str) :=
  fold_left add_experience (Soup.find_all_children (py "li") showtimes_ol) [].

(** one turn of the loop over the cinema headings *)
Definition add_place (timings_by_place : showtimes_t) (place_header : element)
  : showtimes_t :=
  let place := Soup.get_text (py " ") (fst place_header) in
  match Soup.find_next_sibling (py "ol") (Some (py "showtimes")) place_header
  with
  | None => timings_by_place
  | Some showtimes_ol =>
      dict_set place (experiences_of_list (fst showtimes_ol)) timings_by_place
  end.

(** the body of [extract_showtimes] once the markup is a tree *)
Definition showtimes_of_soup (soup : node) : showtimes_t :=
  match Soup.find (py "div") (Some (py "dates")) soup with
  | None => []
  | Some dates_div =>
      fold_left add_place
        (Soup.find_all (py "h3") (Some (py "highlight")) (fst dates_div)) []
  end.

Definition extract_showtimes `{World} (detail_html : str)
  : outcome showtimes_t :=
  match BeautifulSoup detail_html with
  | Raise e => Raise e
  | Ok soup => Ok (showtimes_of_soup soup)
  end.

End Detail.

(** ** The page fetcher *)

(** the message [raise_for_status] builds *)
Definition http_error_msg (response : response) : str :=
  if (400 <=? status_code response) && (status_code response <? 500)
  then str_of_Z (status_code response) ++ py " Client Error: "
       ++ reason response ++ py " for url: " ++ url response
  else if (500 <=? status_code response) && (status_code response <? 600)
  then str_of_Z (status_code response) ++ py " Server Error: "
       ++ reason response ++ py " for url: " ++ url response
  else [].

(** [response.raise_for_status()] *)
Definition raise_for_status (response : response) : outcome unit :=
  if truthy (http_error_msg response)
  then Raise (HTTPError (http_error_msg response))
  else Ok tt.

Definition fetch_page `{World} (url : str) (st : state)
  : outcome str * state :=
  let st' := mk_state (requested st ++ [url]) (console st) (files st) in
  match requests_get (requested st) url with
  | Raise e => (Raise e, st')
  | Ok response =>
      match raise_for_status response with
      | Raise e => (Raise e, st')
      | Ok _ => (Ok (text response), st')
      end
  end.

(** ** The range enricher *)

Section Enrich.
Context `{Platform} `{World}.

Definition date_format : str := py "%Y%m%d".
Definition output_date_format : str := py "%Y-%m-%d".

Definition detail_url (movie : Movie) (date_str : str) : str :=
  concat_str [BASE_URL; py "/movies/"; slug movie; py "?d="; date_str;
              py "#showtimes"].

(** [range(n)] *)
Definition range (n : Z) : list Z := map Z.of_nat (seq 0 (Z.to_nat n)).

(** the [try] block of one turn: fetch, then parse *)
Definition fetch_and_extract (url : str) (st : state)
  : outcome showtimes_t * state :=
  match fetch_page url st with
  | (Raise e, st') => (Raise e, st')
  | (Ok detail_html, st') => (extract_showtimes detail_html, st')
  end.

(** One turn of the loop, after [current_date] has been computed.  The
    first [print] stands before the [try] block, and the [print] of the
    handler before the assignment: an exception of either leaves the turn
    without an entry stored. *)
Definition enrich_day (movie : Movie) (current_date : Calendar.datetime)
  (st : state) : Movie * outcome unit * state :=
  let date_str := Calendar.strftime date_format current_date in
  let pretty_date := Calendar.strftime output_date_format current_date in
  let day_of_week := Calendar.strftime (py "%A") current_date in
  let url := detail_url movie date_str in
  match print (concat_str [py "  => Fetching showtimes for '";
                           title movie; py "' on "; pretty_date;
                           py " ("; day_of_week; py ")"]) st with
  | (Raise e, st) => (movie, Raise e, st)
  | (Ok _, st) =>
      match fetch_and_extract url st with
      | (Ok daily_timings, st') =>
          (set_timings movie
             (dict_set pretty_date (mk_day day_of_week daily_timings)
                       (timings movie)), Ok tt, st')
      | (Raise e, st') =>
          match print (concat_str [py "     [Error] "; exc_msg e]) st' with
          | (Raise e', st'') => (movie, Raise e', st'')
          | (Ok _, st'') =>
              (set_timings movie
                 (dict_set pretty_date (mk_day day_of_week [])
                           (timings movie)), Ok tt, st'')
          end
      end
  end.

(** the [for] loop: the movie object is updated in place, so what was
    stored before an exception stays stored *)
Fixpoint enrich_loop (movie : Movie) (start_date : Calendar.datetime)
  (indices : list Z) (st : state) : Movie * outcome unit * state :=
  match indices with
  | [] => (movie, Ok tt, st)
  | i :: rest =>
      match Calendar.add_days start_date i with
      | Raise e => (movie, Raise e, st)
      | Ok current_date =>
          match enrich_day movie current_date st with
          | (movie', Raise e, st') => (movie', Raise e, st')
          | (movie', Ok _, st') => enrich_loop movie' start_date rest st'
          end
      end
  end.

(** [enrich_movie_with_timings_for_dates(movie, start_date_str,
    days_to_check)]: the movie as the call leaves it, and how the call
    ended. *)
Definition enrich_movie_with_timings_for_dates (movie : Movie)
  (start_date_str : str) (days_to_check : Z) (st : state)
  : Movie * outcome unit * state :=
  match Calendar.strptime_Ymd start_date_str with
  | Raise e => (movie, Raise e, st)
  | Ok start_date =>
      enrich_loop (set_timings movie []) start_date (range days_to_check) st
  end.

End Enrich.

(** *** Notions used to state the enricher's properties *)

Section EnrichSpec.
Context `{Platform} `{World}.

(** what the [try] block of a turn yields for [url] when the URLs of
    [hist] were requested before *)
Definition attempt (hist : list str) (url : str) : outcome showtimes_t :=
  match requests_get hist url with
  | Raise e => Raise e
  | Ok response =>
      match raise_for_status response with
      | Raise e => Raise e
      | Ok _ => extract_showtimes (text response)
      end
  end.

(** the showtimes a turn stores for the outcome of its [try] block *)
Definition stored (o : outcome showtimes_t) : showtimes_t :=
  match o with
  | Ok daily_timings => daily_timings
  | Raise _ => []
  end.

(** the URL the enricher builds for a movie and a date *)
Definition url_for (movie : Movie) (d : Calendar.datetime) : str :=
  detail_url movie (Calendar.strftime date_format d).

(** the entries the loop stores for [dates], one after the other, when
    the URLs of [hist] were requested before *)
Fixpoint schedule (movie : Movie) (hist : list str)
  (dates : list Calendar.datetime) : list (str * day_schedule) :=
  match dates with
  | [] => []
  | d :: rest =>
      (Calendar.strftime output_date_format d,
       mk_day (Calendar.strftime (py "%A") d)
              (stored (attempt hist (url_for movie d))))
      :: schedule movie (hist ++ [url_for movie d]) rest
  end.

(** storing entries one after the other *)
Definition store_all {V : Type} (entries : list (str * V)) (d : dict V)
  : dict V :=
  fold_left (fun t kv => dict_set (fst kv) (snd kv) t) entries d.

(** the console can encode the line *)
Definition console_takes (line : str) : Prop :=
  forallb console_encodes line = true.

(** the console can encode every line of [lines] *)
Definition can_print (lines : list str) : Prop :=
  forallb (fun line => forallb console_encodes line) lines = true.

(** the line a turn prints before its [try] block *)
Definition progress_line (movie : Movie) (d : Calendar.datetime) : str :=
  concat_str [py "  => Fetching showtimes for '"; title movie; py "' on ";
              Calendar.strftime output_date_format d; py " (";
              Calendar.strftime (py "%A") d; py ")"].

(** the line the handler of a turn prints *)
Definition error_line (e : exn) : str :=
  concat_str [py "     [Error] "; exc_msg e].

(** the lines a turn prints: the progress line, then the error line when
    its [try] block raised *)
Definition day_lines (movie : Movie) (d : Calendar.datetime)
  (o : outcome showtimes_t) : list str :=
  progress_line movie d
  :: match o with
     | Ok _ => []
     | Raise e => [error_line e]
     end.

(** the lines the loop prints for [dates], when the URLs of [hist] were
    requested before and the console can encode them all *)
Fixpoint log_lines (movie : Movie) (hist : list str)
  (dates : list Calendar.datetime) : list str :=
  match dates with
  | [] => []
  | d :: rest =>
      day_lines movie d (attempt hist (url_for movie d))
      ++ log_lines movie (hist ++ [url_for movie d]) rest
  end.

(** the dates of a range of [n] days from [start] that the calendar
    reaches *)
Definition reached (start : Calendar.datetime) (n : Z) : Z :=
  Z.max 0 (Z.min n (Calendar.MAXORDINAL - Calendar.toordinal start + 1)).

Definition dates_from (start : Calendar.datetime) (n : Z)
  : list Calendar.datetime :=
  map (fun i => Calendar.days_after i start) (seq 0 (Z.to_nat n)).

End EnrichSpec.

(** the loop over dates that the calendar reaches *)
Fixpoint run_days `{Platform} `{World} (movie : Movie)
  (dates : list Calendar.datetime) (st : state)
  : Movie * outcome unit * state :=
  match dates with
  | [] => (movie, Ok tt, st)
  | d :: rest =>
      match enrich_day movie d st with
      | (movie', Raise e, st') => (movie', Raise e, st')
      | (movie', Ok _, st') => run_days movie' rest st'
      end
  end.

(** *** Conforming and concrete platforms *)

(** The C library prints years below 1000 with four digits (as the Python
    documentation describes [%Y]). *)
Definition pads_years `{Platform} : Prop :=
  forall y, strftime_Y_small y = Calendar.fmt4 y.

(** The year of the date is printed with four digits: from year 1000 on
    every C library does so. *)
Definition four_digit_year `{Platform} (d : Calendar.datetime) : Prop :=
  1000 <= Calendar.year d \/ pads_years.

Definition ascii_decimal (c : Z) : option Z :=
  if (48 <=? c) && (c <=? 57) then Some (c - 48) else None.

Definition ascii_isalnum (c : Z) : bool :=
  ((48 <=? c) && (c <=? 57)) || ((65 <=? c) && (c <=? 90))
  || ((97 <=? c) && (c <=? 122)).

(** a platform for examples: the Unicode tables cut down to ASCII and a C
    library that pads years *)
Definition ascii_platform : Platform :=
  {| unicode_decimal := ascii_decimal;
     unicode_isalnum := ascii_isalnum;
     repr := fun s => [39] ++ s ++ [39];
     strftime_Y_small := Calendar.fmt4 |}.

(** a platform for examples whose C library does not pad the year, as
    glibc does not *)
Definition unpadded_platform : Platform :=
  {| unicode_decimal := ascii_decimal;
     unicode_isalnum := ascii_isalnum;
     repr := fun s => [39] ++ s ++ [39];
     strftime_Y_small := str_of_Z |}.

(** a console with the encoding UTF-8, which encodes every code point but
    the surrogates *)
Definition utf8_encodes (c : Z) : bool :=
  is_ascii c || negb ((55296 <=? c) && (c <=? 57343)).

Definition utf8_covers_ascii (c : Z) (Hc : is_ascii c = true)
  : utf8_encodes c = true :=
  @eq_ind_r bool true
    (fun b : bool => b || negb ((55296 <=? c) && (c <=? 57343)) = true)
    eq_refl (is_ascii c) Hc.

(** a console with the encoding ASCII *)
Definition ascii_covers_ascii (c : Z) (Hc : is_ascii c = true)
  : is_ascii c = true := Hc.

(** the messages of the examples' consoles *)
Definition cannot_encode (line : str) : str :=
  py "codec can't encode characters".

Definition empty_document : node := Tag (py "[document]") [] [] [].

(** a world for examples: the third request fails, every other request
    is answered with a page without schedule *)
Definition third_request_fails : World :=
  {| requests_get := fun hist url =>
       if (List.length hist =? 2)%nat
       then Raise (mk_exn (py "ConnectionError") (py "connection refused"))
       else Ok (mk_response 200 (py "OK") url (py "<html></html>"));
     BeautifulSoup := fun html => Ok empty_document;
     write_text := fun filename content => Ok tt;
     left_by_failed_write := fun filename content => None;
     console_encodes := utf8_encodes;
     encode_error_message := cannot_encode;
     console_ascii := utf8_covers_ascii |}.

(** a world for examples: the console has the encoding ASCII, and the
    second request fails with a message that holds an accented letter *)
Definition accented_failure : World :=
  {| requests_get := fun hist url =>
       if (List.length hist =? 1)%nat
       then Raise (mk_exn (py "ConnectionError")
                          (py "connexion refus" ++ [233] ++ py "e"))
       else Ok (mk_response 200 (py "OK") url (py "<html></html>"));
     BeautifulSoup := fun html => Ok empty_document;
     write_text := fun filename content => Ok tt;
     left_by_failed_write := fun filename content => None;
     console_encodes := is_ascii;
     encode_error_message := cannot_encode;
     console_ascii := ascii_covers_ascii |}.

(** a world for examples: every page is missing *)
Definition missing_pages : World :=
  {| requests_get := fun hist url =>
       Ok (mk_response 404 (py "Not Found") url (py "<html></html>"));
     BeautifulSoup := fun html => Ok empty_document;
     write_text := fun filename content => Ok tt;
     left_by_failed_write := fun filename content => None;
     console_encodes := utf8_encodes;
     encode_error_message := cannot_encode;
     console_ascii := utf8_covers_ascii |}.

Definition initial_state : state := mk_state [] [] [].

Definition a_movie : Movie :=
  mk_Movie (py "dune") (py "HO00001") (py "Dune") [] [] (py "PG13")
           (py "English") (py "/movies/dune#showtimes") [].

(** ** [json]: the encoder and the decoder *)

Module Json.

(** the Python values the exporter serializes: [str], [list], [dict] *)
#[warnings="-register-all"]
Inductive value : Type :=
| JString (s : str)
| JArray (items : list value)
| JObject (members : dict value).

Definition hex_digit (d : Z) : Z := if d <? 10 then 48 + d else 87 + d.

(** ['{0:04x}'.format(n)] for [n < 0x10000] *)
Definition hex4 (n : Z) : str :=
  [hex_digit (n / 4096 mod 16); hex_digit (n / 256 mod 16);
   hex_digit (n / 16 mod 16); hex_digit (n mod 16)].

(** what [encode_basestring_ascii] writes for one character *)
Definition escape (c : Z) : str :=
  if c =? 92 then [92; 92]
  else if c =? 34 then [92; 34]
  else if c =? 8 then [92; 98]
  else if c =? 12 then [92; 102]
  else if c =? 10 then [92; 110]
  else if c =? 13 then [92; 114]
  else if c =? 9 then [92; 116]
  else if (32 <=? c) && (c <=? 126) then [c]
  else if c <? 65536 then [92; 117] ++ hex4 c
  else
    let n := c - 65536 in
    let s1 := Z.lor 55296 (Z.land (Z.shiftr n 10) 1023) in
    let s2 := Z.lor 56320 (Z.land n 1023) in
    [92; 117] ++ hex4 s1 ++ [92; 117] ++ hex4 s2.

Definition encode_basestring_ascii (s : str) : str :=
  34 :: flat_map escape s ++ [34].

(** a line break and the indentation of a nesting level, two spaces per
    level *)
Definition newline_indent (level : nat) : str :=
  10 :: repeat 32 (2 * level).

(** [JSONEncoder(indent=2).iterencode], joined *)
Fixpoint encode (level : nat) (o : value) : str :=
  match o with
  | JString s => encode_basestring_ascii s
  | JArray [] => [91; 93]
  | JArray (first :: others) =>
      [91] ++ newline_indent (S level) ++ encode (S level) first
      ++ (fix more (l : list value) : str :=
            match l with
            | [] => []
            | v :: l' =>
                [44] ++ newline_indent (S level) ++ encode (S level) v
                ++ more l'
            end) others
      ++ newline_indent level ++ [93]
  | JObject [] => [123; 125]
  | JObject ((key, first) :: others) =>
      [123] ++ newline_indent (S level) ++ encode_basestring_ascii key
      ++ [58; 32] ++ encode (S level) first
      ++ (fix more (l : dict value) : str :=
            match l with
            | [] => []
            | (k, v) :: l' =>
                [44] ++ newline_indent (S level) ++ encode_basestring_ascii k
                ++ [58; 32] ++ encode (S level) v ++ more l'
            end) others
      ++ newline_indent level ++ [125]
  end.

(** [json.dumps(o, indent=2)], the text [json.dump] writes *)
Definition dumps (o : value) : str := encode 0 o.

Definition is_ws (c : Z) : bool :=
  (c =? 32) || (c =? 9) || (c =? 10) || (c =? 13).

Fixpoint skip_ws (s : str) : str :=
  match s with
  | [] => []
  | c :: s' => if is_ws c then skip_ws s' else s
  end.

Definition hex_value (c : Z) : option Z :=
  if (48 <=? c) && (c <=? 57) then Some (c - 48)
  else if (97 <=? c) && (c <=? 102) then Some (c - 87)
  else if (65 <=? c) && (c <=? 70) then Some (c - 55)
  else None.

Definition decode_uXXXX (a b c d : Z) : option Z :=
  match hex_value a, hex_value b, hex_value c, hex_value d with
  | Some va, Some vb, Some vc, Some vd =>
      Some (((va * 16 + vb) * 16 + vc) * 16 + vd)
  | _, _, _, _ => None
  end.

Definition BACKSLASH (esc : Z) : option Z :=
  if esc =? 34 then Some 34
  else if esc =? 92 then Some 92
  else if esc =? 47 then Some 47
  else if esc =? 98 then Some 8
  else if esc =? 102 then Some 12
  else if esc =? 110 then Some 10
  else if esc =? 114 then Some 13
  else if esc =? 116 then Some 9
  else None.

Definition is_high_surrogate (c : Z) : bool := (55296 <=? c) && (c <=? 56319).
Definition is_low_surrogate (c : Z) : bool := (56320 <=? c) && (c <=? 57343).

Definition append_char (c : Z) (r : option (str * str)) : option (str * str) :=
  match r with
  | Some (chars, rest) => Some (c :: chars, rest)
  | None => None
  end.

(** [scanstring]: the string that starts after an opening quote, and the
    text after its closing quote.  [None] is a [JSONDecodeError]. *)
Fixpoint scanstring (s : str) : option (str * str) :=
  match s with
  | [] => None
  | c :: rest =>
      if c =? 34 then Some ([], rest)
      else if c =? 92 then
        match rest with
        | [] => None
        | esc :: rest1 =>
            if esc =? 117 then
              match rest1 with
              | a :: b :: c1 :: d :: rest2 =>
                  match decode_uXXXX a b c1 d with
                  | None => None
                  | Some uni =>
                      if is_high_surrogate uni then
                        match rest2 with
                        | bs :: u :: a2 :: b2 :: c2 :: d2 :: rest3 =>
                            if (bs =? 92) && (u =? 117) then
                              match decode_uXXXX a2 b2 c2 d2 with
                              | None => None
                              | Some uni2 =>
                                  if is_low_surrogate uni2 then
                                    append_char
                                      (65536
                                       + Z.lor (Z.shiftl (uni - 55296) 10)
                                               (uni2 - 56320))
                                      (scanstring rest3)
                                  else append_char uni (scanstring rest2)
                              end
                            else append_char uni (scanstring rest2)
                        | bs :: u :: _ =>
                            if (bs =? 92) && (u =? 117) then None
                            else append_char uni (scanstring rest2)
                        | _ => append_char uni (scanstring rest2)
                        end
                      else append_char uni (scanstring rest2)
                  end
              | _ => None
              end
            else
              match BACKSLASH esc with
              | Some char => append_char char (scanstring rest1)
              | None => None
              end
        end
      else if (0 <=? c) && (c <? 32) then None
      else append_char c (scanstring rest)
  end.

(** [dict(pairs)] *)
Definition dict_of_pairs {V : Type} (pairs : list (str * V)) : dict V :=
  fold_left (fun t kv => dict_set (fst kv) (snd kv) t) pairs [].

(** The scanner, for strings, arrays and objects ([null], [true],
    [false] and numbers, which the exporter never writes, are left out
    and rejected).  [fuel] bounds the nesting and the number of members;
    [parse_members] starts after the opening quote of a key,
    [parse_items] at the start of a value. *)
Fixpoint scan_once (fuel : nat) (s : str) : option (value * str) :=
  match fuel with
  | O => None
  | S fuel' =>
      match s with
      | [] => None
      | c :: rest =>
          if c =? 34 then
            match scanstring rest with
            | Some (x, r) => Some (JString x, r)
            | None => None
            end
          else if c =? 123 then
            match skip_ws rest with
            | [] => None
            | c1 :: r1 =>
                if c1 =? 125 then Some (JObject [], r1)
                else if c1 =? 34 then
                  match parse_members fuel' r1 with
                  | Some (pairs, r2) => Some (JObject (dict_of_pairs pairs), r2)
                  | None => None
                  end
                else None
            end
          else if c =? 91 then
            match skip_ws rest with
            | [] => None
            | c1 :: r1 =>
                if c1 =? 93 then Some (JArray [], r1)
                else
                  match parse_items fuel' (c1 :: r1) with
                  | Some (values, r2) => Some (JArray values, r2)
                  | None => None
                  end
            end
          else None
      end
  end
with parse_members (fuel : nat) (s : str)
  : option (list (str * value) * str) :=
  match fuel with
  | O => None
  | S fuel' =>
      match scanstring s with
      | None => None
      | Some (key, r) =>
          match skip_ws r with
          | [] => None
          | c :: r1 =>
              if c =? 58 then
                match scan_once fuel' (skip_ws r1) with
                | None => None
                | Some (v, r2) =>
                    match skip_ws r2 with
                    | [] => None
                    | c2 :: r3 =>
                        if c2 =? 125 then Some ([(key, v)], r3)
                        else if c2 =? 44 then
                          match skip_ws r3 with
                          | [] => None
                          | c3 :: r4 =>
                              if c3 =? 34 then
                                match parse_members fuel' r4 with
                                | Some (pairs, r5) =>
                                    Some ((key, v) :: pairs, r5)
                                | None => None
                                end
                              else None
                          end
                        else None
                    end
                end
              else None
          end
      end
  end
with parse_items (fuel : nat) (s : str) : option (list value * str) :=
  match fuel with
  | O => None
  | S fuel' =>
      match scan_once fuel' s with
      | None => None
      | Some (v, r) =>
          match skip_ws r with
          | [] => None
          | c :: r1 =>
              if c =? 93 then Some ([v], r1)
              else if c =? 44 then
                match parse_items fuel' (skip_ws r1) with
                | Some (values, r2) => Some (v :: values, r2)
                | None => None
                end
              else None
          end
      end
  end.

(** [json.loads(s)] *)
Definition loads (s : str) : option value :=
  match scan_once (S (List.length s)) (skip_ws s) with
  | Some (obj, rest) => if truthy (skip_ws rest) then None else Some obj
  | None => None
  end.

End Json.

(** ** Notions used to state the parsers' properties *)

(** induction on parse trees *)
Fixpoint node_induction (P : node -> Prop)
  (HT : forall name classes attrs cs,
      Forall P cs -> P (Tag name classes attrs cs))
  (HS : forall s, P (NavigableString s))
  (HC : forall s, P (Comment s)) (n : node) : P n :=
  match n with
  | Tag name classes attrs cs =>
      HT name classes attrs cs
         ((fix all (cs : list node) : Forall P cs :=
             match cs with
             | [] => Forall_nil P
             | c :: rest =>
                 Forall_cons c (node_induction P HT HS HC c) (all rest)
             end) cs)
  | NavigableString s => HS s
  | Comment s => HC s
  end.

(** the descendants of the children [cs] of a tag *)
Fixpoint descendants_of_children (cs : list node) : list element :=
  match cs with
  | [] => []
  | c :: rest => (c, rest) :: Soup.descendants c ++ descendants_of_children rest
  end.

(** no element below [n] matches *)
Definition lacks (name : str) (cls : option str) (n : node) : Prop :=
  forall e, In e (Soup.descendants n) -> Soup.matches name cls (fst e) = false.

(** no link below [n] has a string that contains [sub] *)
Definition lacks_link_with (sub : str) (n : node) : Prop :=
  forall e s, In e (Soup.descendants n) ->
    Soup.matches (py "a") None (fst e) = true ->
    Soup.string (fst e) = Some s -> truthy s = true ->
    contains sub s = false.

(** The spec's reading of the experience list of a heading: the sibling
    that immediately follows, when it is a list. *)
Definition immediately_following_list (e : element) : option element :=
  match snd e with
  | c :: rest =>
      if Soup.matches (py "ol") (Some (py "showtimes")) c
      then Some (c, rest) else None
  | [] => None
  end.

(** The spec's reading of the language field: the prefix is stripped, the
    rest is kept. *)
Definition without_prefix (prefix s : str) : str :=
  if startswith prefix s then skipn (List.length prefix) s else s.

(** a time token: one or two digits, a colon, two digits *)
Definition is_time `{Platform} (t : str) : bool :=
  match t with
  | [a; b; c; d] =>
      Re.is_digit a && (b =? 58) && Re.is_digit c && Re.is_digit d
  | [a; b; c; d; e] =>
      Re.is_digit a && Re.is_digit b && (c =? 58) && Re.is_digit d
      && Re.is_digit e
  | _ => false
  end.

(** *** The matches of the time pattern, read off the pattern

    [\b\d{1,2}:\d{2}\b] matches at a position when a time of five or of
    four characters starts there between two word boundaries; [findall]
    returns the matches a scan from the left finds, the longer one first
    at each position, none overlapping an earlier one. *)

Section TimePattern.
Context `{Platform}.

(** a character of a word: alphanumeric or the underscore *)
Definition word_char (c : Z) : Prop := unicode_isalnum c = true \/ c = 95.

(** the character of [s] just before position [i] *)
Definition char_before (s : str) (i : nat) : option Z :=
  match i with
  | O => None
  | S j => nth_error s j
  end.

Definition word_before (s : str) (i : nat) : Prop :=
  exists c, char_before s i = Some c /\ word_char c.

Definition word_after (s : str) (i : nat) : Prop :=
  exists c, nth_error s i = Some c /\ word_char c.

(** [\b] at position [i]: a word character on one side and none on the
    other *)
Definition word_boundary (s : str) (i : nat) : Prop :=
  (word_before s i /\ ~ word_after s i)
  \/ (~ word_before s i /\ word_after s i).

(** the pattern matches the [n] characters of [s] from position [i] *)
Definition time_at (s : str) (i n : nat) : Prop :=
  (i + n <= List.length s)%nat
  /\ is_time (firstn n (skipn i s)) = true
  /\ word_boundary s i
  /\ word_boundary s (i + n).

(** the characters of [s] a match [(position, length)] covers *)
Definition piece (s : str) (m : nat * nat) : str :=
  firstn (snd m) (skipn (fst m) s).

(** [ms] are the matches of a scan of [s] from position [from] on *)
Fixpoint leftmost_times (s : str) (from : nat) (ms : list (nat * nat))
  : Prop :=
  match ms with
  | [] => forall i n, (from <= i)%nat -> ~ time_at s i n
  | (p, n) :: ms' =>
      (from <= p)%nat
      /\ (forall i m, (from <= i < p)%nat -> ~ time_at s i m)
      /\ time_at s p n
      /\ (forall m, time_at s p m -> (m <= n)%nat)
      /\ leftmost_times s (p + n) ms'
  end.

End TimePattern.

(** what a heading adds to the output: its name and the experiences of
    its list, when it has one *)
Definition place_entry `{Platform} (place_header : element)
  : list (str * dict (list str)) :=
  match Soup.find_next_sibling (py "ol") (Some (py "showtimes")) place_header
  with
  | None => []
  | Some showtimes_ol =>
      [(Soup.get_text (py " ") (fst place_header),
        experiences_of_list (fst showtimes_ol))]
  end.

(** what an item of an experience list adds: its label and its times,
    when it has both *)
Definition experience_entry `{Platform} (li : element)
  : list (str * list str) :=
  match Soup.find (py "strong") None (fst li) with
  | None => []
  | Some strong_tag =>
      match Soup.find (py "ol") None (fst li) with
      | None => []
      | Some nested_ol =>
          [(Soup.get_text (py " ") (fst strong_tag),
            times_of_list (fst nested_ol))]
      end
  end.

(** [ol] is the first of the siblings after [h] that is a list of
    showtimes; [rest] are the siblings after it *)
Definition following_list (h : element) (ol : node) (rest : list node)
  : Prop :=
  exists pre,
    snd h = pre ++ ol :: rest
    /\ Soup.matches (py "ol") (Some (py "showtimes")) ol = true
    /\ forall c, In c pre ->
         Soup.matches (py "ol") (Some (py "showtimes")) c = false.

(** no sibling after [h] is a list of showtimes *)
Definition no_following_list (h : element) : Prop :=
  forall c, In c (snd h) ->
    Soup.matches (py "ol") (Some (py "showtimes")) c = false.

(** *** Trees for examples *)

Definition text_node (s : string) : node := NavigableString (py s).

Definition time_item (s : string) : node :=
  Tag (py "li") [] [] [Tag (py "a") [] [(py "href", py "#")] [text_node s]].

Definition experience_item (label : string) (times : list node) : node :=
  Tag (py "li") [] []
      [Tag (py "strong") [] [] [text_node label];
       Tag (py "ol") [] [] times].

Definition heading (name : string) : node :=
  Tag (py "h3") [py "highlight"] [] [text_node name].

Definition showtimes_list (items : list node) : node :=
  Tag (py "ol") [py "showtimes"] [] items.

Definition detail_page (contents : list node) : node :=
  Tag (py "[document]") [] [] [Tag (py "div") [py "dates"] [] contents].

(** a heading, a paragraph, then the list *)
Definition page_with_note : node :=
  detail_page
    [heading "Riyadh Park";
     Tag (py "p") [] [] [text_node "Doors open early"];
     showtimes_list [experience_item "Standard" [time_item "10:00"]]].

(** two headings of the same name, two items of the same label *)
Definition page_with_repeats : node :=
  detail_page
    [heading "Riyadh Park";
     showtimes_list [experience_item "Standard" [time_item "10:00"]];
     heading "Riyadh Park";
     showtimes_list
       [experience_item "Standard" [time_item "12:00"];
        experience_item "Gold" [time_item "13:00"];
        experience_item "Standard"
          [time_item "14:30 and 9:15"; Tag (py "li") [] [] [text_node " Sold Out "]]]].

(** a heading with a list, then a heading of the same name without a
    list; an item with times, then an item of the same label without
    times *)
Definition page_with_bare_repeats : node :=
  detail_page
    [heading "Riyadh Park";
     showtimes_list
       [experience_item "Standard" [time_item "10:00"];
        Tag (py "li") [] [] [Tag (py "strong") [] [] [text_node "Standard"]]];
     heading "Riyadh Park"].

Definition no_element : element := (Comment [], []).

(** the cinema headings of a detail page *)
Definition headings_of (page : node) : list element :=
  match Soup.find (py "div") (Some (py "dates")) page with
  | Some dates_div =>
      Soup.find_all (py "h3") (Some (py "highlight")) (fst dates_div)
  | None => []
  end.

Definition article (attrs : list (str * str)) (contents : list node) : node :=
  Tag (py "article") [py "movie-summary"] attrs contents.

(** a listing with one full entry and one bare entry *)
Definition listing_page : node :=
  Tag (py "[document]") [] []
    [article [(py "data-slug", py "dune"); (py "data-title", py " Dune ")]
       [Tag (py "a") [] [(py "href", py "/movies/dune")]
          [Tag (py "img") [] [(py "data-src", py "/img/dune.jpg")] []];
        Tag (py "p") [py "movie-description"] [] [text_node "A desert planet."];
        Tag (py "span") [py "classification"] [] [text_node "PG13"];
        Tag (py "p") [py "language"] []
          [Tag (py "strong") [] [] [text_node "Language:"];
           text_node " English "];
        Tag (py "a") [] [(py "href", py "/movies/dune#showtimes")]
          [text_node "Showtimes"]];
     article [] []].

(** an entry whose language label names the language before the word *)
Definition arabic_entry : node :=
  article [(py "data-slug", py "film")]
    [Tag (py "p") [py "language"] [] [text_node "Arabic Language: Fusha"]].

(** ** The exporter *)

Section Exporter.
Import Json.

Definition json_of_times (times : list str) : value :=
  JArray (map JString times).

Definition json_of_dict {V : Type} (f : V -> value) (d : dict V) : value :=
  JObject (map (fun kv => (fst kv, f (snd kv))) d).

Definition json_of_day (day : day_schedule) : value :=
  JObject [(py "day_of_week", JString (day_of_week day));
           (py "showtimes",
            json_of_dict (json_of_dict json_of_times) (showtimes day))].

(** [asdict(movie)] *)
Definition asdict (movie : Movie) : value :=
  JObject [(py "slug", JString (slug movie));
           (py "identifier", JString (identifier movie));
           (py "title", JString (title movie));
           (py "description", JString (description movie));
           (py "image_url", JString (image_url movie));
           (py "classification", JString (classification movie));
           (py "language", JString (language movie));
           (py "showtimes_url", JString (showtimes_url movie));
           (py "timings", json_of_dict json_of_day (timings movie))].

(** [open(filename, "w")] creates or truncates the file before
    [json.dump] writes: a write that fails after the file was opened
    leaves the part of the text that reached it, and what the file held
    before is lost. *)
Definition save_movies_to_json_file `{World} (movies : list Movie)
  (filename : str) (st : state) : outcome unit * state :=
  let movies_dict := JArray (map asdict movies) in
  match write_text filename (dumps movies_dict) with
  | Raise e =>
      (Raise e,
       mk_state (requested st) (console st)
         (match left_by_failed_write filename (dumps movies_dict) with
          | Some part => dict_set filename part (files st)
          | None => files st
          end))
  | Ok _ =>
      print (py "Data saved to " ++ filename)
            (mk_state (requested st) (console st)
                      (dict_set filename (dumps movies_dict) (files st)))
  end.

(** *** Reading the export back *)

Fixpoint all_some {A : Type} (l : list (option A)) : option (list A) :=
  match l with
  | [] => Some []
  | Some a :: l' =>
      match all_some l' with
      | Some r => Some (a :: r)
      | None => None
      end
  | None :: _ => None
  end.

Definition as_string (v : value) : option str :=
  match v with JString s => Some s | _ => None end.

Definition as_list {A : Type} (f : value -> option A) (v : value)
  : option (list A) :=
  match v with JArray items => all_some (map f items) | _ => None end.

Definition as_dict {A : Type} (f : value -> option A) (v : value)
  : option (dict A) :=
  match v with
  | JObject members =>
      all_some (map (fun kv => match f (snd kv) with
                               | Some a => Some (fst kv, a)
                               | None => None
                               end) members)
  | _ => None
  end.

Definition field {A : Type} (f : value -> option A) (name : string)
  (v : value) : option A :=
  match v with
  | JObject members =>
      match dict_get (py name) members with
      | Some x => f x
      | None => None
      end
  | _ => None
  end.

Definition day_of_json (v : value) : option day_schedule :=
  match field as_string "day_of_week" v,
        field (as_dict (as_dict (as_list as_string))) "showtimes" v with
  | Some dow, Some shows => Some (mk_day dow shows)
  | _, _ => None
  end.

(** the record a JSON object of the export stands for *)
Definition movie_of_json (v : value) : option Movie :=
  match field as_string "slug" v, field as_string "identifier" v,
        field as_string "title" v, field as_string "description" v,
        field as_string "image_url" v, field as_string "classification" v,
        field as_string "language" v, field as_string "showtimes_url" v,
        field (as_dict day_of_json) "timings" v with
  | Some a, Some b, Some c, Some d, Some e, Some f, Some g, Some h, Some t =>
      Some (mk_Movie a b c d e f g h t)
  | _, _, _, _, _, _, _, _, _ => None
  end.

(** reading an exported text back into records *)
Definition read_back (content : str) : option (list Movie) :=
  match loads content with
  | Some v => as_list movie_of_json v
  | None => None
  end.

(** *** What can be exported and read back *)

(** a string of code points in which no high surrogate is followed by a
    low surrogate *)
Fixpoint well_formed (s : str) : bool :=
  match s with
  | [] => true
  | c :: s' =>
      (0 <=? c) && (c <? 1114112)
      && negb (is_high_surrogate c
               && match s' with
                  | c' :: _ => is_low_surrogate c'
                  | [] => false
                  end)
      && well_formed s'
  end.

(** a string without surrogate code points at all *)
Definition no_surrogates (s : str) : bool :=
  forallb (fun c => (0 <=? c) && (c <? 1114112)
                    && negb ((55296 <=? c) && (c <=? 57343))) s.

(** the text after an escaped high surrogate does not go on with the
    escape of a low surrogate *)
Definition calm (text : str) : bool :=
  match text with
  | bs :: u :: tail =>
      if (bs =? 92) && (u =? 117) then
        match tail with
        | a :: b :: c :: d :: _ =>
            match Json.decode_uXXXX a b c d with
            | Some uni2 => negb (Json.is_low_surrogate uni2)
            | None => false
            end
        | _ => false
        end
      else true
  | _ => true
  end.

Fixpoint unique (l : list str) : bool :=
  match l with
  | [] => true
  | k :: l' => negb (existsb (str_eqb k) l') && unique l'
  end.

(** every string is well formed and, as in every Python [dict], no key
    occurs twice *)
Fixpoint exportable (v : value) : bool :=
  match v with
  | JString s => well_formed s
  | JArray items =>
      (fix all (l : list value) : bool :=
         match l with
         | [] => true
         | x :: l' => exportable x && all l'
         end) items
  | JObject members =>
      unique (map fst members)
      && (fix all (l : dict value) : bool :=
            match l with
            | [] => true
            | (k, x) :: l' => well_formed k && exportable x && all l'
            end) members
  end.

(** what the scanner needs to read a value: one step per value, item and
    member *)
Fixpoint weight (v : value) : nat :=
  match v with
  | JString _ => 1
  | JArray items =>
      S ((fix sum (l : list value) : nat :=
            match l with
            | [] => O
            | x :: l' => S (weight x + sum l')
            end) items)
  | JObject members =>
      S ((fix sum (l : dict value) : nat :=
            match l with
            | [] => O
            | (_, x) :: l' => S (weight x + sum l')
            end) members)
  end.

(** induction on JSON values *)
Fixpoint value_induction (P : Json.value -> Prop)
  (HS : forall s, P (Json.JString s))
  (HA : forall items, Forall P items -> P (Json.JArray items))
  (HO : forall members,
      Forall (fun kv => P (snd kv)) members -> P (Json.JObject members))
  (v : Json.value) : P v :=
  match v with
  | Json.JString s => HS s
  | Json.JArray items =>
      HA items
         ((fix all (l : list Json.value) : Forall P l :=
             match l with
             | [] => Forall_nil P
             | x :: l' =>
                 Forall_cons x (value_induction P HS HA HO x) (all l')
             end) items)
  | Json.JObject members =>
      HO members
         ((fix all (l : dict Json.value)
             : Forall (fun kv => P (snd kv)) l :=
             match l with
             | [] => Forall_nil _
             | kv :: l' =>
                 Forall_cons kv (value_induction P HS HA HO (snd kv)) (all l')
             end) members)
  end.

(** what the encoder writes for the items and the members after the
    first *)
Definition more_items (level : nat) (l : list Json.value) : str :=
  flat_map (fun v => [44] ++ Json.newline_indent level ++ Json.encode level v)
           l.

Definition more_members (level : nat) (l : dict Json.value) : str :=
  flat_map (fun kv => [44] ++ Json.newline_indent level
                      ++ Json.encode_basestring_ascii (fst kv) ++ [58; 32]
                      ++ Json.encode level (snd kv)) l.

Fixpoint items_weight (l : list Json.value) : nat :=
  match l with
  | [] => O
  | x :: l' => S (weight x + items_weight l')
  end.

Fixpoint members_weight (l : dict Json.value) : nat :=
  match l with
  | [] => O
  | kv :: l' => S (weight (snd kv) + members_weight l')
  end.

(** the property of one value: what is written is read *)
Definition reads_back (v : Json.value) : Prop :=
  exportable v = true ->
  forall level rest fuel,
    (weight v <= fuel)%nat ->
    Json.scan_once fuel (Json.encode level v ++ rest) = Some (v, rest).

End Exporter.

(** ** The orchestrator *)

Section Main.
Context `{Platform} `{World}.

(** [str(n)] for a length *)
Definition str_of_nat (n : nat) : str :=
  py (NilEmpty.string_of_uint (Nat.to_uint n)).

(** the loop of [main] over the movies *)
Fixpoint enrich_all (movies : list Movie) (st : state)
  : list Movie * outcome unit * state :=
  match movies with
  | [] => ([], Ok tt, st)
  | movie :: rest =>
      match print (py "Enriching '" ++ title movie
                   ++ py "' with daily showtimes...") st with
      | (Raise e, st) => (movie :: rest, Raise e, st)
      | (Ok _, st) =>
          match
            enrich_movie_with_timings_for_dates movie (py "20250212") 10 st
          with
          | (movie', Raise e, st') => (movie' :: rest, Raise e, st')
          | (movie', Ok _, st') =>
              let '(rest', out, st'') := enrich_all rest st' in
              (movie' :: rest', out, st'')
          end
      end
  end.

Definition whatson_url : str := BASE_URL ++ py "/movies/whatson".

(** the [try] block of [main] *)
Definition main_try (st : state) : outcome unit * state :=
  match fetch_page whatson_url st with
  | (Raise e, st) => (Raise e, st)
  | (Ok html, st) =>
      match parse_movies html with
      | Raise e => (Raise e, st)
      | Ok movies =>
          match print (py "Found " ++ str_of_nat (List.length movies)
                       ++ py " movies." ++ [10]) st with
          | (Raise e, st) => (Raise e, st)
          | (Ok _, st) =>
              match enrich_all movies st with
              | (_, Raise e, st) => (Raise e, st)
              | (movies, Ok _, st) =>
                  save_movies_to_json_file movies (py "movies.json") st
              end
          end
      end
  end.

(** [main]: the first [print] stands before the [try] block; an
    exception of the [print] in the handler leaves [main]. *)
Definition main (st : state) : outcome unit * state :=
  match print (py "Fetching movie listings from: " ++ whatson_url) st with
  | (Raise e, st) => (Raise e, st)
  | (Ok _, st) =>
      match main_try st with
      | (Ok _, st) => (Ok tt, st)
      | (Raise e, st) =>
          print (py "Error fetching movie data: " ++ exc_msg e) st
      end
  end.

End Main.

(** a world for examples: the third request fails, every other request
    is answered with a page that holds a schedule *)
Definition third_day_fails : World :=
  {| requests_get := fun hist url =>
       if (List.length hist =? 2)%nat
       then Raise (mk_exn (py "ConnectionError") (py "connection refused"))
       else Ok (mk_response 200 (py "OK") url (py "detail"));
     BeautifulSoup := fun html => Ok page_with_repeats;
     write_text := fun filename content => Ok tt;
     left_by_failed_write := fun filename content => None;
     console_encodes := utf8_encodes;
     encode_error_message := cannot_encode;
     console_ascii := utf8_covers_ascii |}.

(** a world for examples: the listing and the detail pages are served,
    the disk is read-only *)
Definition read_only_disk : World :=
  {| requests_get := fun hist url =>
       if str_eqb url (BASE_URL ++ py "/movies/whatson")
       then Ok (mk_response 200 (py "OK") url (py "listing"))
       else Ok (mk_response 200 (py "OK") url (py "detail"));
     BeautifulSoup := fun html =>
       if str_eqb html (py "listing") then Ok listing_page
       else Ok page_with_repeats;
     write_text := fun filename content =>
       Raise (mk_exn (py "PermissionError")
                     (py "[Errno 13] Permission denied: '" ++ filename
                      ++ py "'"));
     left_by_failed_write := fun filename content => None;
     console_encodes := utf8_encodes;
     encode_error_message := cannot_encode;
     console_ascii := utf8_covers_ascii |}.

(** a world for examples: the listing and the detail pages are served,
    the file is opened and the disk is full before any text reaches it *)
Definition full_disk : World :=
  {| requests_get := fun hist url =>
       if str_eqb url (BASE_URL ++ py "/movies/whatson")
       then Ok (mk_response 200 (py "OK") url (py "listing"))
       else Ok (mk_response 200 (py "OK") url (py "detail"));
     BeautifulSoup := fun html =>
       if str_eqb html (py "listing") then Ok listing_page
       else Ok page_with_repeats;
     write_text := fun filename content =>
       Raise (mk_exn (py "OSError")
                     (py "[Errno 28] No space left on device"));
     left_by_failed_write := fun filename content => Some [];
     console_encodes := utf8_encodes;
     encode_error_message := cannot_encode;
     console_ascii := utf8_covers_ascii |}.

(** a state in which an earlier run has left its export *)
Definition state_after_export : state :=
  mk_state [] [] [(py "movies.json", py "[]")].

(** a record whose title is a high surrogate followed by a low one *)
Definition surrogate_movie : Movie :=
  mk_Movie (py "film") [] [55296; 56320] [] [] [] [] [] [].

(** ** Notions used to state further properties *)

(** The ASCII digits are decimal digits with their values, as in the
    Unicode tables. *)
Definition ascii_digits `{Platform} : Prop :=
  forall c, 48 <= c <= 57 -> unicode_decimal c = Some (c - 48).

(** Decimal digits count as alphanumeric, as [str.isalnum] has it. *)
Definition digits_are_alnum `{Platform} : Prop :=
  forall c, Re.is_digit c = true -> unicode_isalnum c = true.

(** the fields of a record that describe the movie: all but [timings] *)
Definition details (m : Movie) : list str :=
  [slug m; identifier m; title m; description m; image_url m;
   classification m; language m; showtimes_url m].


(** a string with no white space at either end *)
Definition trimmed (s : str) : Prop :=
  (forall c, hd_error s = Some c -> isspace c = false)
  /\ (forall c, hd_error (rev s) = Some c -> isspace c = false).

(** a text of line feeds and printable ASCII characters *)
Definition ascii_text (s : str) : Prop :=
  Forall (fun c => c = 10 \/ 32 <= c <= 126) s.

(** the first of the days [main] asks for *)
Definition main_start : Calendar.datetime := Calendar.mk_datetime 2025 2 12.

(** the ten days [main] asks for *)
Definition main_days : list Calendar.datetime := dates_from main_start 10.

(** the URL of the detail page of a movie for a day *)
Definition page_url (movie : Movie) (d : Calendar.datetime) : str :=
  BASE_URL ++ py "/movies/" ++ slug movie ++ py "?d=" ++ Calendar.compact d
  ++ py "#showtimes".

Section MainSpec.
Context `{Platform} `{World}.

(** the line [main] prints before it enriches a movie *)
Definition enriching_line (movie : Movie) : str :=
  py "Enriching '" ++ title movie ++ py "' with daily showtimes...".

(** the lines the loop of [main] prints for [movies], when the URLs of
    [hist] were requested before and the console can encode them all *)
Fixpoint main_loop_lines (movies : list Movie) (hist : list str)
  : list str :=
  match movies with
  | [] => []
  | movie :: rest =>
      enriching_line movie
      :: log_lines movie hist main_days
      ++ main_loop_lines rest (hist ++ map (url_for movie) main_days)
  end.

End MainSpec.

(** *** Further worlds and trees for examples *)

(** a world without network *)
Definition offline : World :=
  {| requests_get := fun hist url =>
       Raise (mk_exn (py "ConnectionError") (py "connection refused"));
     BeautifulSoup := fun html => Ok empty_document;
     write_text := fun filename content => Ok tt;
     left_by_failed_write := fun filename content => None;
     console_encodes := utf8_encodes;
     encode_error_message := cannot_encode;
     console_ascii := utf8_covers_ascii |}.

(** a world in which the listing and the detail pages are served and the
    file can be written *)
Definition serving : World :=
  {| requests_get := fun hist url =>
       if str_eqb url (BASE_URL ++ py "/movies/whatson")
       then Ok (mk_response 200 (py "OK") url (py "listing"))
       else Ok (mk_response 200 (py "OK") url (py "detail"));
     BeautifulSoup := fun html =>
       if str_eqb html (py "listing") then Ok listing_page
       else Ok page_with_repeats;
     write_text := fun filename content => Ok tt;
     left_by_failed_write := fun filename content => None;
     console_encodes := utf8_encodes;
     encode_error_message := cannot_encode;
     console_ascii := utf8_covers_ascii |}.

(** a listing whose only entry has a title with an accented letter *)
Definition accented_listing : node :=
  Tag (py "[document]") [] []
    [article [(py "data-slug", py "amelie");
              (py "data-title", py "Am" ++ [233] ++ py "lie")] []].

(** a world in which this listing is served and the console has the
    encoding ASCII *)
Definition ascii_console : World :=
  {| requests_get := fun hist url =>
       Ok (mk_response 200 (py "OK") url (py "listing"));
     BeautifulSoup := fun html => Ok accented_listing;
     write_text := fun filename content => Ok tt;
     left_by_failed_write := fun filename content => None;
     console_encodes := is_ascii;
     encode_error_message := cannot_encode;
     console_ascii := ascii_covers_ascii |}.

(** an entry whose first link holds no image, and whose second does *)
Definition entry_with_late_image : node :=
  article [(py "data-slug", py "film")]
    [Tag (py "a") [] [(py "href", py "/movies/film")] [text_node "Film"];
     Tag (py "a") [] [(py "href", py "/movies/film")]
       [Tag (py "img") [] [(py "data-src", py "/img/film.jpg")] []]].

(** a cinema heading followed by a list without items *)
Definition page_with_empty_list : node :=
  detail_page [heading "Riyadh Park"; showtimes_list []].

(** the keys of a sequence of assignments, each at the place of its first
    occurrence *)
Fixpoint first_occurrences (l : list str) : list str :=
  match l with
  | [] => []
  | k :: l' =>
      k :: filter (fun k' => negb (str_eqb k' k)) (first_occurrences l')
  end.

(* ================================================================== *)
(** * Part II: lemmas and theorems *)
(* ================================================================== *)

(** ** Booleans and strings *)

Ltac zbool :=
  repeat match goal with
  | H : _ && _ = true |- _ => apply andb_true_iff in H; destruct H
  | H : _ || _ = false |- _ => apply orb_false_iff in H; destruct H
  | H : negb _ = true |- _ => apply negb_true_iff in H
  | H : negb _ = false |- _ => apply negb_false_iff in H
  | H : (_ =? _) = true |- _ => apply Z.eqb_eq in H
  | H : (_ =? _) = false |- _ => apply Z.eqb_neq in H
  | H : (_ <=? _) = true |- _ => apply Z.leb_le in H
  | H : (_ <=? _) = false |- _ => apply Z.leb_gt in H
  | H : (_ <? _) = true |- _ => apply Z.ltb_lt in H
  | H : (_ <? _) = false |- _ => apply Z.ltb_ge in H
  end.

Lemma str_eqb_eq (a b : str) : str_eqb a b = true <-> a = b.
Proof.
  revert b; induction a as [|x a IH]; intros [|y b]; simpl;
    try (split; [discriminate | congruence]); [tauto|].
  rewrite andb_true_iff, Z.eqb_eq, IH. split.
  - intros [-> ->]; reflexivity.
  - intros E; inversion E; auto.
Qed.

Lemma str_eqb_refl (a : str) : str_eqb a a = true.
Proof. apply str_eqb_eq; reflexivity. Qed.

Lemma str_eqb_neq (a b : str) : str_eqb a b = false <-> a <> b.
Proof.
  rewrite <- str_eqb_eq. destruct (str_eqb a b); split; congruence.
Qed.

(** ** The calendar *)

Module CalendarFacts.
Import Calendar.

Lemma check_date_fields_Ok y m d dt :
  check_date_fields y m d = Ok dt -> dt = mk_datetime y m d /\ valid dt.
Proof.
  unfold check_date_fields, MINYEAR, MAXYEAR.
  destruct (negb _) eqn:E1; [discriminate|].
  destruct (negb ((1 <=? m) && _)) eqn:E2; [discriminate|].
  destruct (negb ((1 <=? d) && _)) eqn:E3; [discriminate|].
  intros [= <-]. zbool. split; [reflexivity|]. unfold valid; simpl. lia.
Qed.

Lemma check_date_fields_valid d :
  valid d -> check_date_fields (year d) (month d) (day d) = Ok d.
Proof.
  intros (Hy & Hm & Hd). unfold check_date_fields, MINYEAR, MAXYEAR.
  replace ((1 <=? year d) && (year d <=? 9999)) with true
    by (symmetry; apply andb_true_iff; rewrite !Z.leb_le; lia).
  replace ((1 <=? month d) && (month d <=? 12)) with true
    by (symmetry; apply andb_true_iff; rewrite !Z.leb_le; lia).
  replace ((1 <=? day d) && (day d <=? days_in_month (year d) (month d)))
    with true by (symmetry; apply andb_true_iff; rewrite !Z.leb_le; lia).
  destruct d; reflexivity.
Qed.

(** looking up the month tables at a given month *)
Ltac is_numeral v :=
  lazymatch v with
  | Z.pos _ => idtac
  | Z.neg _ => idtac
  | Z0 => idtac
  end.

Ltac eval_index :=
  repeat match goal with
  | |- context [index ?l ?m] =>
      let v := eval vm_compute in (index l m) in
      is_numeral v; change (index l m) with v
  | H : context [index ?l ?m] |- _ =>
      let v := eval vm_compute in (index l m) in
      is_numeral v; change (index l m) with v in H
  end.

(** case analysis on a month in 1..12 *)
Ltac by_month m :=
  let H := fresh in
  assert (H : m = 1 \/ m = 2 \/ m = 3 \/ m = 4 \/ m = 5 \/ m = 6 \/ m = 7 \/
              m = 8 \/ m = 9 \/ m = 10 \/ m = 11 \/ m = 12) by lia;
  repeat (destruct H as [H | H]); subst m; eval_index.

(** the years before [y]: whole cycles of 400 years, centuries, cycles of
    four years, and years *)
Lemma year_parts y :
  1 <= y ->
  exists a b c e,
    y - 1 = 400 * a + 100 * b + 4 * c + e
    /\ 0 <= a /\ 0 <= b <= 3 /\ 0 <= c <= 24 /\ 0 <= e <= 3.
Proof.
  intros Hy.
  exists ((y - 1) / 400), ((y - 1) mod 400 / 100), ((y - 1) mod 100 / 4),
         ((y - 1) mod 4).
  Z.div_mod_to_equations. lia.
Qed.

Lemma days_before_year_parts y a b c e :
  y - 1 = 400 * a + 100 * b + 4 * c + e ->
  0 <= b <= 3 -> 0 <= c <= 24 -> 0 <= e <= 3 ->
  days_before_year y = 146097 * a + 36524 * b + 1461 * c + 365 * e.
Proof.
  intros E Hb Hc He. unfold days_before_year. cbv zeta. rewrite E.
  assert (E4 : (400 * a + 100 * b + 4 * c + e) / 4 = 100 * a + 25 * b + c)
    by (symmetry; apply (Z.div_unique _ 4 _ e); lia).
  assert (E100 : (400 * a + 100 * b + 4 * c + e) / 100 = 4 * a + b)
    by (symmetry; apply (Z.div_unique _ 100 _ (4 * c + e)); lia).
  assert (E400 : (400 * a + 100 * b + 4 * c + e) / 400 = a)
    by (symmetry; apply (Z.div_unique _ 400 _ (100 * b + 4 * c + e)); lia).
  rewrite E4, E100, E400. lia.
Qed.

Lemma is_leap_parts y a b c e :
  y - 1 = 400 * a + 100 * b + 4 * c + e ->
  0 <= b <= 3 -> 0 <= c <= 24 -> 0 <= e <= 3 ->
  is_leap y = (e =? 3) && (negb (c =? 24) || (b =? 3)).
Proof.
  intros E Hb Hc He. unfold is_leap.
  assert (Ey : y = 400 * a + 100 * b + 4 * c + e + 1) by lia.
  assert (M4 : y mod 4 = (e + 1) mod 4)
    by (rewrite Ey;
        replace (400 * a + 100 * b + 4 * c + e + 1)
          with (e + 1 + (100 * a + 25 * b + c) * 4) by lia;
        apply Z.mod_add; lia).
  assert (M100 : y mod 100 = (4 * c + e + 1) mod 100)
    by (rewrite Ey;
        replace (400 * a + 100 * b + 4 * c + e + 1)
          with (4 * c + e + 1 + (4 * a + b) * 100) by lia;
        apply Z.mod_add; lia).
  assert (M400 : y mod 400 = (100 * b + 4 * c + e + 1) mod 400)
    by (rewrite Ey;
        replace (400 * a + 100 * b + 4 * c + e + 1)
          with (100 * b + 4 * c + e + 1 + a * 400) by lia;
        apply Z.mod_add; lia).
  rewrite M4, M100, M400.
  destruct (Z.eqb_spec e 3) as [->|Ne].
  - change ((3 + 1) mod 4) with 0. cbn [Z.eqb andb].
    destruct (Z.eqb_spec c 24) as [->|Nc].
    + change ((4 * 24 + 3 + 1) mod 100) with 0. cbn [Z.eqb negb orb].
      destruct (Z.eqb_spec b 3) as [->|Nb]; [reflexivity|].
      apply Z.eqb_neq. Z.div_mod_to_equations. lia.
    + cbn [negb orb].
      replace ((4 * c + 3 + 1) mod 100 =? 0) with false; [reflexivity|].
      symmetry. apply Z.eqb_neq. Z.div_mod_to_equations. lia.
  - cbn [andb].
    replace ((e + 1) mod 4 =? 0) with false; [reflexivity|].
    symmetry. apply Z.eqb_neq. Z.div_mod_to_equations. lia.
Qed.

(** evaluating the comparisons and differences of numerals *)
Ltac eval_tests :=
  repeat match goal with
  | |- context [?a <? ?b] =>
      is_numeral a; is_numeral b;
      let v := eval vm_compute in (a <? b) in change (a <? b) with v
  | |- context [?a =? ?b] =>
      is_numeral a; is_numeral b;
      let v := eval vm_compute in (a =? b) in change (a =? b) with v
  | |- context [?a - ?b] =>
      is_numeral a; is_numeral b;
      let v := eval vm_compute in (a - b) in change (a - b) with v
  end;
  cbn [andb].

(** the month estimated by [(n + 50) >> 5] is the month of the day or the
    one after *)
Ltac estimate_month :=
  lazymatch goal with
  | |- context [(?n + 50) / 32] =>
      lazymatch goal with
      | |- _ = mk_datetime _ ?k _ =>
          let k1 := eval vm_compute in (k + 1) in
          let E := fresh "E" in
          assert (E : (n + 50) / 32 = k \/ (n + 50) / 32 = k1)
            by (Z.div_mod_to_equations; lia);
          destruct E as [E | E]; rewrite E
      end
  end.

Lemma month_and_day_spec y (leap : bool) m d :
  1 <= m <= 12 ->
  1 <= d <= (if (m =? 2) && leap then 29 else index DAYS_IN_MONTH m) ->
  month_and_day y leap
    (index DAYS_BEFORE_MONTH m + (if (2 <? m) && leap then 1 else 0) + d - 1)
  = mk_datetime y m d.
Proof.
  intros Hm Hd. unfold month_and_day. cbv zeta.
  rewrite Z.shiftr_div_pow2 by lia. change (2 ^ 5) with 32.
  by_month m; destruct leap;
    cbn [Z.eqb Pos.eqb Z.ltb Z.compare Pos.compare Pos.compare_cont andb]
      in Hd |- *;
    estimate_month; eval_tests; eval_index;
    match goal with
    | |- context [if ?a <? ?b then _ else _] => destruct (Z.ltb_spec a b)
    end;
    try (f_equal; lia); exfalso; Z.div_mod_to_equations; lia.
Qed.

Lemma div_mod_parts q r k :
  0 <= r < k -> (k * q + r) / k = q /\ (k * q + r) mod k = r.
Proof.
  intros Hr. split.
  - symmetry. apply (Z.div_unique _ k q r); lia.
  - symmetry. apply (Z.mod_unique _ k q r); lia.
Qed.

(** [ord2ymd] on day [t] of the year after [a] cycles of 400 years, [b]
    centuries, [c] cycles of four years and [e] years *)
Lemma ord2ymd_parts a b c e t :
  0 <= b <= 3 -> 0 <= c <= 24 -> 0 <= e <= 3 ->
  let leap := (e =? 3) && (negb (c =? 24) || (b =? 3)) in
  0 <= t <= 364 + (if leap then 1 else 0) ->
  ord2ymd (146097 * a + 36524 * b + 1461 * c + 365 * e + t + 1)
  = month_and_day (400 * a + 100 * b + 4 * c + e + 1) leap t.
Proof.
  intros Hb Hc He leap Ht.
  assert (Ht' : 0 <= t <= 365) by (destruct leap; lia).
  assert (Hl : t = 365 -> e = 3 /\ (c <> 24 \/ b = 3)).
  { intros ->. unfold leap in Ht.
    destruct (Z.eqb_spec e 3); [|cbn [andb] in Ht; lia].
    destruct (Z.eqb_spec c 24); [|lia].
    destruct (Z.eqb_spec b 3); [lia|cbn in Ht; lia]. }
  unfold ord2ymd, DI400Y, DI100Y, DI4Y. cbv zeta.
  replace (146097 * a + 36524 * b + 1461 * c + 365 * e + t + 1 - 1)
    with (146097 * a + (36524 * b + 1461 * c + 365 * e + t)) by lia.
  destruct (div_mod_parts a (36524 * b + 1461 * c + 365 * e + t) 146097
              ltac:(lia)) as [-> ->].
  destruct (Z.eq_dec t 365) as [E365 | N365].
  - destruct (Hl E365) as [-> Hcb]. subst t.
    replace (month_and_day _ leap 365)
      with (mk_datetime (400 * a + 100 * b + 4 * c + 3 + 1) 12 31)
      by (unfold leap in *; destruct ((3 =? 3) && _); [reflexivity | lia]).
    destruct (Z.eq_dec c 24) as [-> | Nc].
    + assert (b = 3) by lia. subst b.
      change (36524 * 3 + 1461 * 24 + 365 * 3 + 365) with 146096.
      change (146096 / 36524) with 4. change (4 =? 4) with true.
      rewrite Bool.orb_true_r. change (146096 mod 36524) with 0.
      rewrite !Zdiv_0_l. f_equal. lia.
    + replace (36524 * b + 1461 * c + 365 * 3 + 365)
        with (36524 * b + (1461 * c + 1460)) by lia.
      destruct (div_mod_parts b (1461 * c + 1460) 36524 ltac:(lia))
        as [-> ->].
      destruct (div_mod_parts c 1460 1461 ltac:(lia)) as [-> ->].
      change (1460 / 365) with 4. change (4 =? 4) with true.
      cbn [orb]. f_equal. lia.
  - replace (36524 * b + 1461 * c + 365 * e + t)
      with (36524 * b + (1461 * c + (365 * e + t))) by lia.
    destruct (div_mod_parts b (1461 * c + (365 * e + t)) 36524 ltac:(lia))
      as [-> ->].
    destruct (div_mod_parts c (365 * e + t) 1461 ltac:(lia)) as [-> ->].
    destruct (div_mod_parts e t 365 ltac:(lia)) as [-> ->].
    replace (e =? 4) with false by (symmetry; apply Z.eqb_neq; lia).
    replace (b =? 4) with false by (symmetry; apply Z.eqb_neq; lia).
    cbn [orb]. fold leap. unfold month_and_day. cbv zeta.
    replace (a * 400 + 1 + (b * 100 + c * 4 + e))
      with (400 * a + 100 * b + 4 * c + e + 1) by lia.
    reflexivity.
Qed.

Lemma valid_dated d : valid d -> dated d.
Proof. unfold valid, dated. lia. Qed.

(** the days of a year before a date of it *)
Lemma days_before_date y m d :
  1 <= m <= 12 -> 1 <= d <= days_in_month y m ->
  0 <= days_before_month y m + d - 1
    <= 364 + (if is_leap y then 1 else 0).
Proof.
  intros Hm. unfold days_in_month, days_before_month.
  by_month m; destruct (is_leap y);
    cbn [Z.eqb Pos.eqb Z.ltb Z.compare Pos.compare Pos.compare_cont andb];
    lia.
Qed.

Lemma days_in_month_le_31 y m : 1 <= m <= 12 -> days_in_month y m <= 31.
Proof.
  intros Hm. unfold days_in_month.
  by_month m; destruct (is_leap y); cbn; lia.
Qed.

(** [_ord2ymd] inverts [_ymd2ord]. *)
Lemma ord2ymd_ymd2ord y m d :
  1 <= y -> 1 <= m <= 12 -> 1 <= d <= days_in_month y m ->
  ord2ymd (ymd2ord y m d) = mk_datetime y m d.
Proof.
  intros Hy Hm Hd.
  destruct (year_parts y Hy) as (a & b & c & e & E & Ha & Hb & Hc & He).
  assert (Ht := days_before_date y m d Hm Hd).
  unfold ymd2ord.
  rewrite (days_before_year_parts y a b c e E Hb Hc He).
  rewrite (is_leap_parts y a b c e E Hb Hc He) in Ht.
  replace (146097 * a + 36524 * b + 1461 * c + 365 * e
           + days_before_month y m + d)
    with (146097 * a + 36524 * b + 1461 * c + 365 * e
          + (days_before_month y m + d - 1) + 1) by lia.
  rewrite (ord2ymd_parts a b c e _ Hb Hc He Ht).
  replace (400 * a + 100 * b + 4 * c + e + 1) with y by lia.
  rewrite <- (is_leap_parts y a b c e E Hb Hc He).
  unfold days_before_month. apply month_and_day_spec; [assumption|].
  exact Hd.
Qed.

Lemma ord2ymd_toordinal d : valid d -> ord2ymd (toordinal d) = d.
Proof.
  intros (Hy & Hm & Hd). destruct d as [y m dd]; cbn [year month day] in *.
  apply ord2ymd_ymd2ord; lia.
Qed.

Lemma days_before_year_mono y y' :
  y <= y' -> days_before_year y <= days_before_year y'.
Proof. unfold days_before_year. intros. Z.div_mod_to_equations. lia. Qed.

Lemma days_before_year_succ y :
  days_before_year (y + 1)
  = days_before_year y + 365 + (if is_leap y then 1 else 0).
Proof.
  unfold days_before_year, is_leap; cbv zeta.
  replace (y + 1 - 1) with y by lia.
  destruct (Z.eqb_spec (y mod 4) 0), (Z.eqb_spec (y mod 100) 0),
    (Z.eqb_spec (y mod 400) 0); cbn [negb andb orb];
    Z.div_mod_to_equations; lia.
Qed.

Lemma toordinal_in_year d :
  dated d -> days_before_year (year d) < toordinal d
             <= days_before_year (year d + 1).
Proof.
  intros (Hy & Hm & Hd). destruct d as [y m dd]; cbn [year month day] in *.
  unfold toordinal, ymd2ord; cbn [year month day].
  assert (Ht := days_before_date y m dd Hm Hd).
  rewrite days_before_year_succ. lia.
Qed.

Lemma toordinal_le_next_year d :
  valid d -> days_before_year (year d) < toordinal d
             <= days_before_year (year d + 1).
Proof. intros V. now apply toordinal_in_year, valid_dated. Qed.

Lemma toordinal_range d : valid d -> 1 <= toordinal d <= MAXORDINAL.
Proof.
  intros V. assert (H := toordinal_le_next_year d V).
  destruct V as (Hy & _).
  assert (H0 := days_before_year_mono 1 (year d) ltac:(lia)).
  assert (H1 := days_before_year_mono (year d + 1) 10000 ltac:(lia)).
  change (days_before_year 1) with 0 in H0.
  change (days_before_year 10000) with 3652059 in H1.
  unfold MAXORDINAL. lia.
Qed.

(** *** The day after *)

Lemma toordinal_after d :
  dated d -> toordinal (next_day d) = toordinal d + 1.
Proof.
  intros (Hy & Hm & Hd). destruct d as [y m dd]; cbn [year month day] in *.
  unfold next_day, toordinal; cbn [year month day].
  destruct (Z.ltb_spec dd (days_in_month y m)); cbn [year month day].
  - unfold ymd2ord; lia.
  - assert (dd = days_in_month y m) by lia. subst dd.
    destruct (Z.ltb_spec m 12); cbn [year month day].
    + unfold ymd2ord, days_before_month, days_in_month.
      by_month m; try lia; destruct (is_leap y); cbn; lia.
    + assert (m = 12) by lia. subst m.
      unfold ymd2ord, days_before_month, days_in_month.
      rewrite days_before_year_succ. eval_index.
      destruct (is_leap y), (is_leap (y + 1)); cbn; lia.
Qed.

Lemma toordinal_next_day d :
  valid d -> toordinal (next_day d) = toordinal d + 1.
Proof. intros V. now apply toordinal_after, valid_dated. Qed.

Lemma dated_next_day d : dated d -> dated (next_day d).
Proof.
  intros (Hy & Hm & Hd).
  destruct d as [y m dd]; cbn [year month day] in *.
  unfold next_day, dated; cbn [year month day].
  destruct (Z.ltb_spec dd (days_in_month y m)); cbn [year month day];
    [lia|].
  destruct (Z.ltb_spec m 12); cbn [year month day].
  - repeat split; try lia.
    unfold days_in_month. by_month m; try lia; destruct (is_leap y); cbn; lia.
  - repeat split; try lia.
    unfold days_in_month; change (1 =? 2) with false;
      cbn [andb]; eval_index; lia.
Qed.

(** every day from day 1 on is the day of a date *)
Lemma ordinal_dated n :
  1 <= n -> exists d, dated d /\ toordinal d = n.
Proof.
  intros Hn. replace n with (1 + (n - 1)) by lia.
  assert (H0 : 0 <= n - 1) by lia. revert H0.
  generalize (n - 1). clear n Hn.
  apply natlike_ind.
  - exists (mk_datetime 1 1 1). split; [|reflexivity].
    unfold dated; cbn [year month day].
    change (days_in_month 1 1) with 31. lia.
  - intros k Hk (d & Hd & E). exists (next_day d). split.
    + now apply dated_next_day.
    + rewrite toordinal_after by assumption. lia.
Qed.

Lemma toordinal_ord2ymd n :
  1 <= n <= MAXORDINAL -> valid (ord2ymd n) /\ toordinal (ord2ymd n) = n.
Proof.
  intros Hn. destruct (ordinal_dated n ltac:(lia)) as (d & Hd & E).
  assert (Er : ord2ymd n = d).
  { rewrite <- E. destruct Hd as (Hy & Hm & Hdd). destruct d as [y m dd].
    apply ord2ymd_ymd2ord; assumption. }
  rewrite Er. split; [|assumption].
  assert (H := toordinal_in_year d Hd).
  destruct Hd as (Hy & Hm & Hdd). repeat split; try lia.
  destruct (Z_le_gt_dec (year d) 9999); [assumption|].
  assert (H1 := days_before_year_mono 10000 (year d) ltac:(lia)).
  change (days_before_year 10000) with 3652059 in H1.
  unfold MAXORDINAL in Hn. lia.
Qed.

(** later days do not lie in earlier years *)
Lemma year_mono n n' :
  1 <= n -> n <= n' -> n' <= MAXORDINAL ->
  year (ord2ymd n) <= year (ord2ymd n').
Proof.
  intros H1 H2 H3.
  destruct (toordinal_ord2ymd n ltac:(lia)) as [V E].
  destruct (toordinal_ord2ymd n' ltac:(lia)) as [V' E'].
  apply toordinal_le_next_year in V, V'.
  destruct (Z_le_gt_dec (year (ord2ymd n)) (year (ord2ymd n'))); [assumption|].
  assert (days_before_year (year (ord2ymd n') + 1)
          <= days_before_year (year (ord2ymd n)))
    by (apply days_before_year_mono; lia).
  lia.
Qed.

Lemma last_day : toordinal (mk_datetime 9999 12 31) = MAXORDINAL.
Proof. reflexivity. Qed.

Lemma valid_next_day d :
  valid d -> toordinal d < MAXORDINAL -> valid (next_day d).
Proof.
  intros V Hlt. assert (V' := V).
  destruct V' as (Hy & Hm & Hd).
  destruct d as [y m dd]; cbn [year month day] in *.
  unfold next_day, valid; cbn [year month day].
  destruct (Z.ltb_spec dd (days_in_month y m)); cbn [year month day];
    [lia|].
  destruct (Z.ltb_spec m 12); cbn [year month day].
  - repeat split; try lia.
    unfold days_in_month. by_month m; try lia; destruct (is_leap y); cbn; lia.
  - assert (m = 12) by lia. subst m.
    assert (dd = 31)
      by (unfold days_in_month in *; change (12 =? 2) with false in *;
          cbn [andb] in *; eval_index; lia).
    subst dd.
    destruct (Z.eq_dec y 9999) as [->|].
    + rewrite last_day in Hlt. lia.
    + repeat split; try lia.
      unfold days_in_month; change (1 =? 2) with false;
        cbn [andb]; eval_index; lia.
Qed.

Lemma ord2ymd_after d n :
  valid d -> toordinal d = n -> n < MAXORDINAL ->
  ord2ymd (n + 1) = next_day d.
Proof.
  intros V <- Hlt. rewrite <- toordinal_next_day by assumption.
  apply ord2ymd_toordinal. now apply valid_next_day.
Qed.

Lemma ord2ymd_succ n :
  1 <= n < MAXORDINAL -> ord2ymd (n + 1) = next_day (ord2ymd n).
Proof.
  intros Hn. destruct (toordinal_ord2ymd n ltac:(lia)) as [V E].
  apply ord2ymd_after; [assumption | assumption | lia].
Qed.

(** [d + timedelta(days=i)] is the [i]-th day after [d], as long as the
    calendar reaches that far. *)
Lemma add_days_iter d (i : nat) :
  valid d -> toordinal d + Z.of_nat i <= MAXORDINAL ->
  add_days d (Z.of_nat i) = Ok (Nat.iter i next_day d).
Proof.
  intros V. assert (R := toordinal_range d V). unfold MAXORDINAL in *.
  unfold add_days, timedelta.
  intros Hi.
  replace (999999999 <? Z.abs (Z.of_nat i)) with false
    by (symmetry; apply Z.ltb_ge; lia).
  replace ((0 <? toordinal d + Z.of_nat i)
           && (toordinal d + Z.of_nat i <=? MAXORDINAL)) with true
    by (symmetry; apply andb_true_iff; rewrite Z.ltb_lt, Z.leb_le;
        unfold MAXORDINAL; lia).
  f_equal. induction i as [|i IH].
  - cbn [Nat.iter nat_rect Z.of_nat]. rewrite Z.add_0_r.
    now apply ord2ymd_toordinal.
  - replace (toordinal d + Z.of_nat (S i))
      with (toordinal d + Z.of_nat i + 1) by lia.
    rewrite ord2ymd_succ by (unfold MAXORDINAL; lia).
    rewrite IH by lia. reflexivity.
Qed.

Lemma add_days_overflow d i :
  valid d -> 0 <= i -> MAXORDINAL < toordinal d + i ->
  exists e, add_days d i = Raise e /\ exc_class e = py "OverflowError".
Proof.
  intros V Hi Ho. unfold add_days, timedelta.
  destruct (_ <? Z.abs i); [eexists; split; reflexivity|].
  replace ((0 <? toordinal d + i) && (toordinal d + i <=? MAXORDINAL))
    with false
    by (symmetry; apply andb_false_iff; right; apply Z.leb_gt; lia).
  eexists; split; reflexivity.
Qed.

(** *** The day of the week *)

Lemma weekday_next_day d :
  valid d -> weekday (next_day d) = (weekday d + 1) mod 7.
Proof.
  intros V. unfold weekday. rewrite toordinal_next_day by assumption.
  Z.div_mod_to_equations. lia.
Qed.

(** the leap days of [x] years, by centuries *)
Lemma leap_days_by_century x :
  x / 4 - x / 100 + x / 400
  = 24 * (x / 100) + x mod 100 / 4 + x / 100 / 4.
Proof. Z.div_mod_to_equations. lia. Qed.

Lemma zeller_years x r :
  (r + x mod 100 + x mod 100 / 4 + x / 100 / 4 + 5 * (x / 100)) mod 7
  = (r + x * 365 + x / 4 - x / 100 + x / 400) mod 7.
Proof.
  replace (r + x * 365 + x / 4 - x / 100 + x / 400)
    with (r + x * 365 + (x / 4 - x / 100 + x / 400)) by lia.
  rewrite leap_days_by_century.
  assert (E := Z.div_mod x 100 ltac:(lia)).
  replace (r + x * 365 + (24 * (x / 100) + x mod 100 / 4 + x / 100 / 4))
    with (r + x mod 100 + x mod 100 / 4 + x / 100 / 4 + 5 * (x / 100)
          + (5217 * (x / 100) + 52 * (x mod 100)) * 7) by lia.
  now rewrite Z.mod_add.
Qed.

Lemma weekday_zeller d :
  valid d -> zeller (year d) (month d) (day d) = (weekday d + 2) mod 7.
Proof.
  intros (Hy & Hm & Hd). destruct d as [y m dd]; cbn [year month day] in *.
  unfold weekday, toordinal, ymd2ord; cbn [year month day].
  rewrite Zplus_mod_idemp_l.
  unfold zeller; cbv zeta. clear Hd.
  destruct (Z.ltb_spec m 3) as [Hlt | Hge].
  - unfold days_before_month.
    replace (2 <? m) with false by (symmetry; apply Z.ltb_ge; lia).
    cbn [andb]. unfold days_before_year; cbv zeta.
    rewrite zeller_years.
    generalize ((y - 1) / 4), ((y - 1) / 100), ((y - 1) / 400).
    intros q4 q100 q400.
    by_month m; try lia; Z.div_mod_to_equations; lia.
  - unfold days_before_month.
    replace (2 <? m) with true by (symmetry; apply Z.ltb_lt; lia).
    cbn [andb]. assert (S := days_before_year_succ y).
    set (l := if is_leap y then 1 else 0) in *.
    rewrite zeller_years.
    unfold days_before_year in S at 1. cbv zeta in S.
    replace (y + 1 - 1) with y in S by lia.
    revert S.
    generalize (days_before_year y), (y / 4), (y / 100), (y / 400).
    intros dby q4 q100 q400 S.
    by_month m; try lia; Z.div_mod_to_equations; lia.
Qed.

Lemma weekday_range d : 0 <= weekday d < 7.
Proof. unfold weekday. apply Z.mod_pos_bound. lia. Qed.

(** the name [strftime] prints for [%A] is the English name of the day *)
Lemma day_name_english d :
  valid d ->
  py (nth (Z.to_nat (weekday d)) day_names ""%string) = english_weekday d.
Proof.
  intros V. unfold english_weekday. rewrite (weekday_zeller d V).
  assert (R := weekday_range d).
  assert (H : weekday d = 0 \/ weekday d = 1 \/ weekday d = 2 \/
              weekday d = 3 \/ weekday d = 4 \/ weekday d = 5 \/
              weekday d = 6) by lia.
  repeat (destruct H as [H | H]); rewrite H; reflexivity.
Qed.

(** *** Formatting *)

Lemma digit_inj a b : digit a = digit b -> a = b.
Proof. unfold digit. lia. Qed.

Lemma fmt2_inj a b :
  0 <= a < 100 -> 0 <= b < 100 -> fmt2 a = fmt2 b -> a = b.
Proof.
  unfold fmt2. intros Ha Hb [= H1 H2].
  apply digit_inj in H1, H2. Z.div_mod_to_equations. lia.
Qed.

Lemma fmt4_inj a b :
  0 <= a < 10000 -> 0 <= b < 10000 -> fmt4 a = fmt4 b -> a = b.
Proof.
  unfold fmt4. intros Ha Hb [= H1 H2 H3 H4].
  apply digit_inj in H1, H2, H3, H4.
  assert (Ea : a = a / 1000 * 1000 + (a / 100 mod 10) * 100
                   + (a / 10 mod 10) * 10 + a mod 10)
    by (Z.div_mod_to_equations; lia).
  assert (Eb : b = b / 1000 * 1000 + (b / 100 mod 10) * 100
                   + (b / 10 mod 10) * 10 + b mod 10)
    by (Z.div_mod_to_equations; lia).
  rewrite Ea, Eb, H1, H2, H3, H4. reflexivity.
Qed.

Lemma valid_day_bound d : valid d -> 1 <= day d <= 31.
Proof.
  intros (Hy & Hm & Hd).
  assert (H := days_in_month_le_31 (year d) (month d) Hm). lia.
Qed.

Lemma isoformat_inj d d' :
  valid d -> valid d' -> isoformat d = isoformat d' -> d = d'.
Proof.
  intros V V' E.
  assert (B := valid_day_bound d V). assert (B' := valid_day_bound d' V').
  destruct V as (Hy & Hm & _), V' as (Hy' & Hm' & _).
  unfold isoformat in E.
  assert (E4 : fmt4 (year d) = fmt4 (year d')
               /\ fmt2 (month d) = fmt2 (month d')
               /\ fmt2 (day d) = fmt2 (day d'))
    by (unfold fmt4, fmt2 in *; cbn [app] in E; inversion E;
        repeat split; congruence).
  destruct E4 as (E1 & E2 & E3).
  apply fmt4_inj in E1; [|lia|lia].
  apply fmt2_inj in E2; [|lia|lia].
  apply fmt2_inj in E3; [|lia|lia].
  destruct d, d'; cbn [year month day] in *; congruence.
Qed.

Section StrftimeFacts.
Context `{Platform}.

Lemma strftime_output_date_format d :
  1000 <= year d -> strftime (py "%Y-%m-%d") d = isoformat d.
Proof.
  intros Hy.
  change (py "%Y-%m-%d") with [37; 89; 45; 37; 109; 45; 37; 100].
  unfold isoformat. cbn [strftime].
  change (37 =? 37) with true. change (45 =? 37) with false.
  cbv iota. unfold directive.
  change (89 =? 89) with true. change (109 =? 89) with false.
  change (109 =? 109) with true. change (100 =? 89) with false.
  change (100 =? 109) with false. change (100 =? 100) with true.
  cbv iota. replace (1000 <=? year d) with true
    by (symmetry; apply Z.leb_le; lia).
  rewrite app_nil_r. reflexivity.
Qed.

Lemma strftime_date_format d :
  1000 <= year d -> strftime (py "%Y%m%d") d = compact d.
Proof.
  intros Hy.
  change (py "%Y%m%d") with [37; 89; 37; 109; 37; 100].
  unfold compact. cbn [strftime].
  change (37 =? 37) with true.
  cbv iota. unfold directive.
  change (89 =? 89) with true. change (109 =? 89) with false.
  change (109 =? 109) with true. change (100 =? 89) with false.
  change (100 =? 109) with false. change (100 =? 100) with true.
  cbv iota. replace (1000 <=? year d) with true
    by (symmetry; apply Z.leb_le; lia).
  rewrite app_nil_r. reflexivity.
Qed.

Lemma strftime_A d :
  valid d -> strftime (py "%A") d = english_weekday d.
Proof.
  intros V. rewrite <- (day_name_english d V).
  change (py "%A") with [37; 65].
  cbn [strftime]. change (37 =? 37) with true. cbv iota.
  unfold directive.
  change (65 =? 89) with false. change (65 =? 109) with false.
  change (65 =? 100) with false. change (65 =? 65) with true.
  cbv iota. apply app_nil_r.
Qed.

Lemma strptime_Ymd_valid s d : strptime_Ymd s = Ok d -> valid d.
Proof.
  unfold strptime_Ymd. destruct (match_Ymd s) as [[[[y m] dd] rest]|];
    [|discriminate].
  destruct (truthy rest); [discriminate|].
  intros E. apply check_date_fields_Ok in E. tauto.
Qed.

End StrftimeFacts.

End CalendarFacts.

(** ** Dictionaries *)

Section DictFacts.
Context {V : Type}.
Implicit Types (d : dict V) (k : str) (v : V).

Lemma dict_get_set_eq k v d : dict_get k (dict_set k v d) = Some v.
Proof.
  induction d as [|[k' v'] d IH]; cbn [dict_set dict_get].
  - now rewrite str_eqb_refl.
  - destruct (str_eqb k' k) eqn:E; cbn [dict_get]; rewrite E; auto.
Qed.

Lemma dict_get_set_ne k k' v d :
  k <> k' -> dict_get k' (dict_set k v d) = dict_get k' d.
Proof.
  intros Hne. induction d as [|[k0 v0] d IH]; cbn [dict_set dict_get].
  - apply str_eqb_neq in Hne. now rewrite Hne.
  - destruct (str_eqb k0 k) eqn:E; cbn [dict_get].
    + apply str_eqb_eq in E. subst k0.
      apply str_eqb_neq in Hne. now rewrite Hne.
    + destruct (str_eqb k0 k'); auto.
Qed.

Lemma dict_set_fresh k v d :
  ~ In k (keys d) -> dict_set k v d = d ++ [(k, v)].
Proof.
  induction d as [|[k' v'] d IH]; cbn [dict_set keys map fst In app];
    intros Hn; [reflexivity|].
  destruct (str_eqb k' k) eqn:E.
  - apply str_eqb_eq in E. tauto.
  - f_equal. apply IH. tauto.
Qed.

Lemma keys_dict_set_present k v d :
  In k (keys d) -> keys (dict_set k v d) = keys d.
Proof.
  induction d as [|[k' v'] d IH]; cbn [dict_set keys map fst In];
    intros Hin; [tauto|].
  destruct (str_eqb k' k) eqn:E; cbn [map fst]; [reflexivity|].
  f_equal. apply IH. destruct Hin as [->|]; [|assumption].
  now rewrite str_eqb_refl in E.
Qed.

Lemma In_keys_dict_set k k' v d :
  In k' (keys (dict_set k v d)) <-> k' = k \/ In k' (keys d).
Proof.
  destruct (in_dec (list_eq_dec Z.eq_dec) k (keys d)) as [Hin|Hn].
  - rewrite keys_dict_set_present by assumption.
    split; [tauto|]. intros [->|]; assumption.
  - rewrite dict_set_fresh by assumption. unfold keys.
    rewrite map_app, in_app_iff. cbn [map fst In]. intuition congruence.
Qed.

(** a key appears once among the keys *)
Lemma NoDup_keys_dict_set k v d :
  NoDup (keys d) -> NoDup (keys (dict_set k v d)).
Proof.
  intros Hd.
  destruct (in_dec (list_eq_dec Z.eq_dec) k (keys d)) as [Hin|Hn].
  - now rewrite keys_dict_set_present.
  - rewrite dict_set_fresh by assumption. unfold keys. rewrite map_app.
    cbn [map fst]. apply NoDup_app; [assumption | repeat constructor; auto |].
    + intros x Hx [<-|[]]. contradiction.
Qed.

Lemma dict_get_NoDup k v d :
  NoDup (keys d) -> In (k, v) d -> dict_get k d = Some v.
Proof.
  induction d as [|[k' v'] d IH]; cbn [dict_get keys map fst];
    intros Hd Hin; [destruct Hin|].
  inversion Hd as [|? ? Hn Hd']; subst.
  destruct Hin as [[= -> ->]|Hin].
  - now rewrite str_eqb_refl.
  - destruct (str_eqb k' k) eqn:E; [|now apply IH].
    apply str_eqb_eq in E. subst k'.
    exfalso. apply Hn. change (In (fst (k, v)) (map fst d)).
    now apply in_map.
Qed.

End DictFacts.

(** ** Consecutive days *)

Module RangeFacts.
Import Calendar CalendarFacts.

Lemma days_after_S i d : days_after (S i) d = next_day (days_after i d).
Proof. reflexivity. Qed.

Lemma days_after_valid i d :
  valid d -> toordinal d + Z.of_nat i <= MAXORDINAL ->
  valid (days_after i d) /\
  toordinal (days_after i d) = toordinal d + Z.of_nat i.
Proof.
  intros V. induction i as [|i IH]; intros Hi.
  - cbn [days_after Nat.iter nat_rect Z.of_nat]. split; [assumption | lia].
  - rewrite days_after_S. destruct IH as [V' E']; [lia|].
    split.
    + apply valid_next_day; [assumption | lia].
    + rewrite toordinal_next_day by assumption. lia.
Qed.

Lemma days_after_ord2ymd i d :
  valid d -> toordinal d + Z.of_nat i <= MAXORDINAL ->
  days_after i d = ord2ymd (toordinal d + Z.of_nat i).
Proof.
  intros V Hi. destruct (days_after_valid i d V Hi) as [V' E'].
  rewrite <- E'. symmetry. now apply ord2ymd_toordinal.
Qed.

Lemma days_after_year i d :
  valid d -> toordinal d + Z.of_nat i <= MAXORDINAL ->
  year d <= year (days_after i d).
Proof.
  intros V Hi. rewrite (days_after_ord2ymd i d V Hi).
  assert (R := toordinal_range d V).
  rewrite <- (ord2ymd_toordinal d V) at 1.
  apply year_mono; lia.
Qed.

Lemma days_after_inj i j d :
  valid d -> toordinal d + Z.of_nat i <= MAXORDINAL ->
  toordinal d + Z.of_nat j <= MAXORDINAL ->
  days_after i d = days_after j d -> i = j.
Proof.
  intros V Hi Hj E.
  destruct (days_after_valid i d V Hi) as [_ Ei].
  destruct (days_after_valid j d V Hj) as [_ Ej].
  rewrite E in Ei. lia.
Qed.

(** the ISO strings of the days of a range are pairwise distinct *)
Lemma isoformat_days_NoDup d (n : nat) :
  valid d -> toordinal d + Z.of_nat n - 1 <= MAXORDINAL ->
  NoDup (map (fun i => isoformat (days_after i d)) (seq 0 n)).
Proof.
  intros V Hn.
  apply Injective_map_NoDup_in; [|apply seq_NoDup].
  intros i j Hi Hj E. apply in_seq in Hi, Hj.
  apply isoformat_inj in E.
  - apply (days_after_inj i j d); try assumption; lia.
  - apply days_after_valid; [assumption | lia].
  - apply days_after_valid; [assumption | lia].
Qed.

End RangeFacts.

(** ** The page fetcher and the console *)

Section FetchFacts.
Context `{World}.

Lemma truthy_app_cons (a : str) (c : Z) (b : str) :
  truthy (a ++ c :: b) = true.
Proof. destruct a; reflexivity. Qed.

(** [raise_for_status] raises exactly on the statuses 400..599 *)
Lemma raise_for_status_Ok r :
  ~ 400 <= status_code r < 600 -> raise_for_status r = Ok tt.
Proof.
  intros Hs. unfold raise_for_status, http_error_msg.
  replace ((400 <=? status_code r) && (status_code r <? 500)) with false
    by (symmetry; apply andb_false_iff; rewrite Z.leb_gt, Z.ltb_ge; lia).
  replace ((500 <=? status_code r) && (status_code r <? 600)) with false
    by (symmetry; apply andb_false_iff; rewrite Z.leb_gt, Z.ltb_ge; lia).
  reflexivity.
Qed.

Lemma raise_for_status_Raise r :
  400 <= status_code r < 600 ->
  raise_for_status r = Raise (HTTPError (http_error_msg r)).
Proof.
  intros Hs. unfold raise_for_status.
  replace (truthy (http_error_msg r)) with true; [reflexivity|].
  symmetry. unfold http_error_msg.
  destruct ((400 <=? status_code r) && (status_code r <? 500)) eqn:E4.
  - apply truthy_app_cons.
  - replace ((500 <=? status_code r) && (status_code r <? 600)) with true
      by (symmetry; apply andb_true_iff; rewrite Z.leb_le, Z.ltb_lt;
          apply andb_false_iff in E4; rewrite Z.leb_gt, Z.ltb_ge in E4; lia).
    apply truthy_app_cons.
Qed.

Lemma raise_for_status_cases r :
  (~ 400 <= status_code r < 600 /\ raise_for_status r = Ok tt)
  \/ (400 <= status_code r < 600
      /\ raise_for_status r = Raise (HTTPError (http_error_msg r))).
Proof.
  destruct (Z_le_gt_dec 400 (status_code r));
    [destruct (Z_lt_ge_dec (status_code r) 600)|].
  - right. split; [lia | apply raise_for_status_Raise; lia].
  - left. split; [lia | apply raise_for_status_Ok; lia].
  - left. split; [lia | apply raise_for_status_Ok; lia].
Qed.

(** however it ends, [fetch_page] adds its URL to the requests made *)
Lemma fetch_page_state u st :
  exists o,
    fetch_page u st
    = (o, mk_state (requested st ++ [u]) (console st) (files st)).
Proof.
  unfold fetch_page. destruct (requests_get (requested st) u) as [r|e].
  - destruct (raise_for_status r); eexists; reflexivity.
  - eexists; reflexivity.
Qed.

(** a line the console can encode is printed *)
Lemma print_takes line st :
  console_takes line ->
  print line st
  = (Ok tt, mk_state (requested st) (console st ++ [line]) (files st)).
Proof. unfold console_takes, print. now intros ->. Qed.

(** a line the console cannot encode raises and prints nothing *)
Lemma print_refuses line st :
  ~ console_takes line ->
  print line st = (Raise (UnicodeEncodeError (encode_error_message line)), st).
Proof.
  unfold console_takes, print. destruct (forallb console_encodes line);
    [now intros [] | reflexivity].
Qed.

(** whatever happens, [print] only adds to the console *)
Lemma print_effects line st :
  requested (snd (print line st)) = requested st
  /\ files (snd (print line st)) = files st
  /\ exists lines, console (snd (print line st)) = console st ++ lines.
Proof.
  unfold print. destruct (forallb console_encodes line); cbn [snd requested
    console files]; repeat split; eexists; [reflexivity|].
  now rewrite app_nil_r.
Qed.

Lemma console_takes_app a b :
  console_takes (a ++ b) <-> console_takes a /\ console_takes b.
Proof.
  unfold console_takes. rewrite forallb_app, andb_true_iff. tauto.
Qed.

(** the console can encode ASCII text *)
Lemma console_takes_ascii line :
  forallb is_ascii line = true -> console_takes line.
Proof.
  unfold console_takes. rewrite !forallb_forall.
  intros Ha c Hc. apply console_ascii. now apply Ha.
Qed.

End FetchFacts.

(** ** The range enricher *)

Section EnrichFacts.
Context `{Platform} `{World}.
Import Calendar CalendarFacts RangeFacts.

Lemma fetch_and_extract_attempt url st :
  fetch_and_extract url st
  = (attempt (requested st) url,
     mk_state (requested st ++ [url]) (console st) (files st)).
Proof.
  unfold fetch_and_extract, fetch_page, attempt.
  destruct (requests_get (requested st) url) as [r|e]; [|reflexivity].
  destruct (raise_for_status r); reflexivity.
Qed.

Lemma url_for_set_timings movie t d :
  url_for (set_timings movie t) d = url_for movie d.
Proof. reflexivity. Qed.

Lemma schedule_set_timings movie t hist dates :
  schedule (set_timings movie t) hist dates = schedule movie hist dates.
Proof.
  revert hist. induction dates as [|d ds IH]; intros hist;
    cbn [schedule]; [reflexivity|].
  now rewrite IH, url_for_set_timings.
Qed.

Lemma log_lines_set_timings movie t hist dates :
  log_lines (set_timings movie t) hist dates = log_lines movie hist dates.
Proof.
  revert hist. induction dates as [|d ds IH]; intros hist;
    cbn [log_lines]; [reflexivity|].
  now rewrite IH, url_for_set_timings.
Qed.

Lemma set_timings_twice movie t t' :
  set_timings (set_timings movie t) t' = set_timings movie t'.
Proof. reflexivity. Qed.

Lemma set_timings_same movie : set_timings movie (timings movie) = movie.
Proof. destruct movie; reflexivity. Qed.

(** One turn whose lines the console can encode stores one entry,
    requests one URL and prints its lines. *)
Lemma enrich_day_spec movie d st :
  Forall console_takes
         (day_lines movie d (attempt (requested st) (url_for movie d))) ->
  enrich_day movie d st
  = (set_timings movie
       (dict_set (strftime output_date_format d)
          (mk_day (strftime (py "%A") d)
                  (stored (attempt (requested st) (url_for movie d))))
          (timings movie)),
     Ok tt,
     mk_state (requested st ++ [url_for movie d])
       (console st
        ++ day_lines movie d (attempt (requested st) (url_for movie d)))
       (files st)).
Proof.
  intros Hl. unfold enrich_day. fold (progress_line movie d).
  fold (url_for movie d).
  inversion Hl as [|? ? Hp Hrest]; subst.
  rewrite (print_takes _ st Hp). rewrite fetch_and_extract_attempt.
  cbn [requested console files].
  destruct (attempt (requested st) (url_for movie d)) as [shows|e].
  - cbn [stored day_lines]. reflexivity.
  - fold (error_line e). inversion Hrest as [|? ? He _]; subst.
    rewrite (print_takes _ _ He). cbn [requested console files stored].
    cbn [day_lines]. now rewrite <- app_assoc.
Qed.

(** A turn whose progress line the console cannot encode ends the loop
    before anything is requested. *)
Lemma enrich_day_unprintable_title movie d st :
  ~ console_takes (progress_line movie d) ->
  enrich_day movie d st
  = (movie,
     Raise (UnicodeEncodeError
              (encode_error_message (progress_line movie d))),
     st).
Proof.
  intros Hp. unfold enrich_day. fold (progress_line movie d).
  now rewrite (print_refuses _ st Hp).
Qed.

(** A turn whose [try] block raises an exception whose message the
    console cannot encode ends the loop without an entry for the day. *)
Lemma enrich_day_unprintable_error movie d st e :
  console_takes (progress_line movie d) ->
  attempt (requested st) (url_for movie d) = Raise e ->
  ~ console_takes (error_line e) ->
  enrich_day movie d st
  = (movie,
     Raise (UnicodeEncodeError (encode_error_message (error_line e))),
     mk_state (requested st ++ [url_for movie d])
       (console st ++ [progress_line movie d]) (files st)).
Proof.
  intros Hp Ha He. unfold enrich_day. fold (progress_line movie d).
  fold (url_for movie d).
  rewrite (print_takes _ st Hp), fetch_and_extract_attempt.
  cbn [requested console files]. rewrite Ha. fold (error_line e).
  now rewrite (print_refuses _ _ He).
Qed.

(** however a turn ends, it changes nothing of the movie but its
    timings, writes no file, and only adds requests and lines *)
Lemma enrich_day_effects movie d st :
  let r := enrich_day movie d st in
  set_timings (fst (fst r)) [] = set_timings movie []
  /\ files (snd r) = files st
  /\ (exists urls, requested (snd r) = requested st ++ urls)
  /\ (exists lines, console (snd r) = console st ++ lines).
Proof.
  cbv zeta. unfold enrich_day, print.
  fold (progress_line movie d). fold (url_for movie d).
  destruct (forallb console_encodes (progress_line movie d)).
  - rewrite fetch_and_extract_attempt. cbn [requested console files].
    destruct (attempt (requested st) (url_for movie d)) as [shows|e].
    + cbn [fst snd requested console files]. repeat split; eexists;
        reflexivity.
    + destruct (forallb console_encodes _);
        cbn [fst snd requested console files]; repeat split;
        try (eexists; reflexivity).
      eexists. rewrite <- app_assoc. reflexivity.
  - cbn [fst snd]. repeat split; exists []; now rewrite app_nil_r.
Qed.

(** The loop over dates whose lines the console can encode. *)
Lemma run_days_spec movie dates st :
  Forall console_takes (log_lines movie (requested st) dates) ->
  run_days movie dates st
  = (set_timings movie
       (store_all (schedule movie (requested st) dates) (timings movie)),
     Ok tt,
     mk_state (requested st ++ map (url_for movie) dates)
       (console st ++ log_lines movie (requested st) dates)
       (files st)).
Proof.
  revert movie st.
  induction dates as [|d ds IH]; intros movie st Hl.
  - cbn [run_days schedule store_all fold_left map log_lines].
    rewrite !app_nil_r, set_timings_same. destruct st; reflexivity.
  - cbn [run_days schedule map log_lines] in *.
    apply Forall_app in Hl as [Hd Hds].
    rewrite (enrich_day_spec movie d st Hd).
    rewrite IH; cbn [requested console files timings set_timings].
    + rewrite schedule_set_timings, log_lines_set_timings.
      rewrite set_timings_twice, <- !app_assoc. reflexivity.
    + now rewrite log_lines_set_timings.
Qed.

Lemma enrich_loop_app movie start l1 l2 st :
  enrich_loop movie start (l1 ++ l2) st
  = match enrich_loop movie start l1 st with
    | (movie', Ok _, st') => enrich_loop movie' start l2 st'
    | r => r
    end.
Proof.
  revert movie st. induction l1 as [|i l1 IH]; intros movie st;
    cbn [app enrich_loop]; [reflexivity|].
  destruct (add_days start i); [|reflexivity].
  destruct (enrich_day movie a st) as [[movie' [[]|e]] st'];
    [apply IH | reflexivity].
Qed.

(** as long as the calendar reaches the days, the loop is the loop over
    the dates *)
Lemma enrich_loop_reaches movie start (n : nat) (from : nat) st :
  valid start ->
  toordinal start + Z.of_nat (from + n) - 1 <= MAXORDINAL ->
  enrich_loop movie start (map Z.of_nat (seq from n)) st
  = run_days movie (map (fun i => days_after i start) (seq from n)) st.
Proof.
  intros V. revert from movie st.
  induction n as [|n IH]; intros from movie st Hn.
  - reflexivity.
  - cbn [seq map enrich_loop run_days].
    rewrite add_days_iter by (try assumption; lia).
    fold (days_after from start).
    destruct (enrich_day movie (days_after from start) st)
      as [[m1 [[]|e]] st1]; [|reflexivity].
    apply IH. lia.
Qed.

(** the first day the calendar does not reach stops the loop *)
Lemma enrich_loop_stops movie start i rest st :
  valid start -> 0 <= i -> MAXORDINAL < toordinal start + i ->
  exists e,
    enrich_loop movie start (i :: rest) st = (movie, Raise e, st)
    /\ exc_class e = py "OverflowError".
Proof.
  intros V Hi Ho. cbn [enrich_loop].
  destruct (add_days_overflow start i V Hi Ho) as (e & -> & Hc).
  now exists e.
Qed.

(** however the loop ends, it changes nothing of the movie but its
    timings, writes no file, and only adds requests and lines *)
Lemma enrich_loop_effects indices :
  forall movie start st,
    let r := enrich_loop movie start indices st in
    set_timings (fst (fst r)) [] = set_timings movie []
    /\ files (snd r) = files st
    /\ (exists urls, requested (snd r) = requested st ++ urls)
    /\ (exists lines, console (snd r) = console st ++ lines).
Proof.
  induction indices as [|i rest IH]; intros movie start st; cbn zeta.
  - cbn [enrich_loop fst snd]. repeat split;
      exists []; now rewrite app_nil_r.
  - cbn [enrich_loop]. destruct (add_days start i) as [d|e].
    + destruct (enrich_day_effects movie d st)
        as (E1 & E2 & (urls1 & E3) & (lines1 & E4)).
      destruct (enrich_day movie d st) as [[movie1 [[]|e]] st1];
        cbn [fst snd] in *.
      * destruct (IH movie1 start st1)
          as (I1 & I2 & (urls & I3) & (lines & I4)).
        repeat split.
        -- now rewrite I1.
        -- now rewrite I2.
        -- exists (urls1 ++ urls). now rewrite I3, E3, app_assoc.
        -- exists (lines1 ++ lines). now rewrite I4, E4, app_assoc.
      * repeat split; try assumption; eexists; eassumption.
    + cbn [fst snd]. repeat split; exists []; now rewrite app_nil_r.
Qed.

End EnrichFacts.
(** ** What a call of the enricher leaves behind *)

Section EnrichRun.
Context `{Platform} `{World}.
Import Calendar CalendarFacts RangeFacts.

Lemma store_all_fresh {V : Type} (entries : list (str * V)) (d : dict V) :
  NoDup (keys d ++ map fst entries) -> store_all entries d = d ++ entries.
Proof.
  unfold store_all. revert d.
  induction entries as [|[k v] es IH]; intros d Hd; cbn [fold_left fst snd].
  - now rewrite app_nil_r.
  - cbn [map fst] in Hd.
    assert (Hk : ~ In k (keys d)).
    { intros Hin. apply NoDup_remove_2 in Hd. apply Hd.
      apply in_or_app. now left. }
    rewrite dict_set_fresh by assumption.
    rewrite IH.
    + now rewrite <- app_assoc.
    + unfold keys in *. rewrite map_app, <- app_assoc. exact Hd.
Qed.

Lemma schedule_keys movie hist dates :
  map fst (schedule movie hist dates)
  = map (strftime output_date_format) dates.
Proof.
  revert hist. induction dates as [|d ds IH]; intros hist;
    cbn [schedule map fst]; [reflexivity|]. now rewrite IH.
Qed.

Lemma schedule_length movie hist dates :
  List.length (schedule movie hist dates) = List.length dates.
Proof.
  revert hist. induction dates as [|d ds IH]; intros hist;
    cbn [schedule List.length]; [reflexivity|]. now rewrite IH.
Qed.

(** the [j]-th entry is made from the [j]-th date and from what its
    [try] block yields after the requests of the dates before *)
Lemma schedule_nth movie hist dates j d :
  nth_error dates j = Some d ->
  nth_error (schedule movie hist dates) j
  = Some (strftime output_date_format d,
          mk_day (strftime (py "%A") d)
                 (stored (attempt (hist ++ map (url_for movie) (firstn j dates))
                                  (url_for movie d)))).
Proof.
  revert hist j. induction dates as [|d0 ds IH]; intros hist j.
  - destruct j; discriminate.
  - destruct j as [|j]; cbn [nth_error schedule firstn map].
    + intros [= ->]. now rewrite app_nil_r.
    + intros Hj. rewrite (IH _ _ Hj). now rewrite <- app_assoc.
Qed.

Lemma four_digit_year_days_after i d :
  valid d -> toordinal d + Z.of_nat i <= MAXORDINAL ->
  four_digit_year d -> four_digit_year (days_after i d).
Proof.
  intros V Hi [Hy|Hp]; [left | now right].
  assert (Y := days_after_year i d V Hi). lia.
Qed.

Lemma strftime_iso d :
  four_digit_year d -> strftime output_date_format d = isoformat d.
Proof.
  intros [Hy|Hp]; [now apply strftime_output_date_format|].
  destruct (Z_le_gt_dec 1000 (year d));
    [now apply strftime_output_date_format|].
  change output_date_format with [37; 89; 45; 37; 109; 45; 37; 100].
  unfold isoformat. cbn [strftime].
  change (37 =? 37) with true. change (45 =? 37) with false.
  cbv iota. unfold directive.
  change (89 =? 89) with true. change (109 =? 89) with false.
  change (109 =? 109) with true. change (100 =? 89) with false.
  change (100 =? 109) with false. change (100 =? 100) with true.
  cbv iota. replace (1000 <=? year d) with false
    by (symmetry; apply Z.leb_gt; lia).
  rewrite Hp, app_nil_r. reflexivity.
Qed.

Lemma strftime_compact d :
  four_digit_year d -> strftime date_format d = compact d.
Proof.
  intros [Hy|Hp]; [now apply strftime_date_format|].
  destruct (Z_le_gt_dec 1000 (year d)); [now apply strftime_date_format|].
  change date_format with [37; 89; 37; 109; 37; 100].
  unfold compact. cbn [strftime].
  change (37 =? 37) with true.
  cbv iota. unfold directive.
  change (89 =? 89) with true. change (109 =? 89) with false.
  change (109 =? 109) with true. change (100 =? 89) with false.
  change (100 =? 109) with false. change (100 =? 100) with true.
  cbv iota. replace (1000 <=? year d) with false
    by (symmetry; apply Z.leb_gt; lia).
  rewrite Hp, app_nil_r. reflexivity.
Qed.

(** the keys of the days of a range, as the program prints them *)
Lemma keys_of_range start (n : nat) :
  valid start -> four_digit_year start ->
  toordinal start + Z.of_nat n - 1 <= MAXORDINAL ->
  map (strftime output_date_format)
      (map (fun i => days_after i start) (seq 0 n))
  = map (fun i => isoformat (days_after i start)) (seq 0 n).
Proof.
  intros V F Hn. rewrite map_map. apply map_ext_in.
  intros i Hi. apply in_seq in Hi.
  apply strftime_iso, four_digit_year_days_after; try assumption. lia.
Qed.

Lemma reached_range start n :
  valid start ->
  0 <= reached start n /\
  toordinal start + reached start n - 1 <= MAXORDINAL /\
  reached start n <= Z.max 0 n /\
  (n <= MAXORDINAL - toordinal start + 1 -> reached start n = Z.max 0 n) /\
  (reached start n < n ->
   reached start n = MAXORDINAL - toordinal start + 1).
Proof.
  intros V. assert (R := toordinal_range start V). unfold reached. lia.
Qed.

(** What a call leaves behind when the console can encode the lines of
    the days the calendar reaches: the entries of these days, the requests
    for them, their lines, and an [OverflowError] when the calendar ends
    before the range does. *)
Lemma enrich_run movie s start n st :
  strptime_Ymd s = Ok start ->
  let dates := dates_from start (reached start n) in
  let r := enrich_movie_with_timings_for_dates movie s n st in
  Forall console_takes (log_lines movie (requested st) dates) ->
  fst (fst r)
    = set_timings movie (store_all (schedule movie (requested st) dates) [])
  /\ snd r
     = mk_state (requested st ++ map (url_for movie) dates)
         (console st ++ log_lines movie (requested st) dates) (files st)
  /\ (n <= reached start n -> snd (fst r) = Ok tt)
  /\ (reached start n < n ->
      exists e, snd (fst r) = Raise e /\ exc_class e = py "OverflowError").
Proof.
  intros Hs dates r Hl. subst r dates.
  assert (V := strptime_Ymd_valid s start Hs).
  destruct (reached_range start n V) as (R0 & R1 & R2 & R3 & R4).
  unfold enrich_movie_with_timings_for_dates. rewrite Hs.
  unfold range, dates_from in *.
  set (k := Z.to_nat (reached start n)) in *.
  rewrite <- (log_lines_set_timings movie []) in Hl.
  destruct (Z_le_gt_dec n (reached start n)) as [Hle|Hgt].
  - replace (Z.to_nat n) with k by (unfold k; lia).
    rewrite enrich_loop_reaches by (try assumption; unfold k; lia).
    rewrite (run_days_spec _ _ _ Hl). cbn [fst snd timings set_timings].
    rewrite schedule_set_timings, log_lines_set_timings, set_timings_twice.
    rewrite (map_ext _ _ (url_for_set_timings movie [])).
    repeat split; try reflexivity. intros; lia.
  - replace (Z.to_nat n) with (k + S (Z.to_nat n - S k))%nat
      by (unfold k; lia).
    rewrite seq_app, map_app, enrich_loop_app.
    rewrite enrich_loop_reaches by (try assumption; unfold k; lia).
    rewrite (run_days_spec _ _ _ Hl).
    cbn [seq map Nat.add].
    match goal with
    | |- context [enrich_loop ?m start (?i :: ?rest) ?st'] =>
        destruct (enrich_loop_stops m start i rest st' V ltac:(lia)
                    ltac:(unfold k; lia)) as (e & -> & Hc)
    end.
    cbn [fst snd timings set_timings].
    rewrite schedule_set_timings, log_lines_set_timings, set_timings_twice.
    rewrite (map_ext _ _ (url_for_set_timings movie [])).
    repeat split; try reflexivity; [intros; lia|].
    intros _. now exists e.
Qed.

End EnrichRun.

Section EnrichTheorems.
Context `{Platform} `{World}.
Import Calendar CalendarFacts RangeFacts.

Lemma dates_from_length start n :
  List.length (dates_from start n) = Z.to_nat n.
Proof. unfold dates_from. now rewrite length_map, length_seq. Qed.

Lemma dates_from_nth start n i :
  (i < Z.to_nat n)%nat ->
  nth_error (dates_from start n) i = Some (days_after i start).
Proof.
  intros Hi. unfold dates_from.
  rewrite nth_error_map, nth_error_seq.
  destruct (Nat.ltb_spec i (Z.to_nat n)); [reflexivity | lia].
Qed.

Lemma firstn_seq (i k from : nat) :
  (i <= k)%nat -> firstn i (seq from k) = seq from i.
Proof.
  revert k from. induction i as [|i IH]; intros k from Hi; [reflexivity|].
  destruct k as [|k]; [lia|]. cbn [seq firstn]. f_equal. apply IH. lia.
Qed.

Lemma dates_from_firstn start n i :
  (i <= Z.to_nat n)%nat ->
  firstn i (dates_from start n) = dates_from start (Z.of_nat i).
Proof.
  intros Hi. unfold dates_from. rewrite firstn_map, firstn_seq by assumption.
  now rewrite Nat2Z.id.
Qed.

(** [url_for] spelled out *)
Lemma url_for_compact movie d :
  four_digit_year d ->
  url_for movie d
  = BASE_URL ++ py "/movies/" ++ slug movie ++ py "?d=" ++ compact d
    ++ py "#showtimes".
Proof.
  intros F. unfold url_for, detail_url, concat_str.
  rewrite (strftime_compact d F). cbn [List.concat].
  now rewrite app_nil_r.
Qed.

(** [timings] holds one entry per day that the calendar reaches, in
    order; when it reaches the whole range, the call returns. *)
Lemma enrich_timings movie s start n st :
  strptime_Ymd s = Ok start -> four_digit_year start ->
  let r := enrich_movie_with_timings_for_dates movie s n st in
  let days := Z.to_nat (reached start n) in
  Forall console_takes
         (log_lines movie (requested st)
                    (dates_from start (reached start n))) ->
  timings (fst (fst r))
  = schedule movie (requested st) (dates_from start (reached start n))
  /\ keys (timings (fst (fst r)))
     = map (fun i => isoformat (days_after i start)) (seq 0 days)
  /\ NoDup (keys (timings (fst (fst r))))
  /\ requested (snd r)
     = requested st
       ++ map (url_for movie) (dates_from start (reached start n))
  /\ (n <= reached start n -> snd (fst r) = Ok tt)
  /\ (reached start n < n ->
      exists e, snd (fst r) = Raise e /\ exc_class e = py "OverflowError").
Proof.
  intros Hs F r days Hl.
  assert (V := strptime_Ymd_valid s start Hs).
  destruct (reached_range start n V) as (R0 & R1 & R2 & R3 & R4).
  destruct (enrich_run movie s start n st Hs Hl) as (E1 & E2 & E4 & E5).
  fold r in E1, E2, E4, E5.
  set (dates := dates_from start (reached start n)) in *.
  assert (Hk : map fst (schedule movie (requested st) dates)
               = map (fun i => isoformat (days_after i start)) (seq 0 days)).
  { rewrite schedule_keys. unfold dates, dates_from. fold days.
    apply keys_of_range; try assumption. unfold days. lia. }
  assert (Hnd : NoDup (map fst (schedule movie (requested st) dates))).
  { rewrite Hk. apply isoformat_days_NoDup; [assumption | unfold days; lia]. }
  assert (Et : timings (fst (fst r)) = schedule movie (requested st) dates).
  { rewrite E1. cbn [timings set_timings].
    now rewrite store_all_fresh by exact Hnd. }
  split; [exact Et|].
  unfold keys. rewrite Et, E2. cbn [requested].
  repeat split; assumption.
Qed.

(** the entry of the [i]-th day, when the calendar reaches it *)
Lemma enrich_entry movie s start n st i :
  strptime_Ymd s = Ok start -> four_digit_year start ->
  (i < Z.to_nat (reached start n))%nat ->
  let r := enrich_movie_with_timings_for_dates movie s n st in
  Forall console_takes
         (log_lines movie (requested st)
                    (dates_from start (reached start n))) ->
  dict_get (isoformat (days_after i start)) (timings (fst (fst r)))
  = Some (mk_day (english_weekday (days_after i start))
            (stored (attempt
               (requested st
                ++ map (url_for movie) (dates_from start (Z.of_nat i)))
               (url_for movie (days_after i start))))).
Proof.
  intros Hs F Hi r Hl.
  assert (V := strptime_Ymd_valid s start Hs).
  destruct (reached_range start n V) as (R0 & R1 & R2 & R3 & R4).
  destruct (enrich_timings movie s start n st Hs F Hl)
    as (Et & Hk & Hnd & _).
  fold r in Et, Hk, Hnd.
  apply dict_get_NoDup; [assumption|].
  rewrite Et.
  assert (Hnth := schedule_nth movie (requested st)
                    (dates_from start (reached start n)) i
                    (days_after i start)
                    (dates_from_nth start (reached start n) i Hi)).
  rewrite dates_from_firstn in Hnth by lia.
  destruct (days_after_valid i start V ltac:(lia)) as [Vi _].
  rewrite strftime_iso in Hnth
    by (apply four_digit_year_days_after; try assumption; lia).
  rewrite strftime_A in Hnth by assumption.
  eapply nth_error_In. exact Hnth.
Qed.

(** when the [try] block of a turn raises *)
Lemma attempt_raises hist url e :
  attempt hist url = Raise e <->
  requests_get hist url = Raise e
  \/ (exists r, requests_get hist url = Ok r
        /\ 400 <= status_code r < 600
        /\ e = HTTPError (http_error_msg r))
  \/ (exists r, requests_get hist url = Ok r
        /\ ~ 400 <= status_code r < 600
        /\ BeautifulSoup (text r) = Raise e).
Proof.
  unfold attempt, extract_showtimes.
  destruct (requests_get hist url) as [r|e0].
  - destruct (raise_for_status_cases r) as [[Hn ->]|[Hs ->]].
    + destruct (BeautifulSoup (text r)) as [soup|e1] eqn:EB.
      * split; [discriminate|].
        intros [D|[(r' & [= <-] & Hr & _)|(r' & [= <-] & _ & D)]];
          [discriminate | lia | congruence].
      * split.
        -- intros [= <-]. right; right. now exists r.
        -- intros [D|[(r' & [= <-] & Hr & _)|(r' & [= <-] & _ & D)]];
             [discriminate | lia | congruence].
    + split.
      * intros [= <-]. right; left. now exists r.
      * intros [D|[(r' & [= <-] & _ & ->)|(r' & [= <-] & Hn & _)]];
          [discriminate | reflexivity | lia].
  - split.
    + intros [= <-]. now left.
    + intros [[= <-]|[(r' & D & _)|(r' & D & _)]];
        [reflexivity | discriminate | discriminate].
Qed.

End EnrichTheorems.

(** ** The range enricher: the days of a range *)

Section EnrichClaims.
Context `{Platform} `{World}.
Import Calendar CalendarFacts RangeFacts.

Lemma can_print_Forall lines :
  can_print lines <-> Forall console_takes lines.
Proof.
  unfold can_print, console_takes.
  rewrite forallb_forall, Forall_forall. reflexivity.
Qed.

(** C1 (as amended).  For every movie, every start date whose year the
    platform prints with four digits (every year from 1000 on) and every
    non-negative day count [n], provided the console can encode the lines
    the call prints for the days it reaches: the keys of [movie.timings]
    are the ISO strings of the consecutive calendar dates from the start
    date on, in this order, each once, up to the last day of the range or
    to 9999-12-31, and the [day_of_week] of every entry is the English
    name of the day of the week of its date, whatever the requests and
    the parser returned or raised.  When the range ends by 9999-12-31 the
    call returns and there are exactly [n] keys; when it runs past
    9999-12-31 the call raises [OverflowError] after storing the entries
    of the days up to 9999-12-31. *)
Theorem enrich_timings_consecutive_days movie s start n st :
  strptime_Ymd s = Ok start -> four_digit_year start -> 0 <= n ->
  can_print (log_lines movie (requested st)
                       (dates_from start (reached start n))) ->
  let r := enrich_movie_with_timings_for_dates movie s n st in
  let days := Z.to_nat (reached start n) in
  keys (timings (fst (fst r)))
  = map (fun i => isoformat (days_after i start)) (seq 0 days)
  /\ NoDup (keys (timings (fst (fst r))))
  /\ (forall i, (i < days)%nat ->
        exists shows,
          dict_get (isoformat (days_after i start)) (timings (fst (fst r)))
          = Some (mk_day (english_weekday (days_after i start)) shows))
  /\ (toordinal start + n - 1 <= MAXORDINAL ->
      snd (fst r) = Ok tt
      /\ reached start n = n
      /\ Z.of_nat (List.length (keys (timings (fst (fst r))))) = n)
  /\ (MAXORDINAL < toordinal start + n - 1 ->
      (exists e, snd (fst r) = Raise e /\ exc_class e = py "OverflowError")
      /\ reached start n = MAXORDINAL - toordinal start + 1
      /\ (0 < days)%nat
      /\ days_after (days - 1) start = mk_datetime 9999 12 31).
Proof.
  intros Hs F H0n Hp r days. apply can_print_Forall in Hp.
  assert (V := strptime_Ymd_valid s start Hs).
  assert (R := toordinal_range start V).
  destruct (reached_range start n V) as (R0 & R1 & R2 & R3 & R4).
  destruct (enrich_timings movie s start n st Hs F Hp)
    as (_ & Hk & Hnd & _ & Hout & Hover).
  fold r in Hout, Hover, Hk, Hnd. fold days in Hk.
  split; [exact Hk|]. split; [exact Hnd|]. split; [|split].
  - intros i Hi. eexists.
    apply (enrich_entry movie s start n st i Hs F Hi Hp).
  - intros Hn. assert (Hr : reached start n = n) by lia.
    split; [apply Hout; lia|]. split; [exact Hr|].
    rewrite Hk, length_map, length_seq. unfold days. lia.
  - intros Hn.
    assert (Hr : reached start n = MAXORDINAL - toordinal start + 1)
      by (apply R4; lia).
    split; [apply Hover; lia|]. split; [exact Hr|].
    assert (Hd : (0 < days)%nat) by (unfold days; lia).
    split; [exact Hd|].
    rewrite days_after_ord2ymd by (try assumption; unfold days; lia).
    replace (toordinal start + Z.of_nat (days - 1)) with MAXORDINAL
      by (unfold days; lia).
    reflexivity.
Qed.

(** C2 (as amended).  For a start date whose year the platform prints
    with four digits, and provided the console can encode the lines the
    call prints for the days it reaches: when the [try] block of the turn
    of a day of the range raises (the request fails, the status is an
    error, or the parser raises), the entry of this day is its day of the
    week with no showtimes.  The loop goes on: every day of the range that
    the calendar reaches, before and after, is requested and gets the
    entry its own [try] block yields.  The exception does not leave the
    call: when the calendar reaches the whole range the call returns
    normally, with an entry for each of the [n] days. *)
Theorem failed_day_is_stored_empty movie s start n st j e :
  strptime_Ymd s = Ok start -> four_digit_year start ->
  can_print (log_lines movie (requested st)
                       (dates_from start (reached start n))) ->
  (j < Z.to_nat (reached start n))%nat ->
  attempt (requested st ++ map (url_for movie) (dates_from start (Z.of_nat j)))
          (url_for movie (days_after j start)) = Raise e ->
  let r := enrich_movie_with_timings_for_dates movie s n st in
  dict_get (isoformat (days_after j start)) (timings (fst (fst r)))
  = Some (mk_day (english_weekday (days_after j start)) [])
  /\ (forall i, (i < Z.to_nat (reached start n))%nat ->
        In (url_for movie (days_after i start)) (requested (snd r))
        /\ dict_get (isoformat (days_after i start)) (timings (fst (fst r)))
           = Some (mk_day (english_weekday (days_after i start))
                     (stored (attempt
                        (requested st
                         ++ map (url_for movie)
                                (dates_from start (Z.of_nat i)))
                        (url_for movie (days_after i start))))))
  /\ (toordinal start + n - 1 <= MAXORDINAL ->
      snd (fst r) = Ok tt
      /\ reached start n = n
      /\ List.length (timings (fst (fst r))) = Z.to_nat n).
Proof.
  intros Hs F Hp Hj Hraise r. apply can_print_Forall in Hp.
  assert (V := strptime_Ymd_valid s start Hs).
  destruct (reached_range start n V) as (R0 & R1 & R2 & R3 & R4).
  destruct (enrich_timings movie s start n st Hs F Hp)
    as (Et & _ & _ & Hreq & Hout & _).
  fold r in Hout, Et, Hreq.
  split.
  { unfold r. rewrite (enrich_entry movie s start n st j Hs F Hj Hp).
    now rewrite Hraise. }
  split.
  { intros i Hi. split.
    - rewrite Hreq. apply in_or_app. right.
      apply in_map. eapply nth_error_In.
      apply (dates_from_nth start (reached start n) i Hi).
    - apply (enrich_entry movie s start n st i Hs F Hi Hp). }
  intros Hn.
  assert (Hr : reached start n = n) by lia.
  split; [apply Hout; lia|]. split; [exact Hr|].
  now rewrite Et, schedule_length, dates_from_length, Hr.
Qed.

(** C7 (as amended).  For a start date whose year the platform prints
    with four digits, and provided the console can encode the lines the
    call prints for the days it reaches: the requests of a call are, in
    order, one per day of the range that the calendar reaches, each for
    the URL [{BASE_URL}/movies/{slug}?d={YYYYMMDD}#showtimes] of the movie
    and the day; with an empty slug the same requests are made, with
    nothing between [/movies/] and [?d=]. *)
Theorem detail_urls_requested movie s start n st :
  strptime_Ymd s = Ok start -> four_digit_year start ->
  can_print (log_lines movie (requested st)
                       (dates_from start (reached start n))) ->
  let r := enrich_movie_with_timings_for_dates movie s n st in
  let days := seq 0 (Z.to_nat (reached start n)) in
  requested (snd r)
  = requested st
    ++ map (fun i => BASE_URL ++ py "/movies/" ++ slug movie ++ py "?d="
                     ++ compact (days_after i start) ++ py "#showtimes")
           days
  /\ (slug movie = [] ->
      requested (snd r)
      = requested st
        ++ map (fun i => py "https://ksa.voxcinemas.com/movies/?d="
                         ++ compact (days_after i start) ++ py "#showtimes")
               days)
  /\ (0 <= n -> toordinal start + n - 1 <= MAXORDINAL ->
      reached start n = n).
Proof.
  intros Hs F Hp r days. apply can_print_Forall in Hp.
  assert (V := strptime_Ymd_valid s start Hs).
  destruct (reached_range start n V) as (R0 & R1 & R2 & R3 & R4).
  destruct (enrich_run movie s start n st Hs Hp) as (_ & E2 & _).
  fold r in E2.
  assert (E : requested (snd r)
              = requested st
                ++ map (fun i => BASE_URL ++ py "/movies/" ++ slug movie
                                 ++ py "?d=" ++ compact (days_after i start)
                                 ++ py "#showtimes") days).
  { rewrite E2. cbn [requested]. f_equal. unfold dates_from.
    rewrite map_map.
    apply map_ext_in. intros i Hi. apply in_seq in Hi.
    apply url_for_compact, four_digit_year_days_after; try assumption. lia. }
  split; [exact E|]. split; [|intros; lia].
  intros Hslug. rewrite E, Hslug. reflexivity.
Qed.

End EnrichClaims.

(** C1, at the start date 2025-02-12 and three days. *)
Lemma enrich_timings_consecutive_days_witness :
  let r := @enrich_movie_with_timings_for_dates ascii_platform
             third_request_fails a_movie (py "20250212") 3 initial_state in
  keys (timings (fst (fst r)))
  = [py "2025-02-12"; py "2025-02-13"; py "2025-02-14"]
  /\ snd (fst r) = Ok tt
  /\ Z.of_nat (List.length (keys (timings (fst (fst r))))) = 3.
Proof.
  destruct (@enrich_timings_consecutive_days ascii_platform
              third_request_fails a_movie (py "20250212")
              (Calendar.mk_datetime 2025 2 12) 3 initial_state)
    as (Hk & _ & _ & Hin & _).
  - vm_compute. reflexivity.
  - left. vm_compute. discriminate.
  - lia.
  - vm_compute. reflexivity.
  - destruct Hin as (Hok & _ & Hlen); [vm_compute; discriminate|].
    exact (conj Hk (conj Hok Hlen)).
Defined.

(** the example of the specification: three days from 2025-02-12 *)
Example three_days_from_2025_02_12 :
  map (fun kv => (fst kv, day_of_week (snd kv)))
      (timings (fst (fst (@enrich_movie_with_timings_for_dates ascii_platform
                            third_request_fails a_movie (py "20250212") 3
                            initial_state))))
  = [(py "2025-02-12", py "Wednesday"); (py "2025-02-13", py "Thursday");
     (py "2025-02-14", py "Friday")].
Proof. vm_compute. reflexivity. Qed.

(** C1 as stated fails at the end of the calendar: two days from
    9999-12-31 raise [OverflowError] and leave one key. *)
Lemma enrich_past_the_last_day :
  let r := @enrich_movie_with_timings_for_dates ascii_platform
             third_request_fails a_movie (py "99991231") 2 initial_state in
  @Calendar.strptime_Ymd ascii_platform (py "99991231")
  = Ok (Calendar.mk_datetime 9999 12 31)
  /\ snd (fst r) = Raise (OverflowError (py "date value out of range"))
  /\ keys (timings (fst (fst r))) = [py "9999-12-31"]
  /\ List.length (keys (timings (fst (fst r)))) <> 2%nat.
Proof. vm_compute. repeat split; discriminate. Qed.

(** C1 as stated also fails where the C library does not pad the year:
    the key of 0999-12-31 has three digits for the year. *)
Example unpadded_year_in_the_key :
  let r := @enrich_movie_with_timings_for_dates unpadded_platform
             third_request_fails a_movie (py "09991231") 1 initial_state in
  snd (fst r) = Ok tt
  /\ keys (timings (fst (fst r))) = [py "999-12-31"].
Proof. vm_compute. split; reflexivity. Qed.

(** C1 as stated also fails for a title the console cannot encode: the
    first [print] raises before anything is requested or stored. *)
Example unprintable_title_ends_the_call :
  let r := @enrich_movie_with_timings_for_dates ascii_platform
             third_request_fails surrogate_movie (py "20250212") 3
             initial_state in
  exc_class (match snd (fst r) with Raise e => e | Ok _ => mk_exn [] [] end)
  = py "UnicodeEncodeError"
  /\ timings (fst (fst r)) = []
  /\ requested (snd r) = [].
Proof. vm_compute. repeat split; reflexivity. Qed.

(** C2, at a failure on day 3 of 10. *)
Lemma failed_day_is_stored_empty_witness :
  let r := @enrich_movie_with_timings_for_dates ascii_platform
             third_request_fails a_movie (py "20250212") 10 initial_state in
  dict_get (py "2025-02-14") (timings (fst (fst r)))
  = Some (mk_day (py "Friday") [])
  /\ snd (fst r) = Ok tt
  /\ List.length (timings (fst (fst r))) = 10%nat.
Proof.
  destruct (@failed_day_is_stored_empty ascii_platform third_request_fails
              a_movie (py "20250212") (Calendar.mk_datetime 2025 2 12) 10
              initial_state 2
              (mk_exn (py "ConnectionError") (py "connection refused")))
    as (H1 & _ & H3).
  - vm_compute. reflexivity.
  - left. vm_compute. discriminate.
  - vm_compute. reflexivity.
  - vm_compute. lia.
  - vm_compute. reflexivity.
  - destruct H3 as (H2 & _ & H4); [vm_compute; discriminate|].
    exact (conj H1 (conj H2 H4)).
Defined.

(** C2 as stated fails when the console cannot encode the message of the
    exception: the handler prints before it stores, so the
    [UnicodeEncodeError] of [print] leaves the call, the failed day gets
    no entry, and the days after it are not requested. *)
Lemma unprintable_error_leaves_the_call :
  let r := @enrich_movie_with_timings_for_dates ascii_platform
             accented_failure a_movie (py "20250212") 3 initial_state in
  @attempt ascii_platform accented_failure
    [py "https://ksa.voxcinemas.com/movies/dune?d=20250212#showtimes"]
    (py "https://ksa.voxcinemas.com/movies/dune?d=20250213#showtimes")
  = Raise (mk_exn (py "ConnectionError")
                  (py "connexion refus" ++ [233] ++ py "e"))
  /\ (exists e, snd (fst r) = Raise e
                /\ exc_class e = py "UnicodeEncodeError")
  /\ keys (timings (fst (fst r))) = [py "2025-02-12"]
  /\ dict_get (py "2025-02-13") (timings (fst (fst r))) = None
  /\ List.length (requested (snd r)) = 2%nat.
Proof.
  vm_compute. split; [reflexivity|]. split; [|repeat split; reflexivity].
  eexists. split; reflexivity.
Qed.

(** the example of the specification: the third of ten days fails *)
Example ten_days_with_a_failure :
  map (fun kv => (fst kv, match showtimes (snd kv) with
                          | [] => false
                          | _ :: _ => true
                          end))
      (timings (fst (fst (@enrich_movie_with_timings_for_dates ascii_platform
                            third_day_fails a_movie (py "20250212") 10
                            initial_state))))
  = [(py "2025-02-12", true); (py "2025-02-13", true);
     (py "2025-02-14", false); (py "2025-02-15", true);
     (py "2025-02-16", true); (py "2025-02-17", true);
     (py "2025-02-18", true); (py "2025-02-19", true);
     (py "2025-02-20", true); (py "2025-02-21", true)].
Proof. vm_compute. reflexivity. Qed.

(** C7, at a movie without slug and three days. *)
Lemma detail_urls_requested_witness :
  requested
    (snd (@enrich_movie_with_timings_for_dates ascii_platform
            third_request_fails (set_timings (mk_Movie [] [] (py "Untitled")
                                   [] [] [] [] [] []) [])
            (py "20250212") 3 initial_state))
  = [py "https://ksa.voxcinemas.com/movies/?d=20250212#showtimes";
     py "https://ksa.voxcinemas.com/movies/?d=20250213#showtimes";
     py "https://ksa.voxcinemas.com/movies/?d=20250214#showtimes"].
Proof.
  destruct (@detail_urls_requested ascii_platform third_request_fails
              (set_timings (mk_Movie [] [] (py "Untitled") [] [] [] [] [] [])
                           [])
              (py "20250212") (Calendar.mk_datetime 2025 2 12) 3
              initial_state) as (_ & E & _).
  - vm_compute. reflexivity.
  - left. vm_compute. discriminate.
  - vm_compute. reflexivity.
  - rewrite (E eq_refl). vm_compute. reflexivity.
Defined.

(** C7 as stated fails where the C library does not pad the year: the
    date in the URL of 0999-12-31 has seven digits. *)
Lemma unpadded_year_in_the_url :
  let r := @enrich_movie_with_timings_for_dates unpadded_platform
             third_request_fails a_movie (py "09991231") 1 initial_state in
  @Calendar.strptime_Ymd unpadded_platform (py "09991231")
  = Ok (Calendar.mk_datetime 999 12 31)
  /\ requested (snd r)
     = [py "https://ksa.voxcinemas.com/movies/dune?d=9991231#showtimes"]
  /\ requested (snd r)
     <> [py "https://ksa.voxcinemas.com/movies/dune?d=09991231#showtimes"].
Proof. vm_compute. repeat split; try reflexivity. discriminate. Qed.
(** ** Parse trees *)

Module SoupFacts.
Import Soup.

Lemma descendants_Tag name classes attrs cs :
  descendants (Tag name classes attrs cs) = descendants_of_children cs.
Proof.
  cbn [descendants]. induction cs as [|c rest IH]; [reflexivity|].
  cbn [descendants_of_children]. now rewrite IH.
Qed.

(** what lies below a descendant lies below the tree *)
Lemma descendants_trans n :
  forall e e', In e (descendants n) -> In e' (descendants (fst e)) ->
               In e' (descendants n).
Proof.
  induction n as [name classes attrs cs IH|s|s] using node_induction;
    try (intros e e' []).
  rewrite descendants_Tag.
  induction cs as [|c rest IHcs]; intros e e' He He'; [destruct He|].
  inversion IH as [|? ? Hc Hrest]; subst.
  cbn [descendants_of_children] in *.
  destruct He as [<-|He].
  - right. apply in_or_app. left. exact He'.
  - right. apply in_or_app. apply in_app_or in He as [He|He].
    + left. exact (Hc e e' He He').
    + right. exact (IHcs Hrest e e' He He').
Qed.

Lemma hd_error_filter_None {A : Type} (f : A -> bool) (l : list A) :
  hd_error (filter f l) = None <-> forall x, In x l -> f x = false.
Proof.
  induction l as [|a l IH]; cbn [filter hd_error In]; [tauto|].
  destruct (f a) eqn:E; cbn [hd_error].
  - split; [discriminate|]. intros Hall.
    rewrite (Hall a (or_introl eq_refl)) in E. discriminate.
  - rewrite IH. split.
    + intros Hall x [<-|Hx]; auto.
    + intros Hall x Hx. auto.
Qed.

(** the first element a filter keeps, with what comes before it *)
Lemma hd_error_filter_Some {A : Type} (f : A -> bool) (l : list A) (x : A) :
  hd_error (filter f l) = Some x <->
  exists pre post, l = pre ++ x :: post /\ f x = true
                   /\ forall y, In y pre -> f y = false.
Proof.
  induction l as [|a l IH]; cbn [filter hd_error].
  - split; [discriminate|]. intros (pre & post & E & _).
    destruct pre; discriminate.
  - destruct (f a) eqn:E; cbn [hd_error].
    + split.
      * intros [= <-]. exists [], l. repeat split; auto. intros y [].
      * intros (pre & post & El & Hx & Hpre).
        destruct pre as [|b pre]; cbn [app] in El.
        -- congruence.
        -- injection El as <- _. rewrite (Hpre a (or_introl eq_refl)) in E.
           discriminate.
    + rewrite IH. split.
      * intros (pre & post & -> & Hx & Hpre).
        exists (a :: pre), post. repeat split; auto.
        intros y [<-|Hy]; auto.
      * intros (pre & post & El & Hx & Hpre).
        destruct pre as [|b pre]; cbn [app] in El.
        -- injection El as -> _. congruence.
        -- injection El as <- ->. exists pre, post. repeat split; auto.
           intros y Hy. apply Hpre. now right.
Qed.

Lemma find_None name cls n : find name cls n = None <-> lacks name cls n.
Proof. unfold find, find_all, lacks. apply hd_error_filter_None. Qed.

Lemma find_Some name cls n e :
  find name cls n = Some e ->
  In e (descendants n) /\ matches name cls (fst e) = true.
Proof.
  unfold find, find_all. intros Hf.
  apply hd_error_filter_Some in Hf as (pre & post & E & Hm & _).
  split; [|assumption]. rewrite E. apply in_or_app. right. now left.
Qed.

Lemma find_with_string_None name sub n :
  (forall e s, In e (descendants n) -> matches name None (fst e) = true ->
     string (fst e) = Some s -> truthy s = true -> contains sub s = false) ->
  find_with_string name sub n = None.
Proof.
  intros Hl. unfold find_with_string. apply hd_error_filter_None.
  intros e He. destruct (matches name None (fst e)) eqn:Em; [|reflexivity].
  cbn [andb]. destruct (string (fst e)) as [s|] eqn:Es; [|reflexivity].
  destruct (truthy s) eqn:Et; [|reflexivity].
  cbn [andb]. exact (Hl e s He Em Es Et).
Qed.

Lemma map_fst_with_siblings cs : map fst (with_siblings cs) = cs.
Proof.
  induction cs as [|c cs IH]; [reflexivity|].
  cbn [with_siblings map fst]. now rewrite IH.
Qed.

(** [find_next_sibling] yields the first following sibling that matches,
    however far it is. *)
Lemma find_next_sibling_Some name cls e ol rest :
  find_next_sibling name cls e = Some (ol, rest) <->
  exists pre, snd e = pre ++ ol :: rest
              /\ matches name cls ol = true
              /\ forall c, In c pre -> matches name cls c = false.
Proof.
  unfold find_next_sibling. destruct e as [n sibs]. cbn [snd].
  revert ol rest. induction sibs as [|c sibs IH]; intros ol rest.
  - cbn. split; [discriminate|]. intros (pre & E & _).
    destruct pre; discriminate.
  - cbn [with_siblings filter fst].
    destruct (matches name cls c) eqn:Em; cbn [hd_error].
    + split.
      * intros [= <- <-]. exists []. repeat split; auto. intros ? [].
      * intros (pre & E & Hm & Hpre). destruct pre as [|p pre].
        -- cbn [app] in E. injection E as -> ->. reflexivity.
        -- cbn [app] in E. injection E as <- _.
           rewrite (Hpre c (or_introl eq_refl)) in Em. discriminate.
    + rewrite IH. split.
      * intros (pre & -> & Hm & Hpre). exists (c :: pre).
        repeat split; auto. intros x [<-|Hx]; auto.
      * intros (pre & E & Hm & Hpre). destruct pre as [|p pre].
        -- cbn [app] in E. injection E as -> _. congruence.
        -- cbn [app] in E. injection E as <- ->. exists pre.
           repeat split; auto. intros x Hx. apply Hpre. now right.
Qed.

Lemma find_next_sibling_None name cls e :
  find_next_sibling name cls e = None <->
  forall c, In c (snd e) -> matches name cls c = false.
Proof.
  unfold find_next_sibling. rewrite hd_error_filter_None.
  split.
  - intros Hall c Hc.
    rewrite <- (map_fst_with_siblings (snd e)) in Hc.
    apply in_map_iff in Hc as (x & <- & Hx). auto.
  - intros Hall x Hx. apply Hall.
    rewrite <- (map_fst_with_siblings (snd e)).
    now apply in_map.
Qed.

End SoupFacts.

(** ** Storing entries *)

Section StoreFacts.
Context {V : Type}.
Implicit Types (d : dict V) (es : list (str * V)).

Lemma store_all_app es1 es2 d :
  store_all (es1 ++ es2) d = store_all es2 (store_all es1 d).
Proof. unfold store_all. apply fold_left_app. Qed.

Lemma store_all_cons k v es d :
  store_all ((k, v) :: es) d = store_all es (dict_set k v d).
Proof. reflexivity. Qed.

Lemma In_keys_store_all es d k :
  In k (keys (store_all es d)) <-> In k (keys d) \/ In k (map fst es).
Proof.
  revert d. induction es as [|[k0 v0] es IH]; intros d.
  - cbn. tauto.
  - rewrite store_all_cons, IH, In_keys_dict_set. cbn [map fst In].
    intuition congruence.
Qed.

Lemma NoDup_keys_store_all es d :
  NoDup (keys d) -> NoDup (keys (store_all es d)).
Proof.
  revert d. induction es as [|[k0 v0] es IH]; intros d Hd; [exact Hd|].
  rewrite store_all_cons. apply IH. now apply NoDup_keys_dict_set.
Qed.

Lemma dict_get_store_all_other es d k :
  ~ In k (map fst es) -> dict_get k (store_all es d) = dict_get k d.
Proof.
  revert d. induction es as [|[k0 v0] es IH]; intros d Hn; [reflexivity|].
  cbn [map fst In] in Hn. rewrite store_all_cons, IH by tauto.
  apply dict_get_set_ne. tauto.
Qed.

(** the last entry stored under a key is what the key maps to *)
Lemma dict_get_store_all_last es1 k v es2 d :
  ~ In k (map fst es2) ->
  dict_get k (store_all (es1 ++ (k, v) :: es2) d) = Some v.
Proof.
  intros Hn. rewrite store_all_app, store_all_cons.
  rewrite dict_get_store_all_other by assumption.
  apply dict_get_set_eq.
Qed.

Lemma In_dict_set k v k' v' d :
  In (k', v') (dict_set k v d) -> (k' = k /\ v' = v) \/ In (k', v') d.
Proof.
  induction d as [|[k0 v0] d IH]; cbn [dict_set In].
  - intros [[= <- <-]|[]]. now left.
  - destruct (str_eqb k0 k) eqn:E; cbn [In].
    + apply str_eqb_eq in E. subst k0.
      intros [[= <- <-]|Hin]; [now left | right; now right].
    + intros [Heq|Hin]; [right; now left|].
      destruct (IH Hin); [now left | right; now right].
Qed.

Lemma In_store_all es d k v :
  In (k, v) (store_all es d) -> In (k, v) es \/ In (k, v) d.
Proof.
  revert d. induction es as [|[k0 v0] es IH]; intros d; [now right|].
  rewrite store_all_cons. intros Hin.
  destruct (IH _ Hin) as [H1|H1]; [left; now right|].
  apply In_dict_set in H1 as [[-> ->]|H1]; [left; now left | now right].
Qed.

End StoreFacts.

(** ** The detail parser *)

Section DetailFacts.
Context `{Platform}.
Import Soup SoupFacts.

Lemma match_at_is_time prev s n :
  Re.match_at prev s = Some n -> is_time (firstn n s) = true.
Proof.
  unfold Re.match_at. destruct (Re.boundary prev (hd_error s)); [|discriminate].
  destruct (Re.two_digit_hour s) eqn:E2.
  - intros [= <-]. unfold Re.two_digit_hour in E2.
    destruct s as [|a [|b [|c [|d [|e rest]]]]]; try discriminate.
    cbn [firstn is_time].
    repeat (apply andb_true_iff in E2; destruct E2 as [E2 ?]).
    repeat (apply andb_true_iff; split); assumption.
  - destruct (Re.one_digit_hour s) eqn:E1; [|discriminate].
    intros [= <-]. unfold Re.one_digit_hour in E1.
    destruct s as [|a [|b [|c [|d rest]]]]; try discriminate.
    cbn [firstn is_time].
    repeat (apply andb_true_iff in E1; destruct E1 as [E1 ?]).
    repeat (apply andb_true_iff; split); assumption.
Qed.

(** every match of [findall] has the shape of a time *)
Lemma findall_from_is_time s :
  forall prev skip t,
    In t (Re.findall_from prev skip s) -> is_time t = true.
Proof.
  induction s as [|c s IH]; intros prev skip t; cbn [Re.findall_from];
    [intros []|].
  destruct skip as [|k]; [|apply IH].
  destruct (Re.match_at prev (c :: s)) as [n|] eqn:Em; [|apply IH].
  intros [<-|Hin]; [|exact (IH _ _ _ Hin)].
  exact (match_at_is_time _ _ _ Em).
Qed.

Lemma findall_is_time s t : In t (Re.findall s) -> is_time t = true.
Proof. apply findall_from_is_time. Qed.

(** the loops of the parser store what the headings and the items add,
    one after the other *)
Lemma fold_add_place hs t :
  fold_left add_place hs t = store_all (flat_map place_entry hs) t.
Proof.
  revert t. induction hs as [|h hs IH]; intros t; [reflexivity|].
  cbn [fold_left flat_map]. rewrite store_all_app, IH.
  f_equal. unfold add_place, place_entry.
  destruct (find_next_sibling _ _ h); reflexivity.
Qed.

Lemma fold_add_experience lis t :
  fold_left add_experience lis t
  = store_all (flat_map experience_entry lis) t.
Proof.
  revert t. induction lis as [|li lis IH]; intros t; [reflexivity|].
  cbn [fold_left flat_map]. rewrite store_all_app, IH.
  f_equal. unfold add_experience, experience_entry.
  destruct (find _ None (fst li)); [|reflexivity].
  destruct (find (py "ol") None (fst li)); reflexivity.
Qed.

Lemma experiences_of_list_entries showtimes_ol :
  experiences_of_list showtimes_ol
  = store_all (flat_map experience_entry
                 (find_all_children (py "li") showtimes_ol)) [].
Proof. apply fold_add_experience. Qed.

Lemma showtimes_of_soup_entries soup dates_div :
  find (py "div") (Some (py "dates")) soup = Some dates_div ->
  showtimes_of_soup soup
  = store_all (flat_map place_entry
                 (find_all (py "h3") (Some (py "highlight")) (fst dates_div)))
              [].
Proof.
  intros Hd. unfold showtimes_of_soup. rewrite Hd. apply fold_add_place.
Qed.

Lemma place_entry_keys h :
  map fst (place_entry h)
  = match find_next_sibling (py "ol") (Some (py "showtimes")) h with
    | Some _ => [get_text (py " ") (fst h)]
    | None => []
    end.
Proof. unfold place_entry. destruct (find_next_sibling _ _ h); reflexivity. Qed.

Lemma In_flat_map_place_keys hs k :
  In k (map fst (flat_map place_entry hs)) <->
  exists h ol, In h hs
    /\ find_next_sibling (py "ol") (Some (py "showtimes")) h = Some ol
    /\ get_text (py " ") (fst h) = k.
Proof.
  rewrite in_map_iff. split.
  - intros ([k' v] & <- & Hin). apply in_flat_map in Hin as (h & Hh & Hin).
    unfold place_entry in Hin.
    destruct (find_next_sibling _ _ h) as [ol|] eqn:E; [|destruct Hin].
    destruct Hin as [[= <- <-]|[]]. now exists h, ol.
  - intros (h & ol & Hh & E & <-).
    exists (get_text (py " ") (fst h), experiences_of_list (fst ol)).
    split; [reflexivity|]. apply in_flat_map. exists h. split; [assumption|].
    unfold place_entry. rewrite E. now left.
Qed.

Lemma In_flat_map_experience_keys lis k :
  In k (map fst (flat_map experience_entry lis)) <->
  exists li strong_tag nested_ol, In li lis
    /\ find (py "strong") None (fst li) = Some strong_tag
    /\ find (py "ol") None (fst li) = Some nested_ol
    /\ get_text (py " ") (fst strong_tag) = k.
Proof.
  rewrite in_map_iff. split.
  - intros ([k' v] & <- & Hin). apply in_flat_map in Hin as (li & Hli & Hin).
    unfold experience_entry in Hin.
    destruct (find (py "strong") None (fst li)) as [st|] eqn:E1; [|destruct Hin].
    destruct (find (py "ol") None (fst li)) as [ol|] eqn:E2; [|destruct Hin].
    destruct Hin as [[= <- <-]|[]]. now exists li, st, ol.
  - intros (li & st & ol & Hli & E1 & E2 & <-).
    exists (get_text (py " ") (fst st), times_of_list (fst ol)).
    split; [reflexivity|]. apply in_flat_map. exists li. split; [assumption|].
    unfold experience_entry. rewrite E1, E2. now left.
Qed.

End DetailFacts.

(** ** The scan of [findall] and the matches of the pattern *)

Section TimePatternFacts.
Context `{Platform}.

Lemma is_word_Some c : Re.is_word (Some c) = true <-> word_char c.
Proof.
  unfold Re.is_word, word_char. rewrite orb_true_iff, Z.eqb_eq. reflexivity.
Qed.

Lemma is_word_true o :
  Re.is_word o = true <-> exists c, o = Some c /\ word_char c.
Proof.
  destruct o as [c|].
  - rewrite is_word_Some. split.
    + intros Hc. now exists c.
    + now intros (c' & [= <-] & Hc).
  - cbn. split; [discriminate|]. now intros (c & Hc & _).
Qed.

Lemma boundary_spec s i :
  Re.boundary (char_before s i) (nth_error s i) = true <-> word_boundary s i.
Proof.
  unfold Re.boundary, word_boundary, word_before, word_after.
  rewrite <- !is_word_true.
  destruct (Re.is_word (char_before s i)), (Re.is_word (nth_error s i));
    cbn; intuition congruence.
Qed.

Lemma is_time_length t :
  is_time t = true -> List.length t = 4%nat \/ List.length t = 5%nat.
Proof.
  destruct t as [|a [|b [|c [|d [|e [|f t]]]]]]; cbn; try discriminate; auto.
Qed.

Lemma char_before_app pre suf k :
  char_before (pre ++ suf) (List.length pre + S k) = nth_error suf k.
Proof.
  replace (List.length pre + S k)%nat with (S (List.length pre + k)) by lia.
  cbn [char_before]. rewrite nth_error_app2 by lia. f_equal. lia.
Qed.

Lemma nth_error_app_suffix pre (suf : str) k :
  nth_error (pre ++ suf) (List.length pre + k) = nth_error suf k.
Proof. rewrite nth_error_app2 by lia. f_equal. lia. Qed.

Lemma skipn_app_suffix pre (suf : str) :
  skipn (List.length pre) (pre ++ suf) = suf.
Proof.
  rewrite skipn_app, skipn_all, Nat.sub_diag. reflexivity.
Qed.

(** a match at the end of [pre], in terms of the rest [suf] *)
Lemma time_at_suffix pre suf prev n :
  prev = char_before (pre ++ suf) (List.length pre) ->
  time_at (pre ++ suf) (List.length pre) n <->
  (n <= List.length suf)%nat
  /\ is_time (firstn n suf) = true
  /\ Re.boundary prev (hd_error suf) = true
  /\ Re.boundary (nth_error suf (Nat.pred n)) (nth_error suf n) = true.
Proof.
  intros ->. unfold time_at.
  rewrite skipn_app_suffix, length_app, <- !boundary_spec.
  rewrite (nth_error_app_suffix pre suf n).
  replace (nth_error (pre ++ suf) (List.length pre)) with (hd_error suf)
    by (rewrite <- (Nat.add_0_r (List.length pre)), nth_error_app_suffix;
        now destruct suf).
  split.
  - intros (Hn & Ht & Hb & He). split; [lia|]. split; [exact Ht|].
    split; [exact Hb|].
    assert (Hl := is_time_length _ Ht). rewrite length_firstn in Hl.
    destruct n as [|k]; [lia|]. rewrite char_before_app in He. exact He.
  - intros (Hn & Ht & Hb & He). split; [lia|]. split; [exact Ht|].
    split; [exact Hb|].
    assert (Hl := is_time_length _ Ht). rewrite length_firstn in Hl.
    destruct n as [|k]; [lia|]. rewrite char_before_app. exact He.
Qed.

Lemma two_digit_hour_spec suf :
  Re.two_digit_hour suf = true <->
  (5 <= List.length suf)%nat /\ is_time (firstn 5 suf) = true
  /\ Re.boundary (nth_error suf 4) (nth_error suf 5) = true.
Proof.
  destruct suf as [|a [|b [|c [|d [|e rest]]]]];
    try (cbn; split; [discriminate | intros (Hl & _); lia]).
  cbn [Re.two_digit_hour firstn is_time nth_error List.length].
  replace (nth_error rest 0) with (hd_error rest) by now destruct rest.
  rewrite !andb_true_iff. intuition lia.
Qed.

Lemma one_digit_hour_spec suf :
  Re.one_digit_hour suf = true <->
  (4 <= List.length suf)%nat /\ is_time (firstn 4 suf) = true
  /\ Re.boundary (nth_error suf 3) (nth_error suf 4) = true.
Proof.
  destruct suf as [|a [|b [|c [|d rest]]]];
    try (cbn; split; [discriminate | intros (Hl & _); lia]).
  cbn [Re.one_digit_hour firstn is_time nth_error List.length].
  replace (nth_error rest 0) with (hd_error rest) by now destruct rest.
  rewrite !andb_true_iff. intuition lia.
Qed.

(** the attempt of the pattern at a position finds the longest match that
    starts there, and fails only when there is none *)
Lemma match_at_spec pre suf prev :
  prev = char_before (pre ++ suf) (List.length pre) ->
  match Re.match_at prev suf with
  | Some n =>
      time_at (pre ++ suf) (List.length pre) n
      /\ (1 <= n <= List.length suf)%nat
      /\ forall m, time_at (pre ++ suf) (List.length pre) m -> (m <= n)%nat
  | None => forall m, ~ time_at (pre ++ suf) (List.length pre) m
  end.
Proof.
  intros Hprev.
  assert (Hm : forall m, time_at (pre ++ suf) (List.length pre) m ->
            Re.boundary prev (hd_error suf) = true
            /\ ((m = 5%nat /\ Re.two_digit_hour suf = true)
                \/ (m = 4%nat /\ Re.one_digit_hour suf = true))).
  { intros m Hm. apply (time_at_suffix pre suf prev m Hprev) in Hm.
    destruct Hm as (Hl & Ht & Hb & He). split; [exact Hb|].
    assert (Hlen := is_time_length _ Ht).
    rewrite length_firstn in Hlen.
    assert (Hm : m = 4%nat \/ m = 5%nat) by lia.
    destruct Hm as [-> | ->].
    - right. split; [reflexivity|]. apply one_digit_hour_spec. auto.
    - left. split; [reflexivity|]. apply two_digit_hour_spec. auto. }
  unfold Re.match_at.
  destruct (Re.boundary prev (hd_error suf)) eqn:Eb.
  - destruct (Re.two_digit_hour suf) eqn:E2.
    + apply two_digit_hour_spec in E2 as (Hl & Ht & He).
      split; [|split; [lia|]].
      * apply (time_at_suffix pre suf prev 5 Hprev). auto.
      * intros m Hm'. destruct (Hm m Hm') as (_ & [[-> _]|[-> _]]); lia.
    + destruct (Re.one_digit_hour suf) eqn:E1.
      * apply one_digit_hour_spec in E1 as (Hl & Ht & He).
        split; [|split; [lia|]].
        -- apply (time_at_suffix pre suf prev 4 Hprev). auto.
        -- intros m Hm'.
           destruct (Hm m Hm') as (_ & [[-> E]|[-> _]]);
             [congruence | lia].
      * intros m Hm'.
        destruct (Hm m Hm') as (_ & [[_ E]|[_ E]]); congruence.
  - intros m Hm'. destruct (Hm m Hm') as (E & _). congruence.
Qed.

Lemma leftmost_times_later s from ms :
  (forall m, ~ time_at s from m) ->
  leftmost_times s from ms -> leftmost_times s (S from) ms.
Proof.
  intros Hno. destruct ms as [|[p n] ms]; cbn [leftmost_times].
  - intros Hall i m Hi. apply Hall. lia.
  - intros (Hp & Hbefore & Hat & Hmax & Hrest).
    assert (p <> from) by (intros ->; exact (Hno n Hat)).
    split; [lia|]. split; [|auto].
    intros i m Hi. apply Hbefore. lia.
Qed.

Lemma leftmost_times_earlier s from ms :
  (forall m, ~ time_at s from m) ->
  leftmost_times s (S from) ms -> leftmost_times s from ms.
Proof.
  intros Hno. destruct ms as [|[p n] ms]; cbn [leftmost_times].
  - intros Hall i m Hi Hat.
    destruct (Nat.eq_dec i from) as [->|Hne]; [exact (Hno m Hat)|].
    apply (Hall i m); [lia | exact Hat].
  - intros (Hp & Hbefore & Hrest). split; [lia|]. split; [|exact Hrest].
    intros i m Hi Hat.
    destruct (Nat.eq_dec i from) as [->|Hne]; [exact (Hno m Hat)|].
    apply (Hbefore i m); [lia | exact Hat].
Qed.

(** the scan returns the pieces of the leftmost matches *)
Lemma findall_from_leftmost suf :
  forall pre prev skip ms,
    prev = char_before (pre ++ suf) (List.length pre) ->
    (skip <= List.length suf)%nat ->
    leftmost_times (pre ++ suf) (List.length pre + skip) ms ->
    Re.findall_from prev skip suf = map (piece (pre ++ suf)) ms.
Proof.
  induction suf as [|c suf IH]; intros pre prev skip ms Hprev Hskip Hms.
  - cbn [Re.findall_from]. destruct ms as [|[p n] ms]; [reflexivity|].
    cbn [leftmost_times] in Hms. destruct Hms as (Hp & _ & Hat & _).
    destruct Hat as (Hl & Ht & _). apply is_time_length in Ht.
    rewrite length_firstn, length_skipn in Ht.
    rewrite length_app in *. cbn [List.length] in *. lia.
  - assert (Es : (pre ++ [c]) ++ suf = pre ++ c :: suf)
      by (now rewrite <- app_assoc).
    assert (Hc : Some c
                 = char_before ((pre ++ [c]) ++ suf)
                               (List.length (pre ++ [c]))).
    { rewrite length_app. cbn [List.length].
      rewrite Nat.add_1_r. cbn [char_before].
      rewrite <- app_assoc, nth_error_app2 by lia.
      now rewrite Nat.sub_diag. }
    cbn [Re.findall_from]. destruct skip as [|k].
    + rewrite Nat.add_0_r in Hms.
      assert (Hspec := match_at_spec pre (c :: suf) prev Hprev).
      destruct (Re.match_at prev (c :: suf)) as [n|].
      * destruct Hspec as (Hat & Hn & Hmax).
        destruct ms as [|[p m] ms]; cbn [leftmost_times] in Hms.
        { exfalso. exact (Hms _ n (Nat.le_refl _) Hat). }
        destruct Hms as (Hp & Hbefore & Hat' & Hmax' & Hrest).
        assert (p = List.length pre).
        { destruct (Nat.eq_dec p (List.length pre)) as [E|E]; [exact E|].
          exfalso. apply (Hbefore (List.length pre) n); [lia | exact Hat]. }
        subst p.
        assert (m = n) by (apply Nat.le_antisymm; auto). subst m.
        cbn [map]. f_equal.
        { unfold piece. cbn [fst snd]. now rewrite skipn_app_suffix. }
        rewrite <- Es. apply IH; [exact Hc | cbn [List.length] in Hn; lia|].
        rewrite Es, length_app. cbn [List.length].
        replace (List.length pre + 1 + Nat.pred n)%nat
          with (List.length pre + n)%nat by lia.
        exact Hrest.
      * rewrite <- Es. apply IH; [exact Hc | lia|].
        rewrite Es, length_app. cbn [List.length].
        rewrite Nat.add_0_r, Nat.add_1_r.
        now apply leftmost_times_later.
    + rewrite <- Es. apply IH; [exact Hc | cbn [List.length] in Hskip; lia|].
      rewrite Es, length_app. cbn [List.length].
      replace (List.length pre + 1 + k)%nat
        with (List.length pre + S k)%nat by lia.
      exact Hms.
Qed.

(** every text has its leftmost matches *)
Lemma leftmost_times_exist suf :
  forall pre skip,
    (skip <= List.length suf)%nat ->
    exists ms, leftmost_times (pre ++ suf) (List.length pre + skip) ms.
Proof.
  induction suf as [|c suf IH]; intros pre skip Hskip.
  - exists []. cbn [leftmost_times]. intros i n Hi (Hl & Ht & _).
    apply is_time_length in Ht. rewrite length_firstn, length_skipn in Ht.
    rewrite length_app in *. cbn [List.length] in *. lia.
  - assert (Es : (pre ++ [c]) ++ suf = pre ++ c :: suf)
      by (now rewrite <- app_assoc).
    assert (El : List.length (pre ++ [c]) = S (List.length pre))
      by (rewrite length_app; cbn [List.length]; lia).
    destruct skip as [|k].
    + rewrite Nat.add_0_r.
      assert (Hspec := match_at_spec pre (c :: suf) _ eq_refl).
      destruct (Re.match_at _ (c :: suf)) as [n|].
      * destruct Hspec as (Hat & Hn & Hmax).
        destruct (IH (pre ++ [c]) (Nat.pred n)) as (ms & Hms);
          [cbn [List.length] in Hn; lia|].
        exists ((List.length pre, n) :: ms). cbn [leftmost_times].
        split; [lia|]. split; [intros i m Hi; lia|].
        split; [exact Hat|]. split; [exact Hmax|].
        rewrite Es, El in Hms.
        replace (S (List.length pre) + Nat.pred n)%nat
          with (List.length pre + n)%nat in Hms by lia.
        exact Hms.
      * destruct (IH (pre ++ [c]) O) as (ms & Hms); [lia|].
        exists ms. apply leftmost_times_earlier; [exact Hspec|].
        rewrite Es, El, Nat.add_0_r in Hms. exact Hms.
    + destruct (IH (pre ++ [c]) k) as (ms & Hms);
        [cbn [List.length] in Hskip; lia|].
      exists ms. rewrite Es, El in Hms.
      replace (List.length pre + S k)%nat
        with (S (List.length pre) + k)%nat by lia.
      exact Hms.
Qed.

Lemma findall_leftmost s ms :
  leftmost_times s 0 ms -> Re.findall s = map (piece s) ms.
Proof.
  intros Hms. apply (findall_from_leftmost s [] None O ms);
    [reflexivity | lia | exact Hms].
Qed.

Lemma leftmost_times_of s : exists ms, leftmost_times s 0 ms.
Proof. apply (leftmost_times_exist s [] O). lia. Qed.

End TimePatternFacts.
Section DetailClaims.
Context `{Platform}.
Import Soup SoupFacts.

Lemma output_times soup cinema experiences experience times :
  In (cinema, experiences) (showtimes_of_soup soup) ->
  In (experience, times) experiences ->
  exists nested_ol, times = times_of_list nested_ol.
Proof.
  intros Hc He. unfold showtimes_of_soup in Hc.
  destruct (find (py "div") (Some (py "dates")) soup) as [dates_div|];
    [|destruct Hc].
  rewrite fold_add_place in Hc.
  apply In_store_all in Hc as [Hc|[]].
  apply in_flat_map in Hc as (h & _ & Hc). unfold place_entry in Hc.
  destruct (find_next_sibling _ _ h) as [ol|]; [|destruct Hc].
  destruct Hc as [[= _ <-]|[]].
  rewrite experiences_of_list_entries in He.
  apply In_store_all in He as [He|[]].
  apply in_flat_map in He as (li & _ & He). unfold experience_entry in He.
  destruct (find (py "strong") None (fst li)) as [st|]; [|destruct He].
  destruct (find (py "ol") None (fst li)) as [nested|]; [|destruct He].
  destruct He as [[= _ <-]|[]]. now exists (fst nested).
Qed.


(** the last heading of a name that has a list gives the name its
    experiences *)
Lemma last_place soup dates_div hs1 h hs2 showtimes_ol :
  find (py "div") (Some (py "dates")) soup = Some dates_div ->
  find_all (py "h3") (Some (py "highlight")) (fst dates_div)
  = hs1 ++ h :: hs2 ->
  find_next_sibling (py "ol") (Some (py "showtimes")) h = Some showtimes_ol ->
  (forall h', In h' hs2 ->
     get_text (py " ") (fst h') = get_text (py " ") (fst h) ->
     find_next_sibling (py "ol") (Some (py "showtimes")) h' = None) ->
  dict_get (get_text (py " ") (fst h)) (showtimes_of_soup soup)
  = Some (experiences_of_list (fst showtimes_ol)).
Proof.
  intros Hd Hhs Hol Hlater.
  rewrite (showtimes_of_soup_entries soup dates_div Hd), Hhs.
  rewrite flat_map_app. cbn [flat_map].
  unfold place_entry at 2. rewrite Hol. cbn [app].
  apply dict_get_store_all_last.
  intros Hin. apply In_flat_map_place_keys in Hin
    as (h' & ol' & Hh' & Hol' & Hk).
  rewrite (Hlater h' Hh' Hk) in Hol'. discriminate.
Qed.

(** the last item of a label that has a list of times gives the label its
    times *)
Lemma last_experience showtimes_ol lis1 li lis2 strong_tag nested_ol :
  find_all_children (py "li") showtimes_ol = lis1 ++ li :: lis2 ->
  find (py "strong") None (fst li) = Some strong_tag ->
  find (py "ol") None (fst li) = Some nested_ol ->
  (forall li' strong_tag', In li' lis2 ->
     find (py "strong") None (fst li') = Some strong_tag' ->
     get_text (py " ") (fst strong_tag')
     = get_text (py " ") (fst strong_tag) ->
     find (py "ol") None (fst li') = None) ->
  dict_get (get_text (py " ") (fst strong_tag))
           (experiences_of_list showtimes_ol)
  = Some (times_of_list (fst nested_ol)).
Proof.
  intros Hlis Hs Hn Hlater.
  rewrite experiences_of_list_entries, Hlis.
  rewrite flat_map_app. cbn [flat_map].
  unfold experience_entry at 2. rewrite Hs, Hn. cbn [app].
  apply dict_get_store_all_last.
  intros Hin. apply In_flat_map_experience_keys in Hin
    as (li' & st' & ol' & Hli' & Hs' & Hn' & Hk).
  rewrite (Hlater li' st' Hli' Hs' Hk) in Hn'. discriminate.
Qed.



(** C4 (as amended).  The experience list of a cinema heading is the
    first of the heading's following siblings that is a list of showtimes,
    whatever lies between the two; a heading with no such sibling adds
    nothing.  So the names in the output are the names of the headings
    that have such a sibling. *)
Theorem place_list_is_first_following_list :
  (forall h ol rest,
      find_next_sibling (py "ol") (Some (py "showtimes")) h = Some (ol, rest)
      <-> following_list h ol rest)
  /\ (forall h ol rest t,
         following_list h ol rest ->
         add_place t h
         = dict_set (get_text (py " ") (fst h)) (experiences_of_list ol) t)
  /\ (forall h t, no_following_list h -> add_place t h = t)
  /\ (forall soup dates_div k,
         find (py "div") (Some (py "dates")) soup = Some dates_div ->
         (In k (keys (showtimes_of_soup soup)) <->
          exists h ol rest,
            In h (find_all (py "h3") (Some (py "highlight")) (fst dates_div))
            /\ following_list h ol rest
            /\ get_text (py " ") (fst h) = k)).
Proof.
  assert (Hiff : forall h ol rest,
      find_next_sibling (py "ol") (Some (py "showtimes")) h = Some (ol, rest)
      <-> following_list h ol rest)
    by (intros; apply find_next_sibling_Some).
  split; [exact Hiff|]. split; [|split].
  - intros h ol rest t Hf. apply Hiff in Hf. unfold add_place.
    now rewrite Hf.
  - intros h t Hn. apply find_next_sibling_None in Hn. unfold add_place.
    now rewrite Hn.
  - intros soup dates_div k Hd.
    rewrite (showtimes_of_soup_entries soup dates_div Hd).
    rewrite In_keys_store_all, In_flat_map_place_keys. cbn [keys map In].
    split.
    + intros [[]|(h & [ol rest] & Hh & Hf & Hk)].
      exists h, ol, rest. apply Hiff in Hf. auto.
    + intros (h & ol & rest & Hh & Hf & Hk). right.
      exists h, (ol, rest). apply Hiff in Hf. auto.
Qed.

(** C10 (as amended).  Of the headings of one name that have a list of
    showtimes among their following siblings, the last one gives the name
    its experiences; of the items of one label that have a list of times,
    the last one gives the label its times.  A later heading or item of
    the same name that has no list is skipped and overwrites nothing.  No
    name and no label is a key twice. *)
Theorem later_duplicates_overwrite :
  (forall soup dates_div hs1 h hs2 showtimes_ol,
      find (py "div") (Some (py "dates")) soup = Some dates_div ->
      find_all (py "h3") (Some (py "highlight")) (fst dates_div)
      = hs1 ++ h :: hs2 ->
      find_next_sibling (py "ol") (Some (py "showtimes")) h
      = Some showtimes_ol ->
      (forall h', In h' hs2 ->
         get_text (py " ") (fst h') = get_text (py " ") (fst h) ->
         find_next_sibling (py "ol") (Some (py "showtimes")) h' = None) ->
      dict_get (get_text (py " ") (fst h)) (showtimes_of_soup soup)
      = Some (experiences_of_list (fst showtimes_ol)))
  /\ (forall showtimes_ol lis1 li lis2 strong_tag nested_ol,
         find_all_children (py "li") showtimes_ol = lis1 ++ li :: lis2 ->
         find (py "strong") None (fst li) = Some strong_tag ->
         find (py "ol") None (fst li) = Some nested_ol ->
         (forall li' strong_tag', In li' lis2 ->
            find (py "strong") None (fst li') = Some strong_tag' ->
            get_text (py " ") (fst strong_tag')
            = get_text (py " ") (fst strong_tag) ->
            find (py "ol") None (fst li') = None) ->
         dict_get (get_text (py " ") (fst strong_tag))
                  (experiences_of_list showtimes_ol)
         = Some (times_of_list (fst nested_ol)))
  /\ (forall soup, NoDup (keys (showtimes_of_soup soup)))
  /\ (forall showtimes_ol, NoDup (keys (experiences_of_list showtimes_ol))).
Proof.
  split; [|split; [|split]].
  - exact last_place.
  - exact last_experience.
  - intros soup. unfold showtimes_of_soup.
    destruct (find (py "div") (Some (py "dates")) soup); [|constructor].
    rewrite fold_add_place. apply NoDup_keys_store_all. constructor.
  - intros showtimes_ol. rewrite experiences_of_list_entries.
    apply NoDup_keys_store_all. constructor.
Qed.

End DetailClaims.

(** the detail parser on a page with repeated names and labels *)
Example showtimes_of_page_with_repeats :
  @showtimes_of_soup ascii_platform page_with_repeats
  = [(py "Riyadh Park",
      [(py "Standard", [py "14:30"; py "9:15"; py "Sold Out"]);
       (py "Gold", [py "13:00"])])].
Proof. vm_compute. reflexivity. Qed.


(** the matches of the pattern in a text of the example page *)
Example leftmost_times_of_two_times :
  @leftmost_times ascii_platform (py "14:30 and 9:15") 0 [(0, 5); (10, 4)]%nat
  /\ map (piece (py "14:30 and 9:15")) [(0, 5); (10, 4)]%nat
     = [py "14:30"; py "9:15"].
Proof.
  split; [|vm_compute; reflexivity].
  assert (F : @Re.findall ascii_platform (py "14:30 and 9:15")
              = [py "14:30"; py "9:15"]) by (vm_compute; reflexivity).
  destruct (@leftmost_times_of ascii_platform (py "14:30 and 9:15"))
    as (ms & Hms).
  assert (E := @findall_leftmost ascii_platform _ ms Hms).
  rewrite F in E.
  destruct ms as [|[p1 n1] [|[p2 n2] [|m ms]]]; try discriminate E.
  cbn [map] in E. injection E as E1 E2. symmetry in E1, E2.
  unfold piece in E1, E2. cbn [fst snd] in E1, E2.
  assert (Hms' := Hms). cbn [leftmost_times] in Hms'.
  destruct Hms' as (_ & _ & (L1 & _) & _ & _ & _ & (L2 & _) & _).
  change (List.length (py "14:30 and 9:15")) with 14%nat in L1, L2.
  assert (N1 : n1 = 5%nat).
  { apply (f_equal (@List.length Z)) in E1.
    rewrite length_firstn, length_skipn in E1.
    change (List.length (py "14:30 and 9:15")) with 14%nat in E1.
    change (List.length (py "14:30")) with 5%nat in E1. lia. }
  assert (N2 : n2 = 4%nat).
  { apply (f_equal (@List.length Z)) in E2.
    rewrite length_firstn, length_skipn in E2.
    change (List.length (py "14:30 and 9:15")) with 14%nat in E2.
    change (List.length (py "9:15")) with 4%nat in E2. lia. }
  subst n1 n2.
  assert (P1 : p1 = 0%nat).
  { do 10 (destruct p1 as [|p1]; [try reflexivity; discriminate E1|]). lia. }
  assert (P2 : p2 = 10%nat).
  { do 11 (destruct p2 as [|p2]; [try reflexivity; discriminate E2|]). lia. }
  subst p1 p2. exact Hms.
Qed.

(** C4 as stated fails when something lies between the heading and the
    list: the sibling that immediately follows the heading is a paragraph,
    and yet the cinema is in the output with the list's showtimes. *)
Lemma heading_with_note_before_list :
  map immediately_following_list (headings_of page_with_note) = [None]
  /\ @showtimes_of_soup ascii_platform page_with_note
     = [(py "Riyadh Park", [(py "Standard", [py "10:00"])])].
Proof. vm_compute. split; reflexivity. Qed.

(** C4, at the heading of the same page. *)
Lemma place_list_is_first_following_list_witness :
  @add_place ascii_platform [] (nth 0 (headings_of page_with_note) no_element)
  = [(py "Riyadh Park",
      @experiences_of_list ascii_platform
        (showtimes_list [experience_item "Standard" [time_item "10:00"]]))].
Proof.
  apply (proj1 (proj2 (@place_list_is_first_following_list ascii_platform))
           (nth 0 (headings_of page_with_note) no_element)
           (showtimes_list [experience_item "Standard" [time_item "10:00"]])
           [] []).
  exists [Tag (py "p") [] [] [text_node "Doors open early"]].
  split; [vm_compute; reflexivity|].
  split; [vm_compute; reflexivity|].
  intros c [<-|[]]. vm_compute. reflexivity.
Defined.

(** C10, at the second of two headings of one name. *)
Lemma later_duplicates_overwrite_witness :
  dict_get (py "Riyadh Park") (@showtimes_of_soup ascii_platform page_with_repeats)
  = Some [(py "Standard", [py "14:30"; py "9:15"; py "Sold Out"]);
          (py "Gold", [py "13:00"])].
Proof.
  pose (hs := headings_of page_with_repeats).
  assert (Hd : exists dates_div,
             Soup.find (py "div") (Some (py "dates")) page_with_repeats
             = Some dates_div
             /\ Soup.find_all (py "h3") (Some (py "highlight")) (fst dates_div)
                = [nth 0 hs no_element] ++ nth 1 hs no_element :: [])
    by (eexists; split; vm_compute; reflexivity).
  destruct Hd as (dates_div & Hd & Hhs).
  assert (Hol : exists showtimes_ol,
             Soup.find_next_sibling (py "ol") (Some (py "showtimes"))
               (nth 1 hs no_element) = Some showtimes_ol
             /\ @experiences_of_list ascii_platform (fst showtimes_ol)
                = [(py "Standard", [py "14:30"; py "9:15"; py "Sold Out"]);
                   (py "Gold", [py "13:00"])])
    by (eexists; split; vm_compute; reflexivity).
  destruct Hol as (showtimes_ol & Hol & <-).
  apply (proj1 (@later_duplicates_overwrite ascii_platform)
           page_with_repeats dates_div [nth 0 hs no_element]
           (nth 1 hs no_element) [] showtimes_ol Hd Hhs Hol).
  intros h' [].
Defined.

(** C10 as stated fails when the later of two headings of one name has no
    list, and when the later of two items of one label has no times: the
    later one is skipped, and the name keeps the experiences of the earlier
    heading, the label the times of the earlier item. *)
Lemma later_duplicate_without_list :
  let hs := headings_of page_with_bare_repeats in
  let items :=
    Soup.find_all_children (py "li")
      (showtimes_list
         [experience_item "Standard" [time_item "10:00"];
          Tag (py "li") [] []
              [Tag (py "strong") [] [] [text_node "Standard"]]]) in
  map (fun h => Soup.get_text (py " ") (fst h)) hs
  = [py "Riyadh Park"; py "Riyadh Park"]
  /\ map (fun li => option_map (fun e => Soup.get_text (py " ") (fst e))
                      (Soup.find (py "strong") None (fst li))) items
     = [Some (py "Standard"); Some (py "Standard")]
  /\ @add_place ascii_platform [] (nth 0 hs no_element)
     = [(py "Riyadh Park", [(py "Standard", [py "10:00"])])]
  /\ @add_place ascii_platform [] (nth 1 hs no_element) = []
  /\ @add_experience ascii_platform [] (nth 0 items no_element)
     = [(py "Standard", [py "10:00"])]
  /\ @add_experience ascii_platform [] (nth 1 items no_element) = []
  /\ @showtimes_of_soup ascii_platform page_with_bare_repeats
     = [(py "Riyadh Park", [(py "Standard", [py "10:00"])])].
Proof. vm_compute. repeat split; reflexivity. Qed.

(** ** The listing parser *)

Section ReplaceFacts.

Lemma remove_from_skip old k s :
  remove_from old k s = remove_from old O (skipn k s).
Proof.
  revert k. induction s as [|c s IH]; intros k.
  - destruct k; reflexivity.
  - destruct k as [|k]; [reflexivity|]. cbn [remove_from skipn]. apply IH.
Qed.

Lemma startswith_app p s : startswith p (p ++ s) = true.
Proof.
  induction p as [|x p IH]; [destruct s; reflexivity|].
  cbn [app startswith]. now rewrite Z.eqb_refl, IH.
Qed.

Lemma startswith_prefix p s :
  startswith p s = true -> s = p ++ skipn (List.length p) s.
Proof.
  revert s. induction p as [|x p IH]; intros s; [reflexivity|].
  destruct s as [|y s]; cbn [startswith]; [discriminate|].
  intros E. apply andb_true_iff in E as [E1 E2]. apply Z.eqb_eq in E1.
  subst y. cbn [List.length skipn app]. f_equal. now apply IH.
Qed.

(** where [old] does not occur, nothing is removed *)
Lemma remove_all_absent old s :
  contains old s = false -> remove_all old s = s.
Proof.
  unfold remove_all. induction s as [|c s IH]; cbn [contains remove_from];
    intros E; [reflexivity|].
  apply orb_false_iff in E as [E1 E2].
  cbn [startswith] in E1 |- *.
  replace (startswith old (c :: s)) with false. f_equal. now apply IH.
Qed.

(** a leading occurrence of [old] is removed, and the scan goes on behind
    it *)
Lemma remove_all_leading old rest :
  old <> [] -> remove_all old (old ++ rest) = remove_all old rest.
Proof.
  intros Hne. unfold remove_all.
  destruct old as [|o old]; [congruence|].
  assert (Hs := startswith_app (o :: old) rest).
  cbn [app remove_from] in *. rewrite Hs.
  cbn [List.length Nat.pred]. rewrite remove_from_skip.
  now rewrite skipn_app, skipn_all, Nat.sub_diag.
Qed.

End ReplaceFacts.

Section ListingClaims.
Import Soup SoupFacts.

(** C5 (as amended).  For an entry with a language label, [language] is
    the label's text with every occurrence of ["Language:"] removed, from
    left to right, and then trimmed.  When ["Language:"] occurs in it as
    the prefix only, or not at all, this is the text with the prefix
    stripped, trimmed. *)
Theorem language_removes_every_occurrence article language_p :
  find (py "p") (Some (py "language")) article = Some language_p ->
  let label := get_text [] (fst language_p) in
  language (parse_article article)
  = strip (remove_all (py "Language:") label)
  /\ (contains (py "Language:") (without_prefix (py "Language:") label)
      = false ->
      language (parse_article article)
      = strip (without_prefix (py "Language:") label)).
Proof.
  intros Hp label.
  assert (E : language (parse_article article)
              = strip (remove_all (py "Language:") label)).
  { unfold parse_article. cbn [language]. now rewrite Hp. }
  split; [exact E|].
  rewrite E. unfold without_prefix.
  destruct (startswith (py "Language:") label) eqn:Es; intros Hc.
  - rewrite (startswith_prefix _ _ Es) at 1.
    rewrite remove_all_leading by discriminate.
    now rewrite remove_all_absent.
  - now rewrite remove_all_absent.
Qed.

(** C6.  On markup the HTML parser accepts, [parse_movies] returns one
    record per movie entry and raises nothing; a record's description,
    image, classification, language or showtimes link is the empty string
    when the entry has no such element. *)
Theorem missing_fields_are_empty `{World} :
  (forall html soup,
      BeautifulSoup html = Ok soup ->
      parse_movies html = Ok (movies_of_soup soup)
      /\ List.length (movies_of_soup soup)
         = List.length
             (find_all (py "article") (Some (py "movie-summary")) soup))
  /\ (forall article,
         (lacks (py "p") (Some (py "movie-description")) article ->
          description (parse_article article) = [])
         /\ (lacks (py "a") None article \/ lacks (py "img") None article ->
             image_url (parse_article article) = [])
         /\ (lacks (py "span") (Some (py "classification")) article ->
             classification (parse_article article) = [])
         /\ (lacks (py "p") (Some (py "language")) article ->
             language (parse_article article) = [])
         /\ (lacks_link_with (py "Showtimes") article ->
             showtimes_url (parse_article article) = [])).
Proof.
  split.
  - intros html soup Hs. unfold parse_movies. rewrite Hs.
    split; [reflexivity|]. unfold movies_of_soup. apply length_map.
  - intros article. unfold parse_article.
    cbn [description image_url classification language showtimes_url].
    repeat split.
    + intros Hl. apply find_None in Hl. now rewrite Hl.
    + intros [Hl|Hl].
      * apply find_None in Hl. now rewrite Hl.
      * destruct (find (py "a") None article) as [a_tag|] eqn:Ea;
          [|reflexivity].
        destruct (find (py "img") None (fst a_tag)) as [img_tag|] eqn:Ei;
          [|reflexivity].
        apply find_Some in Ea as [Ha _]. apply find_Some in Ei as [Hi Hm].
        rewrite (Hl img_tag (descendants_trans article a_tag img_tag Ha Hi))
          in Hm. discriminate.
    + intros Hl. apply find_None in Hl. now rewrite Hl.
    + intros Hl. apply find_None in Hl. now rewrite Hl.
    + intros Hl. now rewrite (find_with_string_None _ _ _ Hl).
Qed.

End ListingClaims.

(** the listing parser on a page with a full and a bare entry *)
Example movies_of_listing_page :
  movies_of_soup listing_page
  = [mk_Movie (py "dune") [] (py "Dune") (py "A desert planet.")
       (py "/img/dune.jpg") (py "PG13") (py "English")
       (py "/movies/dune#showtimes") [];
     mk_Movie [] [] [] [] [] [] [] [] []].
Proof. vm_compute. reflexivity. Qed.

(** C5, at the first entry of the example listing. *)
Lemma language_removes_every_occurrence_witness :
  language (parse_article (nth 0 (map fst (Soup.find_all (py "article")
                                    (Some (py "movie-summary")) listing_page))
                               (Comment [])))
  = py "English".
Proof.
  pose (entry := nth 0 (map fst (Soup.find_all (py "article")
                          (Some (py "movie-summary")) listing_page))
                     (Comment [])).
  assert (Hp : exists language_p,
             Soup.find (py "p") (Some (py "language")) entry = Some language_p
             /\ strip (remove_all (py "Language:")
                         (Soup.get_text [] (fst language_p))) = py "English")
    by (eexists; split; vm_compute; reflexivity).
  destruct Hp as (language_p & Hp & <-).
  exact (proj1 (language_removes_every_occurrence entry language_p Hp)).
Defined.

(** C5 as stated fails when the label names the language before the word:
    ["Language:"] is no prefix of the text, and yet it is removed. *)
Lemma language_label_in_the_middle :
  language (parse_article arabic_entry) = py "Arabic  Fusha"
  /\ option_map
       (fun language_p =>
          strip (without_prefix (py "Language:")
                   (Soup.get_text [] (fst language_p))))
       (Soup.find (py "p") (Some (py "language")) arabic_entry)
     = Some (py "Arabic Language: Fusha").
Proof. vm_compute. split; reflexivity. Qed.

(** C6, at an entry without contents. *)
Lemma missing_fields_are_empty_witness :
  description (parse_article (article [] [])) = []
  /\ image_url (parse_article (article [] [])) = []
  /\ classification (parse_article (article [] [])) = []
  /\ language (parse_article (article [] [])) = []
  /\ showtimes_url (parse_article (article [] [])) = [].
Proof.
  destruct (proj2 (@missing_fields_are_empty third_request_fails)
              (article [] [])) as (H1 & H2 & H3 & H4 & H5).
  split; [apply H1; intros e []|].
  split; [apply H2; left; intros e []|].
  split; [apply H3; intros e []|].
  split; [apply H4; intros e []|].
  apply H5; intros e s [].
Defined.

(** ** JSON: what is written can be read *)

Module JsonFacts.
Import Json.

(** *** Hexadecimal digits and surrogates *)

Lemma hex_value_digit d : 0 <= d < 16 -> hex_value (hex_digit d) = Some d.
Proof.
  intros Hd.
  assert (H : d = 0 \/ d = 1 \/ d = 2 \/ d = 3 \/ d = 4 \/ d = 5 \/ d = 6 \/
              d = 7 \/ d = 8 \/ d = 9 \/ d = 10 \/ d = 11 \/ d = 12 \/
              d = 13 \/ d = 14 \/ d = 15) by lia.
  repeat (destruct H as [H|H]); subst d; reflexivity.
Qed.

Lemma decode_hex4 n :
  0 <= n < 65536 ->
  decode_uXXXX (hex_digit (n / 4096 mod 16)) (hex_digit (n / 256 mod 16))
               (hex_digit (n / 16 mod 16)) (hex_digit (n mod 16))
  = Some n.
Proof.
  intros Hn. unfold decode_uXXXX.
  rewrite !hex_value_digit by (apply Z.mod_pos_bound; lia).
  f_equal. Z.div_mod_to_equations. lia.
Qed.

Lemma land_shifted_low a b : 0 <= b < 1024 -> Z.land (a * 1024) b = 0.
Proof.
  intros Hb. apply Z.bits_inj'. intros n Hn.
  rewrite Z.land_spec, Z.bits_0.
  change 1024 with (2 ^ 10). rewrite <- Z.shiftl_mul_pow2 by lia.
  destruct (Z_lt_ge_dec n 10) as [Hlt|Hge].
  - rewrite Z.shiftl_spec_low by assumption. reflexivity.
  - destruct (Z.eq_dec b 0) as [->|Hb0].
    + rewrite Z.bits_0. apply andb_false_r.
    + assert (Hl : Z.log2 b < 10)
        by (apply Z.log2_lt_pow2; [lia | change (2 ^ 10) with 1024; lia]).
      rewrite (Z.bits_above_log2 b n) by lia.
      apply andb_false_r.
Qed.

Lemma lor_shifted_low a b :
  0 <= b < 1024 -> Z.lor (a * 1024) b = a * 1024 + b.
Proof.
  intros Hb. assert (H := land_shifted_low a b Hb).
  rewrite <- Z.lxor_lor by assumption.
  symmetry. now apply Z.add_nocarry_lxor.
Qed.

(** the surrogate pair the encoder writes for a character outside the
    basic plane, and what the decoder makes of it *)
Lemma surrogate_pair c :
  65536 <= c < 1114112 ->
  let n := c - 65536 in
  let s1 := Z.lor 55296 (Z.land (Z.shiftr n 10) 1023) in
  let s2 := Z.lor 56320 (Z.land n 1023) in
  0 <= s1 < 65536 /\ 0 <= s2 < 65536
  /\ is_high_surrogate s1 = true /\ is_low_surrogate s2 = true
  /\ 65536 + Z.lor (Z.shiftl (s1 - 55296) 10) (s2 - 56320) = c.
Proof.
  intros Hc n s1 s2.
  assert (E1 : s1 = 55296 + n / 1024).
  { unfold s1. change 1023 with (Z.ones 10).
    rewrite Z.land_ones, Z.shiftr_div_pow2 by lia.
    change (2 ^ 10) with 1024.
    rewrite Z.mod_small by (unfold n; Z.div_mod_to_equations; lia).
    change 55296 with (54 * 1024) at 1.
    rewrite lor_shifted_low by (unfold n; Z.div_mod_to_equations; lia).
    reflexivity. }
  assert (E2 : s2 = 56320 + n mod 1024).
  { unfold s2. change 1023 with (Z.ones 10).
    rewrite Z.land_ones by lia. change (2 ^ 10) with 1024.
    change 56320 with (55 * 1024) at 1.
    rewrite lor_shifted_low by (apply Z.mod_pos_bound; lia).
    reflexivity. }
  assert (Hq : 0 <= n / 1024 < 1024)
    by (unfold n; Z.div_mod_to_equations; lia).
  assert (Hr : 0 <= n mod 1024 < 1024) by (apply Z.mod_pos_bound; lia).
  unfold is_high_surrogate, is_low_surrogate.
  rewrite E1, E2.
  repeat split; try lia.
  replace (55296 + n / 1024 - 55296) with (n / 1024) by lia.
  replace (56320 + n mod 1024 - 56320) with (n mod 1024) by lia.
  rewrite Z.shiftl_mul_pow2 by lia. change (2 ^ 10) with 1024.
  rewrite lor_shifted_low by assumption.
  unfold n in *. Z.div_mod_to_equations. lia.
Qed.

(** *** Strings *)

Lemma scan_after_high uni text :
  calm text = true ->
  match text with
  | bs :: u :: a2 :: b2 :: c2 :: d2 :: rest3 =>
      if (bs =? 92) && (u =? 117) then
        match decode_uXXXX a2 b2 c2 d2 with
        | None => None
        | Some uni2 =>
            if is_low_surrogate uni2 then
              append_char
                (65536 + Z.lor (Z.shiftl (uni - 55296) 10) (uni2 - 56320))
                (scanstring rest3)
            else append_char uni (scanstring text)
        end
      else append_char uni (scanstring text)
  | bs :: u :: _ =>
      if (bs =? 92) && (u =? 117) then None
      else append_char uni (scanstring text)
  | _ => append_char uni (scanstring text)
  end = append_char uni (scanstring text).
Proof.
  unfold calm.
  destruct text as [|bs [|u tail]]; try reflexivity.
  destruct ((bs =? 92) && (u =? 117)).
  - destruct tail as [|a [|b [|c [|d rest3]]]]; try discriminate.
    destruct (decode_uXXXX a b c d) as [uni2|]; [|discriminate].
    destruct (is_low_surrogate uni2); [discriminate | reflexivity].
  - destruct tail as [|a [|b [|c [|d rest3]]]]; reflexivity.
Qed.

Lemma scan_unicode_escape uni text :
  0 <= uni < 65536 ->
  (is_high_surrogate uni = true -> calm text = true) ->
  scanstring (92 :: 117 :: hex4 uni ++ text)
  = append_char uni (scanstring text).
Proof.
  intros Hu Hcalm. unfold hex4. cbn [app scanstring].
  change (92 =? 34) with false. change (92 =? 92) with true.
  change (117 =? 117) with true. cbv iota.
  rewrite (decode_hex4 uni Hu).
  destruct (is_high_surrogate uni); [|reflexivity].
  apply scan_after_high, Hcalm. reflexivity.
Qed.

Lemma scan_plain c text :
  c <> 34 -> c <> 92 -> 32 <= c ->
  scanstring (c :: text) = append_char c (scanstring text).
Proof.
  intros H1 H2 H3. cbn [scanstring].
  replace (c =? 34) with false by (symmetry; now apply Z.eqb_neq).
  replace (c =? 92) with false by (symmetry; now apply Z.eqb_neq).
  replace ((0 <=? c) && (c <? 32)) with false by lia.
  reflexivity.
Qed.

(** the decoder reads back what the encoder writes for a character *)
Lemma scan_escape c text :
  0 <= c < 1114112 ->
  (is_high_surrogate c = true -> calm text = true) ->
  scanstring (escape c ++ text) = append_char c (scanstring text).
Proof.
  intros Hc Hcalm. unfold escape.
  destruct (Z.eqb_spec c 92) as [->|N92]; [reflexivity|].
  destruct (Z.eqb_spec c 34) as [->|N34]; [reflexivity|].
  destruct (Z.eqb_spec c 8) as [->|N8]; [reflexivity|].
  destruct (Z.eqb_spec c 12) as [->|N12]; [reflexivity|].
  destruct (Z.eqb_spec c 10) as [->|N10]; [reflexivity|].
  destruct (Z.eqb_spec c 13) as [->|N13]; [reflexivity|].
  destruct (Z.eqb_spec c 9) as [->|N9]; [reflexivity|].
  destruct ((32 <=? c) && (c <=? 126)) eqn:Ep.
  - cbn [app]. apply scan_plain; lia.
  - destruct (Z.ltb_spec c 65536) as [Hlt|Hge].
    + cbn [app]. apply scan_unicode_escape; [lia | assumption].
    + cbv zeta.
      destruct (surrogate_pair c ltac:(lia)) as (R1 & R2 & H1 & H2 & E).
      cbv zeta in R1, R2, H1, H2, E.
      set (s1 := Z.lor 55296 (Z.land (Z.shiftr (c - 65536) 10) 1023)) in *.
      set (s2 := Z.lor 56320 (Z.land (c - 65536) 1023)) in *.
      rewrite <- !app_assoc. cbn [app].
      unfold hex4 at 1. cbn [app scanstring].
      change (92 =? 34) with false. change (92 =? 92) with true.
      change (117 =? 117) with true. cbv iota.
      rewrite (decode_hex4 s1 R1), H1. unfold hex4. cbn [app].
      change (92 =? 92) with true. change (117 =? 117) with true.
      cbn [andb]. rewrite (decode_hex4 s2 R2), H2, E. reflexivity.
Qed.

Lemma calm_quote rest : calm (34 :: rest) = true.
Proof. destruct rest; reflexivity. Qed.

Lemma calm_escape c text :
  0 <= c < 1114112 -> is_low_surrogate c = false ->
  calm (escape c ++ text) = true.
Proof.
  intros Hc Hlow. unfold escape.
  destruct (Z.eqb_spec c 92) as [->|N92]; [reflexivity|].
  destruct (Z.eqb_spec c 34) as [->|N34]; [reflexivity|].
  destruct (Z.eqb_spec c 8) as [->|N8]; [reflexivity|].
  destruct (Z.eqb_spec c 12) as [->|N12]; [reflexivity|].
  destruct (Z.eqb_spec c 10) as [->|N10]; [reflexivity|].
  destruct (Z.eqb_spec c 13) as [->|N13]; [reflexivity|].
  destruct (Z.eqb_spec c 9) as [->|N9]; [reflexivity|].
  destruct ((32 <=? c) && (c <=? 126)) eqn:Ep.
  - cbn [app]. unfold calm. destruct text; [reflexivity|].
    replace (c =? 92) with false by lia. reflexivity.
  - destruct (Z.ltb_spec c 65536) as [Hlt|Hge].
    + unfold hex4. cbn [app calm].
      change ((92 =? 92) && (117 =? 117)) with true. cbv iota.
      rewrite (decode_hex4 c ltac:(lia)), Hlow. reflexivity.
    + cbv zeta.
      destruct (surrogate_pair c ltac:(lia)) as (R1 & R2 & H1 & H2 & E).
      cbv zeta in R1, R2, H1, H2, E.
      set (s1 := Z.lor 55296 (Z.land (Z.shiftr (c - 65536) 10) 1023)) in *.
      rewrite <- !app_assoc. unfold hex4 at 1. cbn [app calm].
      change ((92 =? 92) && (117 =? 117)) with true. cbv iota.
      rewrite (decode_hex4 s1 R1).
      unfold is_high_surrogate, is_low_surrogate in *.
      replace ((56320 <=? s1) && (s1 <=? 57343)) with false by lia.
      reflexivity.
Qed.

Lemma scanstring_escaped s rest :
  well_formed s = true ->
  scanstring (flat_map escape s ++ 34 :: rest) = Some (s, rest).
Proof.
  induction s as [|c s IH]; intros Hwf; [cbn; reflexivity|].
  cbn [well_formed] in Hwf.
  apply andb_true_iff in Hwf as [Hwf Hs].
  apply andb_true_iff in Hwf as [Hc Hpair].
  cbn [flat_map]. rewrite <- app_assoc.
  rewrite scan_escape.
  - now rewrite (IH Hs).
  - lia.
  - intros Hhigh. rewrite Hhigh in Hpair. cbn [andb] in Hpair.
    destruct s as [|c' s']; [apply calm_quote|].
    cbn [flat_map]. rewrite <- app_assoc.
    cbn [well_formed] in Hs.
    apply calm_escape; [lia|].
    now apply negb_true_iff in Hpair.
Qed.

Lemma scan_basestring s rest fuel :
  well_formed s = true ->
  scan_once (S fuel) (encode_basestring_ascii s ++ rest)
  = Some (JString s, rest).
Proof.
  intros Hwf. unfold encode_basestring_ascii.
  cbn [app scan_once]. change (34 =? 34) with true. cbv iota.
  rewrite <- app_assoc. cbn [app].
  now rewrite (scanstring_escaped s rest Hwf).
Qed.

(** *** Arrays and objects *)

Lemma encode_JArray level first others :
  encode level (JArray (first :: others))
  = [91] ++ newline_indent (S level) ++ encode (S level) first
    ++ more_items (S level) others ++ newline_indent level ++ [93].
Proof.
  cbn [encode]. do 3 f_equal. f_equal.
  induction others as [|v l IH]; [reflexivity|].
  cbn [more_items flat_map]. rewrite <- !app_assoc. do 3 f_equal.
  exact IH.
Qed.

Lemma encode_JObject level key first others :
  encode level (JObject ((key, first) :: others))
  = [123] ++ newline_indent (S level) ++ encode_basestring_ascii key
    ++ [58; 32] ++ encode (S level) first
    ++ more_members (S level) others ++ newline_indent level ++ [125].
Proof.
  cbn [encode]. do 5 f_equal. f_equal.
  induction others as [|[k v] l IH]; [reflexivity|].
  cbn [more_members flat_map fst snd]. rewrite <- !app_assoc.
  do 5 f_equal. exact IH.
Qed.

Lemma exportable_JArray items :
  exportable (JArray items) = forallb exportable items.
Proof.
  cbn [exportable]. induction items as [|x l IH]; [reflexivity|].
  cbn [forallb]. now rewrite IH.
Qed.

Lemma exportable_JObject members :
  exportable (JObject members)
  = unique (map fst members)
    && forallb (fun kv => well_formed (fst kv) && exportable (snd kv))
               members.
Proof.
  cbn [exportable]. f_equal.
  induction members as [|[k x] l IH]; [reflexivity|].
  cbn [forallb fst snd]. now rewrite IH.
Qed.

Lemma weight_JArray items : weight (JArray items) = S (items_weight items).
Proof.
  reflexivity.
Qed.

Lemma weight_JObject members :
  weight (JObject members) = S (members_weight members).
Proof.
  cbn [weight]. f_equal.
  induction members as [|[k x] l IH]; [reflexivity|].
  cbn [members_weight snd]. rewrite IH. reflexivity.
Qed.

Lemma skip_ws_keep c text :
  is_ws c = false -> skip_ws (c :: text) = c :: text.
Proof. intros Hc. cbn [skip_ws]. now rewrite Hc. Qed.

Lemma skip_ws_spaces n text : skip_ws (repeat 32 n ++ text) = skip_ws text.
Proof. induction n as [|n IH]; [reflexivity|]. cbn. exact IH. Qed.

Lemma skip_ws_indent level c text :
  is_ws c = false -> skip_ws (newline_indent level ++ c :: text) = c :: text.
Proof.
  intros Hc. unfold newline_indent. cbn [app skip_ws].
  change (is_ws 10) with true. cbv iota.
  rewrite skip_ws_spaces. now apply skip_ws_keep.
Qed.

(** every encoding starts with a quote, a brace or a bracket *)
Lemma encode_starts level v :
  exists c tl, encode level v = c :: tl
               /\ (c = 34 \/ c = 123 \/ c = 91).
Proof.
  destruct v as [s|[|first others]|[|[key first] others]].
  - eexists _, _. split; [reflexivity | auto].
  - eexists _, _. split; [reflexivity | auto].
  - rewrite encode_JArray. eexists _, _. split; [reflexivity | auto].
  - eexists _, _. split; [reflexivity | auto].
  - rewrite encode_JObject. eexists _, _. split; [reflexivity | auto].
Qed.

Lemma skip_ws_before_value level v text n :
  skip_ws (newline_indent n ++ encode level v ++ text)
  = encode level v ++ text.
Proof.
  destruct (encode_starts level v) as (c & tl & E & Hc).
  rewrite E. cbn [app]. apply skip_ws_indent.
  destruct Hc as [->|[->| ->]]; reflexivity.
Qed.

Lemma skip_ws_value level v text :
  skip_ws (encode level v ++ text) = encode level v ++ text.
Proof.
  destruct (encode_starts level v) as (c & tl & E & Hc).
  rewrite E. cbn [app]. apply skip_ws_keep.
  destruct Hc as [->|[->| ->]]; reflexivity.
Qed.

Lemma parse_items_encoded others :
  forall first level rest fuel,
    reads_back first -> Forall reads_back others ->
    exportable first = true -> forallb exportable others = true ->
    (S (weight first + items_weight others) <= fuel)%nat ->
    parse_items fuel
      (encode (S level) first ++ more_items (S level) others
       ++ newline_indent level ++ 93 :: rest)
    = Some (first :: others, rest).
Proof.
  induction others as [|v others IH];
    intros first level rest fuel Pf Po Ef Eo Hfuel.
  - destruct fuel as [|fuel]; [lia|]. cbn [parse_items].
    rewrite (Pf Ef (S level) _ fuel) by (cbn in Hfuel; lia).
    cbn [more_items flat_map app].
    rewrite skip_ws_indent by reflexivity.
    reflexivity.
  - destruct fuel as [|fuel]; [lia|]. cbn [parse_items].
    cbn [items_weight] in Hfuel.
    rewrite (Pf Ef (S level) _ fuel) by lia.
    cbn [more_items flat_map]. fold (more_items (S level) others).
    rewrite <- !app_assoc. cbn [app skip_ws].
    change (is_ws 44) with false. cbv iota.
    change (44 =? 93) with false. change (44 =? 44) with true. cbv iota.
    rewrite skip_ws_before_value.
    inversion Po as [|? ? Pv Po']; subst.
    cbn [forallb] in Eo. apply andb_true_iff in Eo as [Ev Eo].
    rewrite (IH v level rest fuel Pv Po' Ev Eo) by lia.
    reflexivity.
Qed.

Lemma parse_members_encoded others :
  forall key first level rest fuel,
    reads_back first -> Forall (fun kv => reads_back (snd kv)) others ->
    well_formed key = true -> exportable first = true ->
    forallb (fun kv => well_formed (fst kv) && exportable (snd kv)) others
    = true ->
    (S (weight first + members_weight others) <= fuel)%nat ->
    parse_members fuel
      (flat_map escape key ++ [34] ++ [58; 32] ++ encode (S level) first
       ++ more_members (S level) others ++ newline_indent level
       ++ 125 :: rest)
    = Some ((key, first) :: others, rest).
Proof.
  induction others as [|[k v] others IH];
    intros key first level rest fuel Pf Po Ek Ef Eo Hfuel.
  - destruct fuel as [|fuel]; [lia|]. cbn [parse_members].
    cbn [app]. rewrite (scanstring_escaped key _ Ek).
    cbn [skip_ws]. change (is_ws 58) with false. cbv iota.
    change (58 =? 58) with true. cbv iota.
    cbn [skip_ws]. change (is_ws 32) with true. cbv iota.
    rewrite skip_ws_value.
    rewrite (Pf Ef (S level) _ fuel) by (cbn in Hfuel; lia).
    cbn [more_members flat_map app].
    rewrite skip_ws_indent by reflexivity.
    reflexivity.
  - destruct fuel as [|fuel]; [lia|]. cbn [parse_members].
    cbn [members_weight snd] in Hfuel.
    cbn [app]. rewrite (scanstring_escaped key _ Ek).
    cbn [skip_ws]. change (is_ws 58) with false. cbv iota.
    change (58 =? 58) with true. cbv iota.
    cbn [skip_ws]. change (is_ws 32) with true. cbv iota.
    rewrite skip_ws_value.
    rewrite (Pf Ef (S level) _ fuel) by lia.
    cbn [more_members flat_map fst snd].
    fold (more_members (S level) others).
    rewrite <- !app_assoc. cbn [app skip_ws].
    change (is_ws 44) with false. cbv iota.
    change (44 =? 125) with false. change (44 =? 44) with true. cbv iota.
    unfold encode_basestring_ascii. cbn [app].
    rewrite skip_ws_indent by reflexivity.
    change (34 =? 34) with true. cbv iota.
    inversion Po as [|? ? Pv Po']; subst. cbn [snd] in Pv.
    cbn [forallb fst snd] in Eo. apply andb_true_iff in Eo as [Ekv Eo].
    apply andb_true_iff in Ekv as [Ek' Ev].
    assert (Hp := IH k v level rest fuel Pv Po' Ek' Ev Eo ltac:(lia)).
    cbn [app] in Hp. rewrite <- !app_assoc. cbn [app]. rewrite Hp.
    reflexivity.
Qed.

Lemma unique_NoDup l : unique l = true -> NoDup l.
Proof.
  induction l as [|k l IH]; cbn [unique]; intros Hu; [constructor|].
  apply andb_true_iff in Hu as [Hk Hl]. constructor; [|auto].
  intros Hin. apply negb_true_iff in Hk.
  assert (existsb (str_eqb k) l = true)
    by (apply existsb_exists; exists k; split;
        [assumption | apply str_eqb_refl]).
  congruence.
Qed.

Lemma dict_of_pairs_unique {V : Type} (pairs : list (str * V)) :
  unique (map fst pairs) = true -> dict_of_pairs pairs = pairs.
Proof.
  intros Hu. change (dict_of_pairs pairs) with (store_all pairs []).
  rewrite store_all_fresh; [reflexivity|]. now apply unique_NoDup.
Qed.

(** the scanner reads every exportable value back from its encoding *)
Lemma scan_encoded v : reads_back v.
Proof.
  induction v as [s|items IH|members IH] using value_induction;
    intros Ev level rest fuel Hfuel.
  - destruct fuel as [|fuel]; [cbn in Hfuel; lia|].
    now apply scan_basestring.
  - rewrite weight_JArray in Hfuel. rewrite exportable_JArray in Ev.
    destruct fuel as [|fuel]; [lia|].
    destruct items as [|first others].
    + reflexivity.
    + rewrite encode_JArray. rewrite <- !app_assoc.
      cbn [app scan_once].
      change (91 =? 34) with false. change (91 =? 123) with false.
      change (91 =? 91) with true. cbv iota.
      rewrite skip_ws_before_value.
      destruct (encode_starts (S level) first) as (c & tl & E & Hc).
      inversion IH as [|? ? Pf Po]; subst.
      cbn [forallb] in Ev. apply andb_true_iff in Ev as [Ef Eo].
      assert (Hp := parse_items_encoded others first level rest fuel
                      Pf Po Ef Eo).
      cbn [items_weight] in Hfuel.
      specialize (Hp ltac:(lia)).
      rewrite E in Hp |- *. cbn [app] in Hp |- *.
      replace (c =? 93) with false
        by (destruct Hc as [->|[->| ->]]; reflexivity).
      rewrite Hp. reflexivity.
  - rewrite weight_JObject in Hfuel. rewrite exportable_JObject in Ev.
    apply andb_true_iff in Ev as [Eu Ev].
    destruct fuel as [|fuel]; [lia|].
    destruct members as [|[key first] others].
    + reflexivity.
    + rewrite encode_JObject. unfold encode_basestring_ascii.
      rewrite <- !app_assoc.
      cbn [app scan_once].
      change (123 =? 34) with false. change (123 =? 123) with true.
      cbv iota.
      rewrite skip_ws_indent by reflexivity.
      change (34 =? 125) with false. change (34 =? 34) with true. cbv iota.
      inversion IH as [|? ? Pf Po]; subst. cbn [snd] in Pf.
      cbn [forallb fst snd] in Ev. apply andb_true_iff in Ev as [Ekf Eo].
      apply andb_true_iff in Ekf as [Ek Ef].
      assert (Hp := parse_members_encoded others key first level rest fuel
                      Pf Po Ek Ef Eo).
      cbn [members_weight snd] in Hfuel.
      specialize (Hp ltac:(lia)).
      cbn [app] in Hp. rewrite <- !app_assoc. cbn [app]. rewrite Hp.
      now rewrite (dict_of_pairs_unique _ Eu).
Qed.

(** *** Whole texts *)

Lemma length_newline_indent level :
  (1 <= List.length (newline_indent level))%nat.
Proof. unfold newline_indent. cbn [List.length]. lia. Qed.

Lemma weight_le_length v :
  forall level, (weight v <= List.length (encode level v))%nat.
Proof.
  induction v as [s|items IH|members IH] using value_induction; intros level.
  - unfold encode, encode_basestring_ascii. cbn [weight List.length].
    rewrite length_app. cbn [List.length]. lia.
  - destruct items as [|first others]; [cbn; lia|].
    rewrite encode_JArray, weight_JArray. cbn [items_weight].
    inversion IH as [|? ? Pf Po]; subst.
    assert (Hm : (items_weight others
                  <= List.length (more_items (S level) others))%nat).
    { clear Pf IH. induction Po as [|v l Pv Pl IHl]; [cbn; lia|].
      cbn [items_weight more_items flat_map].
      fold (more_items (S level) l).
      rewrite !length_app. cbn [List.length].
      specialize (Pv (S level)). lia. }
    rewrite !length_app. cbn [List.length].
    specialize (Pf (S level)).
    assert (N1 := length_newline_indent (S level)).
    assert (N0 := length_newline_indent level). lia.
  - destruct members as [|[key first] others]; [cbn; lia|].
    rewrite encode_JObject, weight_JObject. cbn [members_weight snd].
    inversion IH as [|? ? Pf Po]; subst. cbn [snd] in Pf.
    assert (Hm : (members_weight others
                  <= List.length (more_members (S level) others))%nat).
    { clear Pf IH. induction Po as [|[k v] l Pv Pl IHl]; [cbn; lia|].
      cbn [members_weight more_members flat_map fst snd].
      fold (more_members (S level) l).
      rewrite !length_app. cbn [List.length].
      cbn [snd] in Pv. specialize (Pv (S level)). lia. }
    rewrite !length_app. cbn [List.length].
    specialize (Pf (S level)).
    assert (N1 := length_newline_indent (S level)).
    assert (N0 := length_newline_indent level). lia.
Qed.

(** [json.loads(json.dumps(v, indent=2))] is [v] *)
Lemma loads_dumps v : exportable v = true -> loads (dumps v) = Some v.
Proof.
  intros Ev. unfold loads, dumps.
  assert (Hs := skip_ws_value 0 v []). rewrite app_nil_r in Hs. rewrite Hs.
  assert (Hr := scan_encoded v Ev 0%nat [] (S (List.length (encode 0 v)))).
  rewrite app_nil_r in Hr. rewrite Hr; [reflexivity|].
  assert (W := weight_le_length v 0). lia.
Qed.

Lemma no_surrogates_well_formed s :
  no_surrogates s = true -> well_formed s = true.
Proof.
  unfold no_surrogates. induction s as [|c s IH]; [reflexivity|].
  cbn [forallb well_formed]. intros Hc.
  apply andb_true_iff in Hc as [Hc Hs]. rewrite (IH Hs).
  unfold is_high_surrogate.
  destruct s as [|c' s']; lia.
Qed.

(** *** Records *)

Lemma all_some_map {A B : Type} (f : B -> option A) (g : A -> B) l :
  (forall x, f (g x) = Some x) -> all_some (map f (map g l)) = Some l.
Proof.
  intros Hfg. induction l as [|a l IH]; [reflexivity|].
  cbn [map all_some]. now rewrite Hfg, IH.
Qed.

Lemma as_list_times times :
  as_list as_string (json_of_times times) = Some times.
Proof. unfold json_of_times, as_list. now apply all_some_map. Qed.

Lemma as_dict_json_of_dict {A : Type} (f : value -> option A)
  (g : A -> value) (d : dict A) :
  (forall x, f (g x) = Some x) -> as_dict f (json_of_dict g d) = Some d.
Proof.
  intros Hfg. unfold json_of_dict, as_dict.
  induction d as [|[k a] d IH]; [reflexivity|].
  cbn [map all_some fst snd]. now rewrite Hfg, IH.
Qed.

(** comparing the field names *)
Ltac compare_names :=
  repeat match goal with
  | |- context [str_eqb (py ?a) (py ?b)] =>
      let r := eval vm_compute in (str_eqb (py a) (py b)) in
      change (str_eqb (py a) (py b)) with r
  end.

Lemma day_of_json_of_day day : day_of_json (json_of_day day) = Some day.
Proof.
  destruct day as [dow shows].
  unfold day_of_json, json_of_day, field. cbn [dict_get day_of_week showtimes].
  compare_names. cbv iota. cbn [as_string].
  rewrite as_dict_json_of_dict; [reflexivity|].
  intros x. apply as_dict_json_of_dict. apply as_list_times.
Qed.

Lemma movie_of_json_asdict movie : movie_of_json (asdict movie) = Some movie.
Proof.
  destruct movie.
  unfold movie_of_json, asdict, field.
  cbn [dict_get slug identifier title description image_url classification
       language showtimes_url timings].
  compare_names. cbv iota. cbn [as_string].
  rewrite as_dict_json_of_dict; [reflexivity|].
  apply day_of_json_of_day.
Qed.

Lemma as_list_movies movies :
  as_list movie_of_json (JArray (map asdict movies)) = Some movies.
Proof. unfold as_list. apply all_some_map, movie_of_json_asdict. Qed.

End JsonFacts.

(** ** The exporter and the orchestrator *)

Section ConsoleFacts.
Context `{World}.

Lemma is_ascii_digits d :
  forallb is_ascii (py (NilEmpty.string_of_uint d)) = true.
Proof. induction d; cbn; try reflexivity; exact IHd. Qed.

Lemma str_of_nat_ascii n : forallb is_ascii (str_of_nat n) = true.
Proof. apply is_ascii_digits. Qed.

(** the line [main] prints for the number of movies *)
Lemma found_line_ascii n :
  forallb is_ascii (py "Found " ++ str_of_nat n ++ py " movies." ++ [10])
  = true.
Proof. now rewrite !forallb_app, str_of_nat_ascii. Qed.


End ConsoleFacts.

Section MainOutcome.
Context `{Platform} `{World}.

Lemma main_first_print st :
  print (py "Fetching movie listings from: " ++ whatson_url) st
  = (Ok tt,
     mk_state (requested st)
       (console st ++ [py "Fetching movie listings from: " ++ whatson_url])
       (files st)).
Proof. apply print_takes, console_takes_ascii. reflexivity. Qed.

Lemma main_found_print n st :
  print (py "Found " ++ str_of_nat n ++ py " movies." ++ [10]) st
  = (Ok tt,
     mk_state (requested st)
       (console st ++ [py "Found " ++ str_of_nat n ++ py " movies." ++ [10]])
       (files st)).
Proof. apply print_takes, console_takes_ascii, found_line_ascii. Qed.


End MainOutcome.

Section ExportClaims.
Context `{Platform} `{World}.
Import Json JsonFacts.

(** C9 (as amended).  For every list of records in which no string has a
    high surrogate directly followed by a low surrogate (and, as in every
    Python [dict], no key occurs twice in a mapping), the text the
    exporter writes reads back as the same records: the same fields, the
    same dates, cinemas and experiences in the same order, the same time
    lists.  When the file can be written, this is the text in the file
    once the exporter is left, and the exporter returns normally when the
    console can encode the line it prints about the file. *)
Theorem export_reads_back movies :
  exportable (JArray (map asdict movies)) = true ->
  read_back (dumps (JArray (map asdict movies))) = Some movies
  /\ forall filename st,
       write_text filename (dumps (JArray (map asdict movies))) = Ok tt ->
       option_map read_back
         (dict_get filename
            (files (snd (save_movies_to_json_file movies filename st))))
       = Some (Some movies)
       /\ (console_takes (py "Data saved to " ++ filename) ->
           fst (save_movies_to_json_file movies filename st) = Ok tt).
Proof.
  intros Ev.
  assert (E : read_back (dumps (JArray (map asdict movies))) = Some movies).
  { unfold read_back. rewrite (loads_dumps _ Ev). apply as_list_movies. }
  split; [exact E|].
  intros filename st Hw. unfold save_movies_to_json_file. rewrite Hw.
  split.
  - destruct (print_effects (py "Data saved to " ++ filename)
                (mk_state (requested st) (console st)
                   (dict_set filename (dumps (JArray (map asdict movies)))
                             (files st)))) as (_ & -> & _).
    cbn [files]. rewrite dict_get_set_eq. cbn [option_map]. now rewrite E.
  - intros Hp. now rewrite (print_takes _ _ Hp).
Qed.


End ExportClaims.

(** C9, at the records of the example listing after their enrichment. *)
Lemma export_reads_back_witness :
  let movies :=
    fst (fst (@enrich_all ascii_platform third_request_fails
                (movies_of_soup listing_page) initial_state)) in
  read_back (Json.dumps (Json.JArray (map asdict movies))) = Some movies.
Proof.
  intros movies.
  apply (@export_reads_back third_request_fails movies).
  vm_compute. reflexivity.
Defined.

(** C9 as stated fails for a title made of a high and a low surrogate:
    the decoder joins the two escapes into one character. *)
Lemma surrogates_are_joined :
  read_back (Json.dumps (Json.JArray (map asdict [surrogate_movie])))
  = Some [mk_Movie (py "film") [] [65536] [] [] [] [] [] []]
  /\ read_back (Json.dumps (Json.JArray (map asdict [surrogate_movie])))
     <> Some [surrogate_movie].
Proof. vm_compute. split; [reflexivity | discriminate]. Qed.


(** a failed write after the file was opened destroys the export of an
    earlier run *)
Example failed_write_truncates_the_file :
  fst (@main ascii_platform full_disk state_after_export) = Ok tt
  /\ files (snd (@main ascii_platform full_disk state_after_export))
     = [(py "movies.json", [])]
  /\ last (console (snd (@main ascii_platform full_disk state_after_export)))
          []
     = py "Error fetching movie data: [Errno 28] No space left on device".
Proof. vm_compute. repeat split; reflexivity. Qed.

(** ** The page fetcher *)

Section FetchProperties.
Context `{World}.

(** X1.  A call of [fetch_page] makes exactly one request, for the URL it
    was given, and neither prints nor writes.  It returns the body of the
    response exactly when the request is answered with a status outside
    400..599; it raises when the request raises (the same exception) or
    the status is in 400..599, then an [HTTPError] whose message names
    the status, the reason and the URL of the response. *)
Theorem fetch_page_returns_the_body_or_raises url st :
  snd (fetch_page url st)
  = mk_state (requested st ++ [url]) (console st) (files st)
  /\ (forall html,
        fst (fetch_page url st) = Ok html <->
        exists r, requests_get (requested st) url = Ok r
                  /\ ~ 400 <= status_code r < 600
                  /\ text r = html)
  /\ (forall e,
        requests_get (requested st) url = Raise e ->
        fst (fetch_page url st) = Raise e)
  /\ (forall r,
        requests_get (requested st) url = Ok r ->
        400 <= status_code r < 600 ->
        exists e, fst (fetch_page url st) = Raise e
                  /\ exc_class e = py "HTTPError"
                  /\ exc_msg e = http_error_msg r).
Proof.
  unfold fetch_page.
  destruct (requests_get (requested st) url) as [r|e0].
  - destruct (raise_for_status_cases r) as [(Hs & ->)|(Hs & ->)].
    + split; [reflexivity|]. split; [|split].
      * intros html. cbn [fst]. split.
        -- intros [= <-]. now exists r.
        -- intros (r' & [= <-] & _ & <-). reflexivity.
      * discriminate.
      * intros r' [= <-] Hr. now destruct Hs.
    + split; [reflexivity|]. split; [|split].
      * intros html. split; [discriminate|].
        intros (r' & [= <-] & Hn & _). now destruct Hn.
      * discriminate.
      * intros r' [= <-] _. eexists. repeat split; reflexivity.
  - split; [reflexivity|]. split; [|split].
    + intros html. split; [discriminate|]. intros (r & D & _). discriminate.
    + now intros e [= <-].
    + discriminate.
Qed.

End FetchProperties.

Lemma fetch_page_returns_the_body_or_raises_witness :
  fst (@fetch_page serving (py "https://ksa.voxcinemas.com/movies/dune")
         initial_state)
  = Ok (py "detail").
Proof.
  apply (proj1 (proj2 (@fetch_page_returns_the_body_or_raises serving
                         (py "https://ksa.voxcinemas.com/movies/dune")
                         initial_state))).
  exists (mk_response 200 (py "OK")
            (py "https://ksa.voxcinemas.com/movies/dune") (py "detail")).
  split; [reflexivity|]. split; [cbn [status_code]; lia | reflexivity].
Defined.

(** ** The start date: what [strptime] accepts *)

Section StartDate.
Context `{Platform}.
Import Calendar CalendarFacts.

Lemma group_Y_rest s y rest :
  In (y, rest) (group_Y s) -> List.length s = (4 + List.length rest)%nat.
Proof.
  unfold group_Y.
  destruct s as [|a [|b [|c [|d s']]]]; try solve [intros []].
  destruct (unicode_decimal a), (unicode_decimal b), (unicode_decimal c),
    (unicode_decimal d); try solve [intros []].
  intros [[= _ <-]|[]]. reflexivity.
Qed.

Lemma group_m_rest s m rest :
  In (m, rest) (group_m s) ->
  List.length s = (1 + List.length rest)%nat
  \/ List.length s = (2 + List.length rest)%nat.
Proof.
  unfold group_m. intros Hin. apply in_app_or in Hin as [Hin|Hin].
  - destruct s as [|a [|b s']]; try destruct Hin.
    apply in_app_or in Hin as [Hin|Hin];
      match type of Hin with
      | In _ (if ?c then _ else _) => destruct c
      end; try destruct Hin as [[= _ <-]|[]]; try destruct Hin.
    all: right; reflexivity.
  - destruct s as [|a s']; [destruct Hin|].
    destruct (in_range 49 57 a); [|destruct Hin].
    destruct Hin as [[= _ <-]|[]]. left; reflexivity.
Qed.

Lemma group_d_rest s d rest :
  In (d, rest) (group_d s) ->
  List.length s = (1 + List.length rest)%nat
  \/ List.length s = (2 + List.length rest)%nat.
Proof.
  unfold group_d. intros Hin.
  apply in_app_or in Hin as [Hin|Hin];
    [|apply in_app_or in Hin as [Hin|Hin]].
  - destruct s as [|a [|b s']]; try destruct Hin.
    apply in_app_or in Hin as [Hin|Hin];
      [|apply in_app_or in Hin as [Hin|Hin]].
    + destruct ((a =? 51) && in_range 48 49 b); [|destruct Hin].
      destruct Hin as [[= _ <-]|[]]. right; reflexivity.
    + destruct (in_range 49 50 a); [|destruct Hin].
      destruct (unicode_decimal b); [|destruct Hin].
      destruct Hin as [[= _ <-]|[]]. right; reflexivity.
    + destruct ((a =? 48) && in_range 49 57 b); [|destruct Hin].
      destruct Hin as [[= _ <-]|[]]. right; reflexivity.
  - destruct s as [|a s']; [destruct Hin|].
    destruct (in_range 49 57 a); [|destruct Hin].
    destruct Hin as [[= _ <-]|[]]. left; reflexivity.
  - destruct s as [|a [|b s']]; try destruct Hin.
    destruct ((a =? 32) && in_range 49 57 b); [|destruct Hin].
    destruct Hin as [[= _ <-]|[]]. right; reflexivity.
Qed.

Lemma hd_error_In {A : Type} (l : list A) (x : A) :
  hd_error l = Some x -> In x l.
Proof. destruct l; [discriminate|]. intros [= ->]. now left. Qed.

Lemma match_Ymd_length s y m d rest :
  match_Ymd s = Some (y, m, d, rest) ->
  (6 + List.length rest <= List.length s <= 8 + List.length rest)%nat.
Proof.
  unfold match_Ymd. intros Hm. apply hd_error_In in Hm.
  apply in_flat_map in Hm as ([y' s1] & HY & Hm).
  apply in_flat_map in Hm as ([m' s2] & HM & Hm).
  apply in_map_iff in Hm as ([d' s3] & [= _ _ _ <-] & HD).
  apply group_Y_rest in HY. apply group_m_rest in HM.
  apply group_d_rest in HD. lia.
Qed.

Lemma strptime_Ymd_raises s e :
  strptime_Ymd s = Raise e -> exc_class e = py "ValueError".
Proof.
  unfold strptime_Ymd.
  destruct (match_Ymd s) as [[[[y m] d] rest]|]; [|now intros [= <-]].
  destruct (truthy rest); [now intros [= <-]|].
  unfold check_date_fields.
  repeat match goal with
         | |- (if ?c then _ else _) = _ -> _ => destruct c
         end; try (now intros [= <-]); discriminate.
Qed.

Lemma strptime_Ymd_length s d :
  strptime_Ymd s = Ok d -> (6 <= List.length s <= 8)%nat.
Proof.
  unfold strptime_Ymd.
  destruct (match_Ymd s) as [[[[y m] dd] rest]|] eqn:Em; [|discriminate].
  destruct rest; [|discriminate]. intros _.
  apply match_Ymd_length in Em. cbn [List.length] in Em. lia.
Qed.

Lemma in_range_spec lo hi c :
  in_range lo hi c = true <-> lo <= c <= hi.
Proof. unfold in_range. rewrite andb_true_iff, !Z.leb_le. tauto. Qed.

Lemma in_range_true lo hi c : lo <= c <= hi -> in_range lo hi c = true.
Proof. apply in_range_spec. Qed.

Lemma in_range_false lo hi c : c < lo \/ hi < c -> in_range lo hi c = false.
Proof.
  intros Hc. destruct (in_range lo hi c) eqn:E; [|reflexivity].
  apply in_range_spec in E. lia.
Qed.

Lemma group_Y_fmt4 y rest :
  ascii_digits -> 0 <= y <= 9999 ->
  group_Y (fmt4 y ++ rest) = [(y, rest)].
Proof.
  intros Hd Hy. unfold fmt4, digit, group_Y. cbn [app].
  rewrite !Hd by (Z.div_mod_to_equations; lia).
  do 2 f_equal. Z.div_mod_to_equations. lia.
Qed.

Lemma group_m_fmt2 m rest :
  1 <= m <= 12 ->
  exists more, group_m (fmt2 m ++ rest) = (m, rest) :: more.
Proof.
  intros Hm. unfold fmt2, digit, group_m. cbn [app].
  destruct (Z_lt_ge_dec m 10) as [Hlt|Hge].
  - replace (48 + m / 10) with 48 by (Z.div_mod_to_equations; lia).
    change (48 =? 49) with false. cbn [andb app].
    change (48 =? 48) with true. cbn [andb].
    rewrite in_range_true by (Z.div_mod_to_equations; lia).
    eexists. cbn [app]. do 2 f_equal. Z.div_mod_to_equations. lia.
  - replace (48 + m / 10) with 49 by (Z.div_mod_to_equations; lia).
    change (49 =? 49) with true. cbn [andb].
    rewrite in_range_true by (Z.div_mod_to_equations; lia).
    eexists. cbn [app]. do 2 f_equal. Z.div_mod_to_equations. lia.
Qed.

Lemma group_d_fmt2 d rest :
  ascii_digits -> 1 <= d <= 31 ->
  exists more, group_d (fmt2 d ++ rest) = (d, rest) :: more.
Proof.
  intros Hd Hr. unfold fmt2, digit, group_d. cbn [app].
  destruct (Z_lt_ge_dec d 10) as [H10|H10];
    [|destruct (Z_lt_ge_dec d 30) as [H30|H30]].
  - replace (48 + d / 10) with 48 by (Z.div_mod_to_equations; lia).
    change (48 =? 51) with false. change (in_range 49 50 48) with false.
    change (48 =? 48) with true. cbn [andb app].
    rewrite in_range_true by (Z.div_mod_to_equations; lia).
    eexists. cbn [app]. do 2 f_equal. Z.div_mod_to_equations. lia.
  - assert (Ha : 48 + d / 10 = 49 \/ 48 + d / 10 = 50)
      by (Z.div_mod_to_equations; lia).
    rewrite Hd by (Z.div_mod_to_equations; lia).
    destruct Ha as [Ha | Ha]; rewrite Ha.
    + change (49 =? 51) with false. change (in_range 49 50 49) with true.
      cbn [andb app]. eexists. do 2 f_equal.
      Z.div_mod_to_equations. lia.
    + change (50 =? 51) with false. change (in_range 49 50 50) with true.
      cbn [andb app]. eexists. do 2 f_equal.
      Z.div_mod_to_equations. lia.
  - replace (48 + d / 10) with 51 by (Z.div_mod_to_equations; lia).
    change (51 =? 51) with true. cbn [andb].
    rewrite in_range_true by (Z.div_mod_to_equations; lia).
    eexists. cbn [app]. do 2 f_equal. Z.div_mod_to_equations. lia.
Qed.

Lemma match_Ymd_compact d :
  ascii_digits -> valid d ->
  match_Ymd (compact d) = Some (year d, month d, day d, []).
Proof.
  intros Hd V. assert (Hb := valid_day_bound d V).
  destruct V as (Hy & Hm & Hdd).
  unfold match_Ymd, compact.
  rewrite group_Y_fmt4 by (try assumption; lia). cbn [flat_map].
  destruct (group_m_fmt2 (month d) (fmt2 (day d)) Hm) as (more & ->).
  cbn [flat_map].
  rewrite <- (app_nil_r (fmt2 (day d))).
  destruct (group_d_fmt2 (day d) [] Hd Hb) as (more' & ->).
  reflexivity.
Qed.

Lemma strptime_Ymd_compact d :
  ascii_digits -> valid d -> strptime_Ymd (compact d) = Ok d.
Proof.
  intros Hd V. unfold strptime_Ymd.
  rewrite match_Ymd_compact by assumption. cbn [truthy].
  now apply check_date_fields_valid.
Qed.

End StartDate.

Section StartDateProperties.
Context `{Platform} `{World}.
Import Calendar CalendarFacts.

(** X2.  A start string that [strptime] accepts with the format
    [%Y%m%d] has six to eight characters and stands for a date of the
    calendar between 0001-01-01 and 9999-12-31. *)
Theorem strptime_accepts_only_dates s d :
  strptime_Ymd s = Ok d ->
  (6 <= List.length s <= 8)%nat
  /\ 1 <= year d <= 9999 /\ 1 <= month d <= 12
  /\ 1 <= day d <= days_in_month (year d) (month d).
Proof.
  intros Hs. split; [now apply (strptime_Ymd_length s d)|].
  exact (strptime_Ymd_valid s d Hs).
Qed.

(** X3.  The date string the enricher puts into a URL parses back, with
    the format of the start date, to the date it was printed from. *)
Theorem formatted_date_parses_back d :
  ascii_digits -> valid d -> four_digit_year d ->
  strftime date_format d = compact d
  /\ strptime_Ymd (strftime date_format d) = Ok d.
Proof.
  intros Hd V F. rewrite (strftime_compact d F).
  split; [reflexivity|]. now apply strptime_Ymd_compact.
Qed.

(** X4.  When [strptime] rejects the start string, the call raises its
    [ValueError] before anything else happens: nothing is requested or
    printed, and the movie keeps the timings it had. *)
Theorem rejected_start_date_changes_nothing movie s n st :
  (forall d, strptime_Ymd s <> Ok d) ->
  exists e,
    strptime_Ymd s = Raise e
    /\ exc_class e = py "ValueError"
    /\ enrich_movie_with_timings_for_dates movie s n st
       = (movie, Raise e, st).
Proof.
  intros Hn. unfold enrich_movie_with_timings_for_dates.
  destruct (strptime_Ymd s) as [d|e] eqn:Es; [now destruct (Hn d)|].
  exists e. repeat split. now apply (strptime_Ymd_raises s).
Qed.

End StartDateProperties.

Lemma ascii_platform_digits : @ascii_digits ascii_platform.
Proof.
  intros c Hc. unfold unicode_decimal, ascii_platform, ascii_decimal.
  replace ((48 <=? c) && (c <=? 57)) with true; [reflexivity|].
  symmetry. apply andb_true_iff. split; apply Z.leb_le; lia.
Qed.

Lemma strptime_accepts_only_dates_witness :
  (6 <= List.length (py "2025212") <= 8)%nat
  /\ 1 <= 2025 <= 9999 /\ 1 <= 2 <= 12 /\ 1 <= 12 <= 28.
Proof.
  apply (@strptime_accepts_only_dates ascii_platform (py "2025212")
           (Calendar.mk_datetime 2025 2 12)).
  reflexivity.
Defined.

Lemma formatted_date_parses_back_witness :
  @Calendar.strftime ascii_platform date_format
    (Calendar.mk_datetime 2025 2 12) = py "20250212"
  /\ @Calendar.strptime_Ymd ascii_platform
       (@Calendar.strftime ascii_platform date_format
          (Calendar.mk_datetime 2025 2 12))
     = Ok (Calendar.mk_datetime 2025 2 12).
Proof.
  apply (@formatted_date_parses_back ascii_platform
           (Calendar.mk_datetime 2025 2 12)).
  - exact ascii_platform_digits.
  - unfold Calendar.valid.
    cbn [Calendar.year Calendar.month Calendar.day].
    change (Calendar.days_in_month 2025 2) with 28. lia.
  - left. cbn [Calendar.year]. lia.
Defined.

Lemma rejected_start_date_changes_nothing_witness :
  exists e,
    @Calendar.strptime_Ymd ascii_platform (py "2025-02-12") = Raise e
    /\ exc_class e = py "ValueError"
    /\ @enrich_movie_with_timings_for_dates ascii_platform third_request_fails
         a_movie (py "2025-02-12") 10 initial_state
       = (a_movie, Raise e, initial_state).
Proof.
  apply (@rejected_start_date_changes_nothing ascii_platform
           third_request_fails).
  intros d. vm_compute. discriminate.
Defined.

(** ** The range enricher: what a call changes *)

Section EnrichEffects.
Context `{Platform} `{World}.
Import Calendar CalendarFacts RangeFacts.

Lemma details_set_timings movie t :
  details (set_timings movie t) = details movie.
Proof. reflexivity. Qed.

(** X5.  Whatever the start string and the day count, and however the
    call ends, it changes nothing of the movie but its timings, writes no
    file, and only adds to the requests made and the lines printed. *)
Theorem enrich_changes_only_timings movie s n st :
  let r := enrich_movie_with_timings_for_dates movie s n st in
  details (fst (fst r)) = details movie
  /\ files (snd r) = files st
  /\ (exists urls, requested (snd r) = requested st ++ urls)
  /\ (exists lines, console (snd r) = console st ++ lines).
Proof.
  unfold enrich_movie_with_timings_for_dates.
  destruct (strptime_Ymd s) as [start|e].
  - destruct (enrich_loop_effects (range n) (set_timings movie []) start st)
      as (E & Hrest).
    split; [|exact Hrest].
    rewrite <- (details_set_timings (fst (fst (enrich_loop _ _ _ _))) []).
    cbv zeta in E. now rewrite E.
  - cbn [fst snd]. repeat split; exists []; now rewrite app_nil_r.
Qed.

(** X6.  A call with a start string that [strptime] accepts forgets the
    timings the movie had: the outcome is the same whatever they were.
    With a day count of zero or less it requests and prints nothing and
    leaves the movie with empty timings. *)
Theorem enrich_clears_previous_timings movie s start n st :
  strptime_Ymd s = Ok start ->
  (forall t,
      enrich_movie_with_timings_for_dates (set_timings movie t) s n st
      = enrich_movie_with_timings_for_dates movie s n st)
  /\ (n <= 0 ->
      enrich_movie_with_timings_for_dates movie s n st
      = (set_timings movie [], Ok tt, st)).
Proof.
  intros Hs. unfold enrich_movie_with_timings_for_dates. rewrite Hs.
  split; [reflexivity|].
  intros Hn. unfold range.
  replace (Z.to_nat n) with O by lia. reflexivity.
Qed.

(** X7.  When the request of a day is answered without error status and
    the parser accepts the body, the entry of the day holds the showtimes
    the detail parser reads from the body, under the day's weekday
    (provided the console can encode the lines the call prints). *)
Theorem successful_day_stores_parsed_showtimes movie s start n st j r soup :
  strptime_Ymd s = Ok start -> four_digit_year start ->
  can_print (log_lines movie (requested st)
                       (dates_from start (reached start n))) ->
  (j < Z.to_nat (reached start n))%nat ->
  requests_get
    (requested st ++ map (url_for movie) (dates_from start (Z.of_nat j)))
    (url_for movie (days_after j start)) = Ok r ->
  ~ 400 <= status_code r < 600 ->
  BeautifulSoup (text r) = Ok soup ->
  dict_get (isoformat (days_after j start))
    (timings (fst (fst (enrich_movie_with_timings_for_dates movie s n st))))
  = Some (mk_day (english_weekday (days_after j start))
                 (showtimes_of_soup soup)).
Proof.
  intros Hs F Hp Hj Hr Hst Hb. apply can_print_Forall in Hp.
  rewrite (enrich_entry movie s start n st j Hs F Hj Hp).
  unfold attempt. rewrite Hr, (raise_for_status_Ok r Hst).
  unfold extract_showtimes. rewrite Hb. reflexivity.
Qed.

Lemma log_lines_all_ok movie dates :
  (forall hist d, In d dates ->
     exists shows, attempt hist (url_for movie d) = Ok shows) ->
  forall hist, log_lines movie hist dates = map (progress_line movie) dates.
Proof.
  induction dates as [|d ds IH]; intros Hok hist; [reflexivity|].
  cbn [log_lines map].
  destruct (Hok hist d (or_introl eq_refl)) as (shows & ->).
  cbn [day_lines app]. f_equal. apply IH.
  intros hist' d' Hd'. apply Hok. now right.
Qed.

(** X8.  Provided the console can encode them, the lines a call prints
    are, for each day the calendar reaches and in order, the progress line
    of the day, followed by an [Error] line with the message of the
    exception exactly when the [try] block of the day raised.  The
    progress line names the title, the ISO date and the English weekday of
    the day; a call in which no [try] block raises prints these lines and
    no other.  For a response with an error status the message is the one
    of [raise_for_status]: the status, [Client Error] (400..499) or
    [Server Error] (500..599), the reason and the URL of the response. *)
Theorem enrich_prints_one_line_per_day movie s start n st :
  strptime_Ymd s = Ok start -> four_digit_year start ->
  can_print (log_lines movie (requested st)
                       (dates_from start (reached start n))) ->
  let r := enrich_movie_with_timings_for_dates movie s n st in
  let dates := dates_from start (reached start n) in
  console (snd r) = console st ++ log_lines movie (requested st) dates
  /\ (forall d, In d dates ->
        progress_line movie d
        = py "  => Fetching showtimes for '" ++ title movie ++ py "' on "
          ++ isoformat d ++ py " (" ++ english_weekday d ++ py ")")
  /\ (forall d hist e,
        attempt hist (url_for movie d) = Raise e ->
        day_lines movie d (attempt hist (url_for movie d))
        = [progress_line movie d; py "     [Error] " ++ exc_msg e])
  /\ (forall d hist shows,
        attempt hist (url_for movie d) = Ok shows ->
        day_lines movie d (attempt hist (url_for movie d))
        = [progress_line movie d])
  /\ (forall d hist resp,
        requests_get hist (url_for movie d) = Ok resp ->
        (400 <= status_code resp < 500 ->
         attempt hist (url_for movie d)
         = Raise (HTTPError (str_of_Z (status_code resp)
                             ++ py " Client Error: " ++ reason resp
                             ++ py " for url: " ++ url resp)))
        /\ (500 <= status_code resp < 600 ->
            attempt hist (url_for movie d)
            = Raise (HTTPError (str_of_Z (status_code resp)
                                ++ py " Server Error: " ++ reason resp
                                ++ py " for url: " ++ url resp))))
  /\ ((forall hist d, In d dates ->
         exists shows, attempt hist (url_for movie d) = Ok shows) ->
      console (snd r) = console st ++ map (progress_line movie) dates).
Proof.
  intros Hs F Hp r dates. apply can_print_Forall in Hp.
  assert (V := strptime_Ymd_valid s start Hs).
  destruct (reached_range start n V) as (R0 & R1 & R2 & R3 & R4).
  assert (E : console (snd r)
              = console st ++ log_lines movie (requested st) dates).
  { destruct (enrich_run movie s start n st Hs Hp) as (_ & E2 & _).
    fold r in E2. now rewrite E2. }
  split; [exact E|]. split; [|split; [|split; [|split]]].
  - intros d Hd. unfold dates, dates_from in Hd.
    apply in_map_iff in Hd as (i & <- & Hi). apply in_seq in Hi.
    destruct (days_after_valid i start V ltac:(lia)) as [Vi _].
    unfold progress_line, concat_str.
    rewrite strftime_iso
      by (apply four_digit_year_days_after; try assumption; lia).
    rewrite strftime_A by assumption.
    cbn [List.concat]. now rewrite app_nil_r.
  - intros d hist e ->. unfold day_lines, error_line, concat_str.
    cbn [List.concat]. now rewrite app_nil_r.
  - intros d hist shows ->. reflexivity.
  - intros d hist resp Hr. unfold attempt. rewrite Hr. split; intros Hst.
    + rewrite raise_for_status_Raise by lia. unfold http_error_msg.
      replace ((400 <=? status_code resp) && (status_code resp <? 500))
        with true by (symmetry; apply andb_true_iff;
                      rewrite Z.leb_le, Z.ltb_lt; lia).
      reflexivity.
    + rewrite raise_for_status_Raise by lia. unfold http_error_msg.
      replace ((400 <=? status_code resp) && (status_code resp <? 500))
        with false by (symmetry; apply andb_false_iff;
                       rewrite Z.leb_gt, Z.ltb_ge; lia).
      replace ((500 <=? status_code resp) && (status_code resp <? 600))
        with true by (symmetry; apply andb_true_iff;
                      rewrite Z.leb_le, Z.ltb_lt; lia).
      reflexivity.
  - intros Hok. rewrite E. f_equal. now apply log_lines_all_ok.
Qed.

End EnrichEffects.

Lemma enrich_clears_previous_timings_witness :
  @enrich_movie_with_timings_for_dates ascii_platform third_request_fails
    (set_timings a_movie [(py "2024-01-01", mk_day (py "Monday") [])])
    (py "20250212") 0 initial_state
  = (a_movie, Ok tt, initial_state).
Proof.
  destruct (@enrich_clears_previous_timings ascii_platform
              third_request_fails a_movie (py "20250212")
              (Calendar.mk_datetime 2025 2 12) 0 initial_state eq_refl)
    as [Hforget Hzero].
  rewrite Hforget. apply Hzero. lia.
Defined.

Lemma successful_day_stores_parsed_showtimes_witness :
  dict_get (py "2025-02-13")
    (timings (fst (fst (@enrich_movie_with_timings_for_dates ascii_platform
                          read_only_disk a_movie (py "20250212") 3
                          initial_state))))
  = Some (mk_day (py "Thursday")
            (@showtimes_of_soup ascii_platform page_with_repeats)).
Proof.
  apply (@successful_day_stores_parsed_showtimes ascii_platform
           read_only_disk a_movie (py "20250212")
           (Calendar.mk_datetime 2025 2 12) 3 initial_state 1
           (mk_response 200 (py "OK")
              (py "https://ksa.voxcinemas.com/movies/dune?d=20250213#showtimes")
              (py "detail"))
           page_with_repeats).
  - reflexivity.
  - left. cbn [Calendar.year]. lia.
  - vm_compute. reflexivity.
  - vm_compute. lia.
  - reflexivity.
  - cbn [status_code]. lia.
  - reflexivity.
Defined.

Lemma enrich_prints_one_line_per_day_witness :
  console (snd (@enrich_movie_with_timings_for_dates ascii_platform
                  third_request_fails a_movie (py "20250212") 3
                  initial_state))
  = [py "  => Fetching showtimes for 'Dune' on 2025-02-12 (Wednesday)";
     py "  => Fetching showtimes for 'Dune' on 2025-02-13 (Thursday)";
     py "  => Fetching showtimes for 'Dune' on 2025-02-14 (Friday)";
     py "     [Error] connection refused"].
Proof.
  destruct (@enrich_prints_one_line_per_day ascii_platform
              third_request_fails a_movie (py "20250212")
              (Calendar.mk_datetime 2025 2 12) 3 initial_state eq_refl)
    as (Hall & _).
  - left. cbn [Calendar.year]. lia.
  - vm_compute. reflexivity.
  - rewrite Hall. vm_compute. reflexivity.
Defined.

(** the lines of a day whose page is answered with the status 404 *)
Example lines_of_a_missing_page :
  console (snd (@enrich_movie_with_timings_for_dates ascii_platform
                  missing_pages a_movie (py "20250212") 1 initial_state))
  = [py "  => Fetching showtimes for 'Dune' on 2025-02-12 (Wednesday)";
     py "     [Error] 404 Client Error: Not Found for url: https://ksa.voxcinemas.com/movies/dune?d=20250212#showtimes"].
Proof. vm_compute. reflexivity. Qed.
(** ** The detail parser: edge cases of the times *)

Section TimeFacts.
Context `{Platform}.
Import Soup SoupFacts.

Lemma is_time_not_empty t : is_time t = true -> t <> [].
Proof. destruct t; [discriminate | discriminate]. Qed.

(** every match of [findall] is a piece of the text *)
Lemma findall_from_piece s :
  forall prev skip t,
    In t (Re.findall_from prev skip s) ->
    exists before after, s = before ++ t ++ after.
Proof.
  induction s as [|c s IH]; intros prev skip t; cbn [Re.findall_from];
    [intros []|].
  assert (Hrest : forall prev' skip',
             In t (Re.findall_from prev' skip' s) ->
             exists before after, c :: s = before ++ t ++ after).
  { intros prev' skip' Hin.
    destruct (IH _ _ _ Hin) as (before & after & ->).
    now exists (c :: before), after. }
  destruct skip as [|k]; [|apply Hrest].
  destruct (Re.match_at prev (c :: s)) as [n|] eqn:Em; [|apply Hrest].
  intros [<-|Hin]; [|exact (Hrest _ _ Hin)].
  exists [], (skipn n (c :: s)). cbn [app]. now rewrite firstn_skipn.
Qed.

(** a match needs a colon *)
Lemma match_at_colon prev s n :
  Re.match_at prev s = Some n -> In 58 s.
Proof.
  unfold Re.match_at. destruct (Re.boundary prev (hd_error s)); [|discriminate].
  destruct (Re.two_digit_hour s) eqn:E2.
  - intros _. unfold Re.two_digit_hour in E2.
    destruct s as [|a [|b [|c [|d [|e rest]]]]]; try discriminate.
    repeat (apply andb_true_iff in E2; destruct E2 as [E2 ?]).
    zbool. subst c. cbn [In]. auto.
  - destruct (Re.one_digit_hour s) eqn:E1; [|discriminate].
    intros _. unfold Re.one_digit_hour in E1.
    destruct s as [|a [|b [|c [|d rest]]]]; try discriminate.
    repeat (apply andb_true_iff in E1; destruct E1 as [E1 ?]).
    zbool. subst b. cbn [In]. auto.
Qed.

Lemma findall_from_no_colon s :
  ~ In 58 s -> forall prev skip, Re.findall_from prev skip s = [].
Proof.
  induction s as [|c s IH]; intros Hn prev skip; [reflexivity|].
  cbn [Re.findall_from].
  assert (Hs : ~ In 58 s) by (intros Hin; apply Hn; now right).
  destruct skip as [|k]; [|now apply IH].
  destruct (Re.match_at prev (c :: s)) as [n|] eqn:Em; [|now apply IH].
  destruct (Hn (match_at_colon _ _ _ Em)).
Qed.

Lemma findall_from_skip s :
  forall prev skip,
    (List.length s <= skip)%nat -> Re.findall_from prev skip s = [].
Proof.
  induction s as [|c s IH]; intros prev skip Hl; [reflexivity|].
  cbn [Re.findall_from]. cbn [List.length] in Hl.
  destruct skip as [|k]; [lia|]. apply IH. lia.
Qed.

Lemma findall_time t :
  digits_are_alnum -> is_time t = true -> Re.findall t = [t].
Proof.
  intros Hw Ht.
  assert (Hword : forall c, Re.is_digit c = true ->
                            Re.is_word (Some c) = true)
    by (intros c Hc; unfold Re.is_word; now rewrite (Hw c Hc)).
  unfold Re.findall.
  destruct t as [|a [|b [|c [|d [|e [|f t]]]]]]; try discriminate.
  - cbn [is_time] in Ht.
    repeat (apply andb_true_iff in Ht; destruct Ht as [Ht ?]).
    cbn [Re.findall_from]. unfold Re.match_at.
    cbn [hd_error]. unfold Re.boundary at 1.
    rewrite (Hword a Ht). cbn [Re.is_word xorb].
    cbn [Re.two_digit_hour]. unfold Re.one_digit_hour.
    cbn [hd_error]. unfold Re.boundary.
    rewrite Ht, (Hword d) by assumption.
    repeat match goal with
           | H : _ = true |- _ => rewrite H
           end.
    cbn [andb xorb Re.is_word firstn Nat.pred]. f_equal.
  - cbn [is_time] in Ht.
    repeat (apply andb_true_iff in Ht; destruct Ht as [Ht ?]).
    cbn [Re.findall_from]. unfold Re.match_at.
    cbn [hd_error]. unfold Re.boundary at 1.
    rewrite (Hword a Ht). cbn [Re.is_word xorb].
    unfold Re.two_digit_hour. cbn [hd_error]. unfold Re.boundary.
    rewrite Ht, (Hword e) by assumption.
    repeat match goal with
           | H : _ = true |- _ => rewrite H
           end.
    cbn [andb xorb Re.is_word firstn Nat.pred]. f_equal.
Qed.

Lemma find_all_lacks name cls n :
  lacks name cls n -> find_all name cls n = [].
Proof.
  intros Hl. apply find_None in Hl. unfold find in Hl.
  destruct (find_all name cls n); [reflexivity | discriminate].
Qed.

End TimeFacts.

(** ** The detail parser: the order of the keys *)

Section OrderFacts.
Context {V : Type}.

Lemma str_eqb_sym a b : str_eqb a b = str_eqb b a.
Proof.
  destruct (str_eqb a b) eqn:E.
  - apply str_eqb_eq in E. subst b. symmetry. apply str_eqb_refl.
  - apply str_eqb_neq in E. symmetry. apply str_eqb_neq. congruence.
Qed.

Lemma existsb_In ks k :
  existsb (fun k' => str_eqb k' k) ks = true <-> In k ks.
Proof.
  rewrite existsb_exists. split.
  - intros (x & Hx & E). apply str_eqb_eq in E. now subst x.
  - intros Hk. exists k. split; [assumption | apply str_eqb_refl].
Qed.

Lemma filter_filter {A : Type} (f g : A -> bool) l :
  filter f (filter g l) = filter (fun x => f x && g x) l.
Proof.
  induction l as [|x l IH]; [reflexivity|].
  cbn [filter]. destruct (g x); cbn [filter].
  - rewrite andb_true_r. destruct (f x); now rewrite IH.
  - now rewrite andb_false_r.
Qed.

(** assignments keep the keys that are there and add the new keys in the
    order of their first occurrence *)
Lemma keys_store_all (es : list (str * V)) :
  forall d,
    keys (store_all es d)
    = keys d
      ++ filter (fun k => negb (existsb (fun k' => str_eqb k' k) (keys d)))
                (first_occurrences (map fst es)).
Proof.
  induction es as [|[k v] es IH]; intros d.
  - cbn. now rewrite app_nil_r.
  - rewrite store_all_cons, IH. cbn [map fst first_occurrences filter].
    destruct (existsb (fun k' => str_eqb k' k) (keys d)) eqn:E.
    + assert (Hin : In k (keys d)) by now apply existsb_In.
      rewrite keys_dict_set_present by assumption. cbn [negb].
      f_equal. rewrite filter_filter. apply filter_ext_in.
      intros x _.
      destruct (existsb (fun k' => str_eqb k' x) (keys d)) eqn:Ex;
        [reflexivity|].
      cbn [negb andb].
      destruct (str_eqb x k) eqn:Exk; [|reflexivity].
      apply str_eqb_eq in Exk. subst x. congruence.
    + assert (Hn : ~ In k (keys d))
        by (intros Hin; apply existsb_In in Hin; congruence).
      rewrite dict_set_fresh by assumption. unfold keys at 1.
      rewrite map_app. cbn [map fst negb]. rewrite <- app_assoc.
      cbn [app]. do 2 f_equal. rewrite filter_filter.
      apply filter_ext. intros x.
      replace (keys (d ++ [(k, v)])) with (keys d ++ [k])
        by (unfold keys; now rewrite map_app).
      rewrite existsb_app. cbn [existsb]. rewrite orb_false_r.
      rewrite negb_orb. now rewrite (str_eqb_sym k x).
Qed.

Lemma keys_store_all_nil (es : list (str * V)) :
  keys (store_all es []) = first_occurrences (map fst es).
Proof.
  rewrite keys_store_all. cbn [keys map app existsb negb].
  induction (first_occurrences (map fst es)) as [|x l IH]; [reflexivity|].
  cbn [filter]. now rewrite IH.
Qed.

End OrderFacts.

Section TimeProperties.
Context `{Platform}.
Import Soup SoupFacts.

(** X9.  Every token a time entry adds is a non-empty piece of the
    entry's text, and no time list of the output holds an empty
    string. *)
Theorem tokens_are_pieces_of_the_text :
  (forall time_li t,
      In t (time_tokens time_li) ->
      t <> []
      /\ exists before after, time_text time_li = before ++ t ++ after)
  /\ (forall soup cinema experiences experience times t,
         In (cinema, experiences) (showtimes_of_soup soup) ->
         In (experience, times) experiences ->
         In t times -> t <> []).
Proof.
  assert (Htok : forall time_li t,
             In t (time_tokens time_li) ->
             t <> []
             /\ exists before after,
                  time_text time_li = before ++ t ++ after).
  { intros time_li t. unfold time_tokens.
    destruct (Re.findall (time_text time_li)) as [|m ms] eqn:Ef.
    - destruct (time_text time_li) as [|c text] eqn:Et; [intros []|].
      cbn [truthy]. intros [<-|[]]. split; [discriminate|].
      exists [], []. now rewrite app_nil_r.
    - intros Hin. rewrite <- Ef in Hin. split.
      + apply is_time_not_empty. now apply (findall_is_time (time_text time_li)).
      + now apply (findall_from_piece _ None O). }
  split; [exact Htok|].
  intros soup cinema experiences experience times t Hc He Ht.
  destruct (output_times soup cinema experiences experience times Hc He)
    as (nested_ol & ->).
  unfold times_of_list in Ht. apply in_flat_map in Ht as (time_li & _ & Ht).
  now apply (Htok (fst time_li)).
Qed.

(** X10.  A time entry whose text holds no colon adds its whole text as
    one token, and nothing when the text is empty. *)
Theorem text_without_colon_is_kept time_li :
  ~ In 58 (time_text time_li) ->
  (time_text time_li = [] -> time_tokens time_li = [])
  /\ (time_text time_li <> [] -> time_tokens time_li = [time_text time_li]).
Proof.
  intros Hn. unfold time_tokens, Re.findall.
  rewrite (findall_from_no_colon _ Hn).
  destruct (time_text time_li) as [|c text].
  - split; [reflexivity | congruence].
  - split; [discriminate | reflexivity].
Qed.

(** X11.  A time entry whose text is a time, one or two digits, a colon
    and two digits, adds this text and nothing else.  (Decimal digits are
    taken to be alphanumeric, as they are in Unicode.) *)
Theorem clean_time_is_kept time_li :
  digits_are_alnum -> is_time (time_text time_li) = true ->
  time_tokens time_li = [time_text time_li].
Proof.
  intros Hw Ht. unfold time_tokens. now rewrite (findall_time _ Hw Ht).
Qed.

(** X12.  A page without schedule container, or one in which no cinema
    heading is followed by a list of showtimes, yields the empty
    mapping. *)
Theorem no_schedule_no_showtimes soup :
  lacks (py "div") (Some (py "dates")) soup
  \/ (exists dates_div,
        find (py "div") (Some (py "dates")) soup = Some dates_div
        /\ forall h,
             In h (find_all (py "h3") (Some (py "highlight")) (fst dates_div)) ->
             no_following_list h) ->
  showtimes_of_soup soup = [].
Proof.
  intros [Hl|(dates_div & Hd & Hh)].
  - apply find_None in Hl. unfold showtimes_of_soup. now rewrite Hl.
  - rewrite (showtimes_of_soup_entries soup dates_div Hd).
    replace (flat_map place_entry
               (find_all (py "h3") (Some (py "highlight")) (fst dates_div)))
      with (@nil (str * dict (list str))); [reflexivity|].
    symmetry.
    induction (find_all (py "h3") (Some (py "highlight")) (fst dates_div))
      as [|h hs IH]; [reflexivity|].
    cbn [flat_map]. rewrite IH by (intros h' Hh'; apply Hh; now right).
    unfold place_entry.
    rewrite (proj2 (find_next_sibling_None _ _ h)); [reflexivity|].
    apply Hh. now left.
Qed.

(** X13.  A cinema heading with a list is a key of the output even when
    none of the items of the list has both a label and a list of times:
    its value is then the empty mapping.  Likewise an experience whose
    list of times holds no entry is a key with the empty list. *)
Theorem empty_cinemas_and_experiences_are_kept :
  (forall h ol rest t,
      following_list h ol rest ->
      (forall li, In li (find_all_children (py "li") ol) ->
                  find (py "strong") None (fst li) = None
                  \/ find (py "ol") None (fst li) = None) ->
      dict_get (get_text (py " ") (fst h)) (add_place t h) = Some [])
  /\ (forall li strong_tag nested_ol t,
         find (py "strong") None (fst li) = Some strong_tag ->
         find (py "ol") None (fst li) = Some nested_ol ->
         lacks (py "li") None (fst nested_ol) ->
         dict_get (get_text (py " ") (fst strong_tag)) (add_experience t li)
         = Some []).
Proof.
  split.
  - intros h ol rest t Hf Hitems.
    apply find_next_sibling_Some in Hf. unfold add_place. rewrite Hf.
    cbn [fst]. rewrite experiences_of_list_entries.
    replace (flat_map experience_entry (find_all_children (py "li") ol))
      with (@nil (str * list str)); [apply dict_get_set_eq|].
    symmetry.
    induction (find_all_children (py "li") ol) as [|li lis IH];
      [reflexivity|].
    cbn [flat_map]. rewrite IH by (intros li' Hli'; apply Hitems; now right).
    unfold experience_entry.
    destruct (Hitems li (or_introl eq_refl)) as [-> | E]; [reflexivity|].
    rewrite E. destruct (find (py "strong") None (fst li)); reflexivity.
  - intros li strong_tag nested_ol t Hs Hn Hl.
    unfold add_experience. rewrite Hs, Hn.
    unfold times_of_list. rewrite (find_all_lacks _ _ _ Hl).
    apply dict_get_set_eq.
Qed.

(** X14.  The cinemas are keys of the output in the order in which
    their names first occur among the headings that have a list: a later
    heading of the same name changes the value, not the place.  The same
    holds of the experiences of a cinema among the items that have a label
    and a list of times. *)
Theorem keys_keep_first_position :
  (forall soup dates_div,
      find (py "div") (Some (py "dates")) soup = Some dates_div ->
      keys (showtimes_of_soup soup)
      = first_occurrences
          (map fst
             (flat_map place_entry
                (find_all (py "h3") (Some (py "highlight"))
                          (fst dates_div)))))
  /\ (forall showtimes_ol,
         keys (experiences_of_list showtimes_ol)
         = first_occurrences
             (map fst
                (flat_map experience_entry
                   (find_all_children (py "li") showtimes_ol)))).
Proof.
  split.
  - intros soup dates_div Hd.
    rewrite (showtimes_of_soup_entries soup dates_div Hd).
    apply keys_store_all_nil.
  - intros showtimes_ol. rewrite experiences_of_list_entries.
    apply keys_store_all_nil.
Qed.

End TimeProperties.

Lemma ascii_platform_alnum : @digits_are_alnum ascii_platform.
Proof.
  intros c. unfold Re.is_digit, unicode_decimal, unicode_isalnum,
    ascii_platform, ascii_decimal, ascii_isalnum.
  destruct ((48 <=? c) && (c <=? 57)); [reflexivity | discriminate].
Qed.

Lemma text_without_colon_is_kept_witness :
  @time_tokens ascii_platform (time_item "Sold Out") = [py "Sold Out"].
Proof.
  apply (@text_without_colon_is_kept ascii_platform (time_item "Sold Out")).
  - vm_compute. lia.
  - discriminate.
Defined.

Lemma clean_time_is_kept_witness :
  @time_tokens ascii_platform (time_item "9:15") = [py "9:15"].
Proof.
  apply (@clean_time_is_kept ascii_platform (time_item "9:15")).
  - exact ascii_platform_alnum.
  - reflexivity.
Defined.

Lemma no_schedule_no_showtimes_witness :
  @showtimes_of_soup ascii_platform empty_document = [].
Proof.
  apply (@no_schedule_no_showtimes ascii_platform empty_document).
  left. intros e [].
Defined.

(** ** The listing parser: the fields of a record *)

Section StripFacts.

Lemma lstrip_head s c : hd_error (lstrip s) = Some c -> isspace c = false.
Proof.
  induction s as [|x s IH]; cbn [lstrip]; [discriminate|].
  destruct (isspace x) eqn:E; [exact IH|].
  cbn [hd_error]. now intros [= <-].
Qed.

(** [lstrip] drops a prefix *)
Lemma lstrip_suffix s : exists dropped, s = dropped ++ lstrip s.
Proof.
  induction s as [|x s (dropped & IH)]; [now exists []|].
  cbn [lstrip]. destruct (isspace x).
  - exists (x :: dropped). cbn [app]. now rewrite <- IH.
  - now exists [].
Qed.

(** [rstrip] drops a suffix *)
Lemma rstrip_prefix s : exists dropped, s = rstrip s ++ dropped.
Proof.
  unfold rstrip. destruct (lstrip_suffix (rev s)) as (dropped & E).
  exists (rev dropped).
  rewrite <- rev_app_distr, <- E. now rewrite rev_involutive.
Qed.

Lemma rstrip_last s c :
  hd_error (rev (rstrip s)) = Some c -> isspace c = false.
Proof. unfold rstrip. rewrite rev_involutive. apply lstrip_head. Qed.

Lemma trimmed_strip s : trimmed (strip s).
Proof.
  unfold strip. split.
  - intros c Hc. apply (lstrip_head s).
    destruct (rstrip_prefix (lstrip s)) as (dropped & E).
    rewrite E. destruct (rstrip (lstrip s)); [discriminate | exact Hc].
  - apply rstrip_last.
Qed.

Lemma trimmed_nil : trimmed [].
Proof. split; discriminate. Qed.

Lemma trimmed_app p q :
  p <> [] -> q <> [] -> trimmed p -> trimmed q -> trimmed (p ++ q).
Proof.
  intros Hp Hq [Hp1 _] [_ Hq2]. split.
  - intros c. destruct p; [congruence | exact (Hp1 c)].
  - intros c. rewrite rev_app_distr.
    destruct (rev q) eqn:E; [|exact (Hq2 c)].
    apply (f_equal (@rev Z)) in E. rewrite rev_involutive in E.
    now destruct Hq.
Qed.

Lemma join_nil parts : join [] parts = List.concat parts.
Proof.
  induction parts as [|p [|q rest] IH]; [reflexivity | |].
  - cbn. now rewrite app_nil_r.
  - cbn [join List.concat app] in *. now rewrite IH.
Qed.

Lemma trimmed_concat parts :
  Forall (fun p => p <> [] /\ trimmed p) parts ->
  trimmed (List.concat parts).
Proof.
  induction 1 as [|p rest [Hp Ht] _ IH]; [exact trimmed_nil|].
  cbn [List.concat].
  destruct (List.concat rest) eqn:E; [now rewrite app_nil_r|].
  apply trimmed_app; try assumption. discriminate.
Qed.

(** the text [get_text(strip=True)] returns has no white space at
    either end *)
Lemma trimmed_get_text n : trimmed (Soup.get_text [] n).
Proof.
  unfold Soup.get_text. rewrite join_nil. apply trimmed_concat.
  apply Forall_forall. intros p Hp.
  apply filter_In in Hp as [Hp Ht].
  apply in_map_iff in Hp as (x & <- & _). split.
  - destruct (strip x); [discriminate | discriminate].
  - apply trimmed_strip.
Qed.

End StripFacts.

Section ListingProperties.
Import Soup SoupFacts.

(** X15.  Every record the listing parser returns has no timings yet,
    and none of its fields has white space at either end. *)
Theorem parsed_fields_are_trimmed :
  (forall article,
      Forall trimmed (details (parse_article article))
      /\ timings (parse_article article) = [])
  /\ (forall soup movie,
         In movie (movies_of_soup soup) ->
         Forall trimmed (details movie) /\ timings movie = []).
Proof.
  assert (Hart : forall article,
             Forall trimmed (details (parse_article article))
             /\ timings (parse_article article) = []).
  { intros article. split; [|reflexivity].
    unfold parse_article, details.
    cbn [slug identifier title description image_url classification
         language showtimes_url].
    repeat apply Forall_cons; try apply Forall_nil;
      try apply trimmed_strip;
      repeat match goal with
             | |- trimmed (match ?o with _ => _ end) => destruct o
             end;
      first [apply trimmed_strip | apply trimmed_get_text | apply trimmed_nil]. }
  split; [exact Hart|].
  intros soup movie Hin. unfold movies_of_soup in Hin.
  apply in_map_iff in Hin as (article & <- & _). apply Hart.
Qed.

(** X16.  The image of a record is looked for below the first link of
    the entry only: when this link holds no image the field is empty,
    whatever images the entry has elsewhere; when it holds one, the field
    is the trimmed [data-src] of the first image below it. *)
Theorem image_comes_from_first_link article a_tag :
  find (py "a") None article = Some a_tag ->
  (lacks (py "img") None (fst a_tag) ->
   image_url (parse_article article) = [])
  /\ (forall img_tag,
        find (py "img") None (fst a_tag) = Some img_tag ->
        image_url (parse_article article)
        = strip (get (py "data-src") [] (fst img_tag))).
Proof.
  intros Ha. unfold parse_article. cbn [image_url]. rewrite Ha. split.
  - intros Hl. apply find_None in Hl. now rewrite Hl.
  - intros img_tag Hi. now rewrite Hi.
Qed.

End ListingProperties.

(** ** The exporter: the text it writes *)

Section AsciiFacts.
Import Json JsonFacts.

Lemma ascii_text_app a b : ascii_text a -> ascii_text b -> ascii_text (a ++ b).
Proof. unfold ascii_text. intros. now apply Forall_app. Qed.

Lemma ascii_text_cons c s :
  c = 10 \/ 32 <= c <= 126 -> ascii_text s -> ascii_text (c :: s).
Proof. unfold ascii_text. intros. now apply Forall_cons. Qed.

Lemma ascii_text_nil : ascii_text [].
Proof. apply Forall_nil. Qed.

Lemma hex_digit_ascii n : 32 <= hex_digit (n mod 16) <= 126.
Proof.
  unfold hex_digit. assert (0 <= n mod 16 < 16) by (apply Z.mod_pos_bound; lia).
  destruct (n mod 16 <? 10); lia.
Qed.

Lemma ascii_text_hex4 n : ascii_text (hex4 n).
Proof.
  unfold hex4.
  repeat apply ascii_text_cons; try apply ascii_text_nil;
    right; apply hex_digit_ascii.
Qed.

Lemma ascii_text_escape c : ascii_text (escape c).
Proof.
  unfold escape.
  repeat match goal with
         | |- ascii_text (if ?b then _ else _) => destruct b eqn:?
         end;
    cbv zeta;
    repeat first [ apply ascii_text_nil
                 | apply ascii_text_hex4
                 | apply ascii_text_app
                 | apply ascii_text_cons; [lia|] ].
Qed.

Lemma ascii_text_basestring s : ascii_text (encode_basestring_ascii s).
Proof.
  unfold encode_basestring_ascii.
  apply ascii_text_cons; [lia|]. apply ascii_text_app.
  - induction s as [|c s IH]; [apply ascii_text_nil|].
    cbn [flat_map]. apply ascii_text_app; [apply ascii_text_escape | exact IH].
  - apply ascii_text_cons; [lia | apply ascii_text_nil].
Qed.

Lemma ascii_text_newline_indent level : ascii_text (newline_indent level).
Proof.
  unfold newline_indent. apply ascii_text_cons; [lia|].
  induction (2 * level)%nat; [apply ascii_text_nil|].
  cbn [repeat]. apply ascii_text_cons; [lia | assumption].
Qed.

Lemma ascii_text_encode v : forall level, ascii_text (encode level v).
Proof.
  induction v as [s | items IH | members IH] using value_induction;
    intros level.
  - apply ascii_text_basestring.
  - destruct items as [|first others].
    + cbn [encode]. repeat (apply ascii_text_cons; [lia|]).
      apply ascii_text_nil.
    + rewrite encode_JArray. inversion IH as [|? ? Hfirst Hothers]; subst.
      repeat first [ apply ascii_text_newline_indent
                   | apply Hfirst
                   | apply ascii_text_nil
                   | apply ascii_text_app
                   | apply ascii_text_cons; [lia|] ].
      clear Hfirst IH. induction Hothers as [|v l Hv _ IHl];
        [apply ascii_text_nil|].
      cbn [more_items flat_map].
      repeat first [ apply ascii_text_newline_indent
                   | apply Hv | apply IHl
                   | apply ascii_text_app
                   | apply ascii_text_nil
                   | apply ascii_text_cons; [lia|] ].
  - destruct members as [|[key first] others].
    + cbn [encode]. repeat (apply ascii_text_cons; [lia|]).
      apply ascii_text_nil.
    + rewrite encode_JObject. inversion IH as [|? ? Hfirst Hothers]; subst.
      cbn [snd] in Hfirst.
      repeat first [ apply ascii_text_newline_indent
                   | apply ascii_text_basestring
                   | apply Hfirst
                   | apply ascii_text_nil
                   | apply ascii_text_app
                   | apply ascii_text_cons; [lia|] ].
      clear Hfirst IH. induction Hothers as [|[k v] l Hv _ IHl];
        [apply ascii_text_nil|].
      cbn [more_members flat_map fst snd] in *.
      repeat first [ apply ascii_text_newline_indent
                   | apply ascii_text_basestring
                   | apply Hv | apply IHl
                   | apply ascii_text_app
                   | apply ascii_text_nil
                   | apply ascii_text_cons; [lia|] ].
Qed.

End AsciiFacts.

Section ExportProperties.
Context `{World}.
Import Json JsonFacts.

(** X17.  Whatever characters the records hold, the text the exporter
    writes consists of line feeds and printable ASCII characters only
    (every other character is written as an escape). *)
Theorem exported_text_is_ascii movies :
  ascii_text (dumps (JArray (map asdict movies)))
  /\ forall filename st,
       fst (save_movies_to_json_file movies filename st) = Ok tt ->
       exists content,
         dict_get filename
           (files (snd (save_movies_to_json_file movies filename st)))
         = Some content
         /\ ascii_text content.
Proof.
  assert (Ha : ascii_text (dumps (JArray (map asdict movies))))
    by apply ascii_text_encode.
  split; [exact Ha|].
  intros filename st. unfold save_movies_to_json_file.
  destruct (write_text filename _); [|discriminate].
  intros _.
  destruct (print_effects (py "Data saved to " ++ filename)
              (mk_state (requested st) (console st)
                 (dict_set filename (dumps (JArray (map asdict movies)))
                           (files st)))) as (_ & -> & _).
  cbn [files]. eexists. split; [apply dict_get_set_eq | exact Ha].
Qed.

End ExportProperties.

(** ** The orchestrator: a whole run *)

Section MainFacts.
Context `{Platform} `{World}.
Import Calendar CalendarFacts RangeFacts Soup SoupFacts.

Lemma strptime_main_start :
  ascii_digits -> strptime_Ymd (py "20250212") = Ok main_start.
Proof.
  intros Hd. change (py "20250212") with (compact main_start).
  apply strptime_Ymd_compact; [assumption|].
  unfold valid, main_start. cbn [year month day].
  change (days_in_month 2025 2) with 28. lia.
Qed.

Lemma four_digit_main_start : four_digit_year main_start.
Proof. left. unfold main_start. cbn [year]. lia. Qed.

Lemma reached_main_start : reached main_start 10 = 10.
Proof. reflexivity. Qed.

Lemma four_digit_main_days d : In d main_days -> four_digit_year d.
Proof.
  unfold main_days, dates_from. intros Hd.
  apply in_map_iff in Hd as (i & <- & Hi). apply in_seq in Hi.
  apply four_digit_year_days_after.
  - unfold valid, main_start. cbn [year month day].
    change (days_in_month 2025 2) with 28. lia.
  - change (toordinal main_start) with 739294. unfold MAXORDINAL.
    change (Z.to_nat 10) with 10%nat in Hi. lia.
  - exact four_digit_main_start.
Qed.

(** one call of the enricher by [main] *)
Lemma enrich_by_main movie st :
  ascii_digits ->
  Forall console_takes (log_lines movie (requested st) main_days) ->
  let r := enrich_movie_with_timings_for_dates movie (py "20250212") 10 st in
  snd (fst r) = Ok tt
  /\ details (fst (fst r)) = details movie
  /\ keys (timings (fst (fst r))) = map isoformat main_days
  /\ requested (snd r) = requested st ++ map (url_for movie) main_days
  /\ files (snd r) = files st.
Proof.
  intros Hd Hl r.
  assert (Hs := strptime_main_start Hd).
  assert (Hl' : Forall console_takes
                  (log_lines movie (requested st)
                     (dates_from main_start (reached main_start 10))))
    by (rewrite reached_main_start; exact Hl).
  destruct (enrich_timings movie (py "20250212") main_start 10 st Hs
              four_digit_main_start Hl') as (_ & Hk & _ & Hreq & Hok & _).
  assert (Er : r = enrich_loop (set_timings movie []) main_start (range 10) st)
    by (unfold r, enrich_movie_with_timings_for_dates; now rewrite Hs).
  destruct (enrich_loop_effects (range 10) (set_timings movie []) main_start
              st) as (Hdet & Hfiles & _).
  rewrite <- Er in Hdet, Hfiles.
  fold r in Hk, Hreq, Hok.
  rewrite reached_main_start in *.
  split; [apply Hok; lia|]. split; [|split; [|split; [|exact Hfiles]]].
  - change (details (fst (fst r)))
      with (details (set_timings (fst (fst r)) [])).
    now rewrite Hdet.
  - rewrite Hk. unfold main_days, dates_from. now rewrite map_map.
  - exact Hreq.
Qed.

Lemma page_url_main_days movie :
  map (url_for movie) main_days = map (page_url movie) main_days.
Proof.
  apply map_ext_in. intros d Hin. apply url_for_compact.
  now apply four_digit_main_days.
Qed.

(** the loop of [main] over the movies *)
Lemma enrich_all_by_main movies :
  ascii_digits ->
  forall st,
    Forall console_takes (main_loop_lines movies (requested st)) ->
    let r := enrich_all movies st in
    snd (fst r) = Ok tt
    /\ map details (fst (fst r)) = map details movies
    /\ Forall (fun m => keys (timings m) = map isoformat main_days)
              (fst (fst r))
    /\ requested (snd r)
       = requested st
         ++ flat_map (fun m => map (page_url m) main_days) movies
    /\ console (snd r)
       = console st ++ main_loop_lines movies (requested st)
    /\ files (snd r) = files st.
Proof.
  intros Hd. induction movies as [|movie rest IH]; intros st Hl; cbn zeta.
  - cbn [enrich_all fst snd map flat_map main_loop_lines].
    rewrite !app_nil_r.
    split; [reflexivity|]. split; [reflexivity|].
    split; [constructor|]. repeat split; reflexivity.
  - cbn [enrich_all main_loop_lines] in *.
    apply Forall_cons_iff in Hl as [Hline Hl].
    apply Forall_app in Hl as [Hlog Hrest].
    fold (enriching_line movie). rewrite (print_takes _ _ Hline).
    set (st0 := mk_state _ _ _).
    destruct (enrich_by_main movie st0 Hd Hlog) as (E1 & E2 & E3 & E4 & E5).
    assert (E6 := enrich_run movie (py "20250212") main_start 10 st0
                    (strptime_main_start Hd)).
    cbv zeta in E6. rewrite reached_main_start in E6.
    destruct (E6 Hlog) as (_ & E7 & _). clear E6.
    destruct (enrich_movie_with_timings_for_dates movie (py "20250212") 10 st0)
      as [[movie' out] st'].
    cbn [fst snd] in E1, E2, E3, E4, E5, E7. subst out.
    assert (Hrest' : Forall console_takes
                       (main_loop_lines rest (requested st')))
      by (rewrite E4; exact Hrest).
    destruct (IH st' Hrest') as (I1 & I2 & I3 & I4 & I5 & I6).
    destruct (enrich_all rest st') as [[rest' out'] st''].
    cbn [fst snd] in *. subst out'.
    split; [reflexivity|]. split; [|split; [|split; [|split]]].
    + cbn [map]. now rewrite E2, I2.
    + now constructor.
    + rewrite I4, E4. cbn [flat_map requested].
      now rewrite page_url_main_days, app_assoc.
    + rewrite I5, E4, E7. unfold st0. cbn [console requested].
      fold main_days. rewrite <- !app_assoc. reflexivity.
    + now rewrite I6, E5.
Qed.

(** the state in which [main] starts the loop over the movies, after a
    listing was fetched and parsed *)
Lemma main_after_listing st r soup :
  requests_get (requested st) whatson_url = Ok r ->
  ~ 400 <= status_code r < 600 ->
  BeautifulSoup (text r) = Ok soup ->
  let st2 :=
    mk_state (requested st ++ [whatson_url])
      (console st
       ++ [py "Fetching movie listings from: " ++ whatson_url;
           py "Found " ++ str_of_nat (List.length (movies_of_soup soup))
           ++ py " movies." ++ [10]])
      (files st) in
  main st
  = match enrich_all (movies_of_soup soup) st2 with
    | (_, Raise e, st3) =>
        print (py "Error fetching movie data: " ++ exc_msg e) st3
    | (movies, Ok _, st3) =>
        match save_movies_to_json_file movies (py "movies.json") st3 with
        | (Ok _, st4) => (Ok tt, st4)
        | (Raise e, st4) =>
            print (py "Error fetching movie data: " ++ exc_msg e) st4
        end
    end.
Proof.
  intros Hr Hst Hb st2. unfold main, main_try, fetch_page.
  rewrite main_first_print. cbn [requested console files]. rewrite Hr.
  rewrite (raise_for_status_Ok r Hst).
  unfold parse_movies. rewrite Hb.
  rewrite main_found_print. cbn [requested console files].
  rewrite <- app_assoc. cbn [app]. subst st2.
  destruct (enrich_all (movies_of_soup soup) _) as [[movies [[]|e]] st3];
    [|reflexivity].
  destruct (save_movies_to_json_file movies (py "movies.json") st3)
    as [[[]|e] st4]; reflexivity.
Qed.

(** a run whose listing request fails with [e] *)
Lemma main_without_listing st e :
  fst (fetch_page whatson_url
         (mk_state (requested st)
            (console st ++ [py "Fetching movie listings from: "
                            ++ whatson_url]) (files st))) = Raise e ->
  main st
  = print (py "Error fetching movie data: " ++ exc_msg e)
      (mk_state (requested st ++ [whatson_url])
         (console st ++ [py "Fetching movie listings from: " ++ whatson_url])
         (files st)).
Proof.
  intros Hf. unfold main, main_try. rewrite main_first_print.
  destruct (fetch_page_state whatson_url
              (mk_state (requested st)
                 (console st ++ [py "Fetching movie listings from: "
                                 ++ whatson_url]) (files st))) as [o Eo].
  rewrite Eo in Hf |- *. cbn [fst] in Hf. subst o. reflexivity.
Qed.

End MainFacts.

Section MainProperties.
Context `{Platform} `{World}.
Import Calendar CalendarFacts RangeFacts Soup SoupFacts Json.

(** X18.  When the request of the listing page raises, or is answered
    with an error status, [main] makes no other request, writes no file,
    and prints [Error fetching movie data: ...] with the message of the
    exception after its first line; for an error status this is the
    message of [raise_for_status].  When the console can encode this line,
    [main] returns normally with the two lines printed. *)
Theorem listing_failure_ends_the_run st :
  (forall e,
      requests_get (requested st) whatson_url = Raise e ->
      main st
      = print (py "Error fetching movie data: " ++ exc_msg e)
          (mk_state (requested st ++ [whatson_url])
             (console st
              ++ [py "Fetching movie listings from: " ++ whatson_url])
             (files st))
      /\ requested (snd (main st)) = requested st ++ [whatson_url]
      /\ files (snd (main st)) = files st
      /\ (console_takes (py "Error fetching movie data: " ++ exc_msg e) ->
          main st
          = (Ok tt,
             mk_state (requested st ++ [whatson_url])
               (console st
                ++ [py "Fetching movie listings from: " ++ whatson_url;
                    py "Error fetching movie data: " ++ exc_msg e])
               (files st))))
  /\ (forall r,
         requests_get (requested st) whatson_url = Ok r ->
         400 <= status_code r < 600 ->
         exists e,
           exc_class e = py "HTTPError"
           /\ exc_msg e = http_error_msg r
           /\ main st
              = print (py "Error fetching movie data: " ++ exc_msg e)
                  (mk_state (requested st ++ [whatson_url])
                     (console st
                      ++ [py "Fetching movie listings from: "
                          ++ whatson_url])
                     (files st))
           /\ requested (snd (main st)) = requested st ++ [whatson_url]
           /\ files (snd (main st)) = files st
           /\ (console_takes (py "Error fetching movie data: " ++ exc_msg e)
               -> main st
                  = (Ok tt,
                     mk_state (requested st ++ [whatson_url])
                       (console st
                        ++ [py "Fetching movie listings from: "
                            ++ whatson_url;
                            py "Error fetching movie data: " ++ exc_msg e])
                       (files st)))).
Proof.
  assert (Hgen : forall e,
      fst (fetch_page whatson_url
             (mk_state (requested st)
                (console st ++ [py "Fetching movie listings from: "
                                ++ whatson_url]) (files st))) = Raise e ->
      main st
      = print (py "Error fetching movie data: " ++ exc_msg e)
          (mk_state (requested st ++ [whatson_url])
             (console st
              ++ [py "Fetching movie listings from: " ++ whatson_url])
             (files st))
      /\ requested (snd (main st)) = requested st ++ [whatson_url]
      /\ files (snd (main st)) = files st
      /\ (console_takes (py "Error fetching movie data: " ++ exc_msg e) ->
          main st
          = (Ok tt,
             mk_state (requested st ++ [whatson_url])
               (console st
                ++ [py "Fetching movie listings from: " ++ whatson_url;
                    py "Error fetching movie data: " ++ exc_msg e])
               (files st)))).
  { intros e Hf. assert (Em := main_without_listing st e Hf).
    split; [exact Em|]. rewrite Em.
    destruct (print_effects (py "Error fetching movie data: " ++ exc_msg e)
                (mk_state (requested st ++ [whatson_url])
                   (console st
                    ++ [py "Fetching movie listings from: " ++ whatson_url])
                   (files st))) as (E1 & E2 & _).
    split; [exact E1|]. split; [exact E2|].
    intros Hc. rewrite (print_takes _ _ Hc). cbn [requested console files].
    now rewrite <- app_assoc. }
  split.
  - intros e Hr. apply Hgen. unfold fetch_page. cbn [requested].
    now rewrite Hr.
  - intros r Hr Hst. exists (HTTPError (http_error_msg r)).
    split; [reflexivity|]. split; [reflexivity|].
    apply Hgen. unfold fetch_page. cbn [requested].
    now rewrite Hr, (raise_for_status_Raise r Hst).
Qed.

(** X19.  When the listing page is fetched and parsed and the console can
    encode the lines of the loop over the movies, [main] requests, after
    the listing and for each movie of the listing in order, the detail
    pages of the ten days from 2025-02-12 to 2025-02-21, and nothing
    else, whatever these requests return and whether or not the file can
    be written.  (The ASCII digits are taken to be decimal digits, as they
    are in Unicode.) *)
Theorem main_requests_ten_days_per_movie st r soup :
  ascii_digits ->
  requests_get (requested st) whatson_url = Ok r ->
  ~ 400 <= status_code r < 600 ->
  BeautifulSoup (text r) = Ok soup ->
  can_print (main_loop_lines (movies_of_soup soup)
                             (requested st ++ [whatson_url])) ->
  requested (snd (main st))
  = requested st
    ++ whatson_url
       :: flat_map (fun movie => map (page_url movie) main_days)
                   (movies_of_soup soup)
  /\ map compact main_days
     = map py ["20250212"; "20250213"; "20250214"; "20250215"; "20250216";
               "20250217"; "20250218"; "20250219"; "20250220";
               "20250221"]%string.
Proof.
  intros Hd Hr Hst Hb Hp. apply can_print_Forall in Hp.
  split; [|reflexivity].
  rewrite (main_after_listing st r soup Hr Hst Hb). cbv zeta.
  set (st2 := mk_state _ _ _).
  destruct (enrich_all_by_main (movies_of_soup soup) Hd st2 Hp)
    as (E1 & _ & _ & E4 & _).
  destruct (enrich_all (movies_of_soup soup) st2) as [[movies out] st3].
  cbn [fst snd] in E1, E4. subst out.
  assert (E : requested st3
              = requested st
                ++ whatson_url
                   :: flat_map (fun movie => map (page_url movie) main_days)
                               (movies_of_soup soup)).
  { rewrite E4. unfold st2. cbn [requested]. now rewrite <- app_assoc. }
  assert (Es : requested
                 (snd (save_movies_to_json_file movies (py "movies.json")
                         st3)) = requested st3).
  { unfold save_movies_to_json_file. destruct (write_text _ _).
    - now destruct (print_effects (py "Data saved to " ++ py "movies.json")
                      (mk_state (requested st3) (console st3)
                         (dict_set (py "movies.json")
                            (dumps (JArray (map asdict movies)))
                            (files st3)))) as (-> & _).
    - reflexivity. }
  destruct (save_movies_to_json_file movies (py "movies.json") st3)
    as [[[]|e] st4]; cbn [snd] in *.
  - now rewrite Es.
  - destruct (print_effects (py "Error fetching movie data: " ++ exc_msg e)
                st4) as (-> & _).
    now rewrite Es.
Qed.

(** X20.  When the listing page is fetched and parsed, the console can
    encode the lines of the loop over the movies and the file can be
    written, [main] returns normally and [movies.json] holds the export of
    one record per movie of the listing, in order, each with the details
    the listing parser read and with the ten dates from 2025-02-12 to
    2025-02-21 as the keys of its timings; the lines printed are the two
    lines about the listing, the lines of the loop and, last, the line
    that reports the file. *)
Theorem main_exports_every_listed_movie st r soup :
  ascii_digits ->
  requests_get (requested st) whatson_url = Ok r ->
  ~ 400 <= status_code r < 600 ->
  BeautifulSoup (text r) = Ok soup ->
  can_print (main_loop_lines (movies_of_soup soup)
                             (requested st ++ [whatson_url])) ->
  (forall content, write_text (py "movies.json") content = Ok tt) ->
  exists movies,
    fst (main st) = Ok tt
    /\ dict_get (py "movies.json") (files (snd (main st)))
       = Some (dumps (JArray (map asdict movies)))
    /\ map details movies = map details (movies_of_soup soup)
    /\ Forall (fun movie =>
                 keys (timings movie)
                 = map py ["2025-02-12"; "2025-02-13"; "2025-02-14";
                           "2025-02-15"; "2025-02-16"; "2025-02-17";
                           "2025-02-18"; "2025-02-19"; "2025-02-20";
                           "2025-02-21"]%string) movies
    /\ console (snd (main st))
       = console st
         ++ [py "Fetching movie listings from: " ++ whatson_url;
             py "Found " ++ str_of_nat (List.length (movies_of_soup soup))
             ++ py " movies." ++ [10]]
         ++ main_loop_lines (movies_of_soup soup)
                            (requested st ++ [whatson_url])
         ++ [py "Data saved to movies.json"]
    /\ last (console (snd (main st))) [] = py "Data saved to movies.json".
Proof.
  intros Hd Hr Hst Hb Hp Hw. apply can_print_Forall in Hp.
  rewrite (main_after_listing st r soup Hr Hst Hb). cbv zeta.
  set (st2 := mk_state _ _ _).
  destruct (enrich_all_by_main (movies_of_soup soup) Hd st2 Hp)
    as (E1 & E2 & E3 & _ & E5 & _).
  destruct (enrich_all (movies_of_soup soup) st2) as [[movies out] st3].
  cbn [fst snd] in E1, E2, E3, E5. subst out.
  exists movies. unfold save_movies_to_json_file. rewrite Hw.
  rewrite print_takes by (apply console_takes_ascii; reflexivity).
  cbn [fst snd files console].
  split; [reflexivity|].
  split; [apply dict_get_set_eq|]. split; [exact E2|].
  split; [exact E3|]. split; [|apply last_last].
  rewrite E5. unfold st2. cbn [console requested].
  now rewrite <- !app_assoc.
Qed.

(** X21.  When the listing holds no movie entry, [main] requests the
    listing only and, when the file can be written, writes the empty
    list. *)
Theorem empty_listing_exports_empty_list st r soup :
  requests_get (requested st) whatson_url = Ok r ->
  ~ 400 <= status_code r < 600 ->
  BeautifulSoup (text r) = Ok soup ->
  lacks (py "article") (Some (py "movie-summary")) soup ->
  write_text (py "movies.json") (py "[]") = Ok tt ->
  main st
  = (Ok tt,
     mk_state (requested st ++ [whatson_url])
       (console st
        ++ [py "Fetching movie listings from: " ++ whatson_url;
            py "Found 0 movies." ++ [10];
            py "Data saved to movies.json"])
       (dict_set (py "movies.json") (py "[]") (files st))).
Proof.
  intros Hr Hst Hb Hl Hw.
  rewrite (main_after_listing st r soup Hr Hst Hb). cbv zeta.
  unfold movies_of_soup. rewrite (find_all_lacks _ _ _ Hl).
  cbn [map enrich_all List.length].
  unfold save_movies_to_json_file. cbn [map].
  change (dumps (JArray [])) with (py "[]"). rewrite Hw.
  rewrite print_takes by (apply console_takes_ascii; reflexivity).
  cbn [requested console files].
  rewrite <- app_assoc. reflexivity.
Qed.

End MainProperties.

(** *** The further properties at concrete inputs *)

Lemma enrich_changes_only_timings_witness :
  let r := @enrich_movie_with_timings_for_dates ascii_platform
             third_request_fails a_movie (py "20250212") 3 initial_state in
  details (fst (fst r)) = details a_movie
  /\ files (snd r) = files initial_state
  /\ (exists urls, requested (snd r) = requested initial_state ++ urls)
  /\ (exists lines, console (snd r) = console initial_state ++ lines).
Proof.
  exact (@enrich_changes_only_timings ascii_platform third_request_fails
           a_movie (py "20250212") 3 initial_state).
Defined.

Lemma tokens_are_pieces_of_the_text_witness :
  py "9:15" <> []
  /\ exists before after,
       @time_text (time_item "14:30 and 9:15") = before ++ py "9:15" ++ after.
Proof.
  apply (proj1 (@tokens_are_pieces_of_the_text ascii_platform)
           (time_item "14:30 and 9:15") (py "9:15")).
  vm_compute. right. left. reflexivity.
Defined.

Lemma empty_cinemas_and_experiences_are_kept_witness :
  dict_get (py "Riyadh Park")
    (@showtimes_of_soup ascii_platform page_with_empty_list)
  = Some [].
Proof.
  apply (proj1 (@empty_cinemas_and_experiences_are_kept ascii_platform)
           (heading "Riyadh Park", [showtimes_list []])
           (showtimes_list []) [] []).
  - exists []. split; [reflexivity|]. split; [reflexivity|]. intros c [].
  - intros li [].
Defined.

Lemma parsed_fields_are_trimmed_witness :
  Forall trimmed
    (details (parse_article
                (article [(py "data-slug", py "dune");
                          (py "data-title", py " Dune ")] [])))
  /\ timings (parse_article
                (article [(py "data-slug", py "dune");
                          (py "data-title", py " Dune ")] [])) = [].
Proof.
  exact (proj1 parsed_fields_are_trimmed
           (article [(py "data-slug", py "dune");
                     (py "data-title", py " Dune ")] [])).
Defined.

Lemma image_comes_from_first_link_witness :
  image_url (parse_article entry_with_late_image) = [].
Proof.
  apply (proj1 (image_comes_from_first_link entry_with_late_image
                  (Tag (py "a") [] [(py "href", py "/movies/film")]
                       [text_node "Film"],
                   [Tag (py "a") [] [(py "href", py "/movies/film")]
                        [Tag (py "img") []
                             [(py "data-src", py "/img/film.jpg")] []]])
                  eq_refl)).
  intros e [<-|[]]. reflexivity.
Defined.

Lemma exported_text_is_ascii_witness :
  ascii_text (Json.dumps (Json.JArray (map asdict [surrogate_movie]))).
Proof.
  exact (proj1 (@exported_text_is_ascii third_request_fails
                  [surrogate_movie])).
Defined.

Lemma listing_failure_ends_the_run_witness :
  @main ascii_platform offline initial_state
  = (Ok tt,
     mk_state [py "https://ksa.voxcinemas.com/movies/whatson"]
       [py "Fetching movie listings from: https://ksa.voxcinemas.com/movies/whatson";
        py "Error fetching movie data: connection refused"]
       []).
Proof.
  apply (proj1 (@listing_failure_ends_the_run ascii_platform offline
                  initial_state)
           (mk_exn (py "ConnectionError") (py "connection refused"))).
  - reflexivity.
  - vm_compute. reflexivity.
Defined.

Lemma main_requests_ten_days_per_movie_witness :
  requested (snd (@main ascii_platform read_only_disk initial_state))
  = whatson_url
    :: flat_map (fun movie => map (page_url movie) main_days)
                (movies_of_soup listing_page).
Proof.
  apply (@main_requests_ten_days_per_movie ascii_platform read_only_disk
           initial_state
           (mk_response 200 (py "OK") whatson_url (py "listing"))
           listing_page).
  - exact ascii_platform_digits.
  - reflexivity.
  - cbn [status_code]. lia.
  - reflexivity.
  - vm_compute. reflexivity.
Defined.

Lemma main_exports_every_listed_movie_witness :
  exists movies,
    fst (@main ascii_platform serving initial_state) = Ok tt
    /\ dict_get (py "movies.json")
      (files (snd (@main ascii_platform serving initial_state)))
       = Some (Json.dumps (Json.JArray (map asdict movies)))
    /\ map details movies = map details (movies_of_soup listing_page)
    /\ Forall (fun movie =>
                 keys (timings movie)
                 = map py ["2025-02-12"; "2025-02-13"; "2025-02-14";
                           "2025-02-15"; "2025-02-16"; "2025-02-17";
                           "2025-02-18"; "2025-02-19"; "2025-02-20";
                           "2025-02-21"]%string) movies
    /\ console (snd (@main ascii_platform serving initial_state))
       = console initial_state
         ++ [py "Fetching movie listings from: " ++ whatson_url;
             py "Found "
             ++ str_of_nat (List.length (movies_of_soup listing_page))
             ++ py " movies." ++ [10]]
         ++ @main_loop_lines ascii_platform serving
              (movies_of_soup listing_page)
              (requested initial_state ++ [whatson_url])
         ++ [py "Data saved to movies.json"]
    /\ last (console (snd (@main ascii_platform serving initial_state))) []
       = py "Data saved to movies.json".
Proof.
  apply (@main_exports_every_listed_movie ascii_platform serving
           initial_state
           (mk_response 200 (py "OK") whatson_url (py "listing"))
           listing_page).
  - exact ascii_platform_digits.
  - reflexivity.
  - cbn [status_code]. lia.
  - reflexivity.
  - vm_compute. reflexivity.
  - reflexivity.
Defined.

(** a title the console cannot encode ends the run in the handler of
    [main]: no detail page is requested and no file is written *)
Example unprintable_title_ends_the_run :
  @main ascii_platform ascii_console initial_state
  = (Ok tt,
     mk_state [py "https://ksa.voxcinemas.com/movies/whatson"]
       [py "Fetching movie listings from: https://ksa.voxcinemas.com/movies/whatson";
        py "Found 1 movies." ++ [10];
        py "Error fetching movie data: codec can't encode characters"]
       []).
Proof. vm_compute. reflexivity. Qed.

Lemma empty_listing_exports_empty_list_witness :
  @main ascii_platform third_request_fails initial_state
  = (Ok tt,
     mk_state [py "https://ksa.voxcinemas.com/movies/whatson"]
       [py "Fetching movie listings from: https://ksa.voxcinemas.com/movies/whatson";
        py "Found 0 movies." ++ [10];
        py "Data saved to movies.json"]
       [(py "movies.json", py "[]")]).
Proof.
  apply (@empty_listing_exports_empty_list ascii_platform third_request_fails
           initial_state
           (mk_response 200 (py "OK") whatson_url (py "<html></html>"))
           empty_document).
  - reflexivity.
  - cbn [status_code]. lia.
  - reflexivity.
  - intros e [].
  - reflexivity.
Defined.

Lemma keys_keep_first_position_witness :
  keys (@experiences_of_list ascii_platform
          (showtimes_list
             [experience_item "Standard" [time_item "12:00"];
              experience_item "Gold" [time_item "13:00"];
              experience_item "Standard" [time_item "14:30"]]))
  = [py "Standard"; py "Gold"].
Proof.
  exact (proj2 (@keys_keep_first_position ascii_platform)
           (showtimes_list
              [experience_item "Standard" [time_item "12:00"];
               experience_item "Gold" [time_item "13:00"];
               experience_item "Standard" [time_item "14:30"]])).
Defined.

